(** * Lontium LT9211C MIPI-DSI to LVDS bridge: bring-up logic

    A shallow embedding of [drivers/gpu/drm/bridge/lontium-lt9211c-eideal.c]:
    the supported-timing table, the input timing probe and mode matcher, the
    clock-recovery (PCR) set-up and calibration, the LVDS TX PLL set-up and
    the bring-up state machine [lt9211c_module_config].

    Machine integers are [Z] with the C conversions written out ([u8], [u16],
    [u32], [s32]).  All operands of the divisions below are unsigned, so C
    division agrees with [Z.div]; a zero divisor, which C leaves undefined,
    ends the run with [DivideError].  The register transport (regmap over
    I2C) is outside the driver and is kept abstract in the class
    [RegisterInterface]. *)

From Stdlib Require Import ZArith List Bool Lia.
Import ListNotations.
Local Open Scope Z_scope.

(** ** Fixed-width integers *)

Definition u8 (x : Z) : Z := x mod 2 ^ 8.
Definition u16 (x : Z) : Z := x mod 2 ^ 16.
Definition u32 (x : Z) : Z := x mod 2 ^ 32.
(** [int] under the kernel's [-fno-strict-overflow]: two's complement wrap. *)
Definition s32 (x : Z) : Z := (x + 2 ^ 31) mod 2 ^ 32 - 2 ^ 31.

(** Unsigned division; no result for a zero divisor (undefined in C). *)
Definition udiv (a b : Z) : option Z :=
  if b =? 0 then None else Some (a / b).

(** include/linux/errno.h *)
Definition EPROBE_DEFER : Z := 517.
Definition ENOPARAM : Z := 519.
(** include/drm/drm_mipi_dsi.h: [BIT(1)] *)
Definition MIPI_DSI_MODE_VIDEO_BURST : Z := 2.

Definition LT9211C_DESSCPLL_PIX_CLK : Z := 0x01.
Definition LT9211C_MLRX_BYTE_CLK : Z := 0x03.
Definition LT9211C_AD_DESSCPLL_PIX_CLK : Z := 0x10.

(** ** Data model *)

Inductive lt9211c_state : Type :=
| LT9211C_STATE_PREPARE
| LT9211C_STATE_CHIPRX_VIDTIMING_CONFIG
| LT9211C_STATE_CHIPRX_PLL_CONFIG
| LT9211C_STATE_CHIPTX_CONFIG_VIDEO
| LT9211C_STATE_CHIPTX_VIDEO_OUT.

Record lt9211c_mipi_rx_video_timing : Type := mk_rx_timing {
  wc : Z;          (* u16 *)
  hact : Z;        (* u16 *)
  vact : Z;        (* u16 *)
  fmt : Z;         (* u8 *)
  pa_lpn : Z;      (* u8 *)
  frame_rate : Z   (* u8 *)
}.

Record lt9211c_video_timing : Type := mk_timing {
  hfront_porch : Z;
  hsync_len : Z;
  hback_porch : Z;
  hactive : Z;
  htotal : Z;
  vfront_porch : Z;
  vsync_len : Z;
  vback_porch : Z;
  vactive : Z;
  vtotal : Z;
  framerate : Z;   (* u8 *)
  pclk_khz : Z     (* u32 *)
}.

Record lt9211c_pcr_setting : Type := mk_pcr {
  pcr_m : Z;
  pcr_k : Z;
  pcr_up_limit : Z;
  pcr_down_limit : Z
}.

(** [memset(&x, 0, sizeof(x))] *)
Definition rx_timing_zero : lt9211c_mipi_rx_video_timing :=
  mk_rx_timing 0 0 0 0 0 0.
Definition video_timing_zero : lt9211c_video_timing :=
  mk_timing 0 0 0 0 0 0 0 0 0 0 0 0.

(** A row of [lt9211c_support_timing]: eleven initialisers, [pclk_khz] is
    left to the zero default. *)
Definition row (hfp hs hbp hact ht vfp vs vbp vact vt fr : Z)
  : lt9211c_video_timing :=
  mk_timing hfp hs hbp hact ht vfp vs vbp vact vt fr 0.

Definition lt9211c_support_timing : list lt9211c_video_timing :=
  [ row 24   96  40  640  800  33 2  10 480  525  60   (* 640x480_60Hz *)
  ; row 16   62  60  720  858  9  6  30 480  525  60   (* 720x480_60Hz *)
  ; row 12   64  88  720  864  5  5  39 576  625  50   (* 720x576_50Hz *)
  ; row 48   128 88  800  1056 1  4  23 600  628  60   (* 800x600_60Hz *)
  ; row 110  40  220 1280 1650 5  5  20 720  750  30   (* 1280x720_30Hz *)
  ; row 440  40  220 1280 1980 5  5  20 720  750  50   (* 1280x720_50Hz *)
  ; row 110  40  220 1280 1650 5  5  20 720  750  60   (* 1280x720_60Hz *)
  ; row 24   136 160 1024 1344 3  6  29 768  806  60   (* 1024x768_60Hz *)
  ; row 26   110 110 1366 1592 13 6  13 768  800  60   (* 1366x768_60Hz *)
  ; row 110  40  220 1280 1650 5  5  20 720  750  30   (* 1280x720_30Hz *)
  ; row 48   32  80  1920 2080 5  5  20 720  750  60   (* 1920x720_60Hz *)
  ; row 48   112 248 1280 1688 1  3  38 1024 1066 60   (* 1028x1024_60Hz *)
  ; row 88   44  148 1920 2200 4  5  36 1080 1125 30   (* 1920x1080_30Hz *)
  ; row 88   44  148 1920 2200 4  5  36 1080 1125 60   (* 1920x1080_60Hz *)
  ; row 88   44  148 1920 2200 4  5  36 1080 1125 90   (* 1920x1080_90Hz *)
  ; row 64   192 304 1600 2160 1  3  46 1200 1250 60   (* 1600x1200_60Hz *)
  ; row 48   32  80  1920 2080 3  6  26 1200 1235 60   (* 1920x1200_60Hz *)
  ; row 32   48  80  2048 2208 6  3  28 1280 1317 60   (* 2048x1280_60Hz *)
  ; row 50   48  80  2304 2482 6  3  32 1440 1481 60   (* 2304x1440_60Hz *)
  ; row 48   32  80  2560 2720 3  5  33 1440 1481 60   (* 2560x1440_60Hz *)
  ; row 1276 88  296 3840 5500 8  10 72 2160 2250 24   (* 3840x2160_24Hz *)
  ].

(** ** Pure parts of the driver *)

(** The [switch] of [lt9211c_mipi_rx_hact_get]: [wc] is promoted to [int],
    the quotient is stored into the [u16] field [hact]. *)
Definition hact_of_wc (fmt wc : Z) : Z :=
  match fmt with
  | 0x01 | 0x0e => u16 (wc * 5 / 2)
  | 0x02 => u16 (wc / 3)
  | 0x03 => u16 (wc / 2)
  | 0x04 => u16 (wc * 15 / 4)
  | 0x05 => u16 (wc * 9 / 2)
  | 0x06 => u16 (wc / 3)
  | 0x0a => u16 (wc / 3)
  | 0x07 => u16 (wc / 2)
  | 0x08 | 0x09 => u16 (wc * 9 / 4)
  | 0x0b => u16 (wc / 1)
  | 0x0c => u16 (wc * 5 / 4)
  | 0x0d => u16 (wc * 3 / 2)
  | _ => u16 (wc / 3)
  end.

(** The specification's reading of that switch: a rational factor
    (numerator, denominator) per packed-format code, the 24 bpp factor for
    the codes outside the enumeration. *)
Definition format_factor (code : Z) : Z * Z :=
  if (code =? 0x01) || (code =? 0x0e) then (5, 2)       (* YUV422-10 *)
  else if code =? 0x02 then (1, 3)                      (* YUV422-12 *)
  else if code =? 0x03 then (1, 2)                      (* YUV422-8 *)
  else if code =? 0x04 then (15, 4)                     (* RGB10 *)
  else if code =? 0x05 then (9, 2)                      (* RGB12 *)
  else if code =? 0x06 then (1, 3)                      (* YUV420-8 *)
  else if code =? 0x07 then (1, 2)                      (* RGB565 *)
  else if (code =? 0x08) || (code =? 0x09) then (9, 4)  (* RGB6, loose *)
  else if code =? 0x0a then (1, 3)                      (* RGB8 *)
  else if code =? 0x0b then (1, 1)                      (* RAW8 *)
  else if code =? 0x0c then (5, 4)                      (* RAW10 *)
  else if code =? 0x0d then (3, 2)                      (* RAW12 *)
  else (1, 3).

Definition enumerated_format (code : Z) : bool :=
  (1 <=? code) && (code <=? 0x0e).

(** The frame-time arithmetic of [lt9211c_video_check_framerate_get]:
    [frametime = (25000000 * 2 / frametime + 1) / 2; framerate = (u8)frametime]. *)
Definition framerate_of_frametime (frametime : Z) : option Z :=
  match udiv (25000000 * 2) frametime with
  | Some q => Some (u8 (u32 (u32 (q + 1) / 2)))
  | None => None
  end.

(** The loop of [lt9211c_mipi_rx_video_timing_sel] from [index] on, over the
    rows that are left: the index of the row it stops at. *)
Fixpoint support_timing_scan (rows : list lt9211c_video_timing) (index : nat)
    (rx_hact rx_vact current_framerate : Z) : option nat :=
  match rows with
  | [] => None
  | t :: rest =>
      if negb (rx_hact =? hactive t) || negb (rx_vact =? vactive t)
      then support_timing_scan rest (S index) rx_hact rx_vact current_framerate
      else if (current_framerate <? framerate t - 3)
              || (current_framerate >? framerate t + 3)
      then support_timing_scan rest (S index) rx_hact rx_vact current_framerate
      else Some index
  end.

(** What the matcher stores in [ctx->lt9211c_video_timing] for row [t]. *)
Definition resolved_timing (t : lt9211c_video_timing) (current_framerate : Z)
  : lt9211c_video_timing :=
  mk_timing (hfront_porch t) (hsync_len t) (hback_porch t) (hactive t)
            (htotal t) (vfront_porch t) (vsync_len t) (vback_porch t)
            (vactive t) (vtotal t) current_framerate
            (u32 (u32 (u32 (htotal t) * u32 (vtotal t)) * framerate t) / 1000).

(** Divider bands of [lt9211c_mipi_rx_dessc_pll_set]: (value written to
    register 0x2f, [dessc_pll_pixel_clock_div], extra /2 stage). *)
Definition dessc_pll_band (pclk : Z) : Z * Z * bool :=
  if pclk >=? 352000 then (0x04, 2, false)
  else if pclk >=? 176000 then (0x04, 2, false)
  else if pclk >=? 88000 then (0x05, 4, false)
  else if pclk >=? 44000 then (0x06, 8, false)
  else if pclk >=? 22000 then (0x07, 16, false)
  else (0x07, 16, true).

(** Lines 614-621 of the same function. *)
Definition pcr_setting_of (pclk div : Z) : lt9211c_pcr_setting :=
  let m0 := u32 (pclk * div) / 25 in
  let k0 := m0 mod 1000 in
  let m := m0 / 1000 in
  mk_pcr m (u32 (Z.shiftl k0 14)) (u32 (m + 1)) (u32 (m - 1)).

(** [lt9211c_lvds_tx_pll_config]: the three selections. *)
Definition lvds_tx_phy_clk_of (pclk : Z) : Z := u32 (pclk * 7) / 2.

Definition txpll_prediv (pclk : Z) : Z * Z :=
  if pclk <? 20000 then (0x28, 1)
  else if pclk <? 40000 then (0x28, 1)
  else if pclk <? 80000 then (0x29, 2)
  else if pclk <? 160000 then (0x2a, 4)
  else if pclk <? 320000 then (0x2b, 8)
  else (0x2f, 16).

Definition txpll_sericlk_div (phy_clk : Z) : Z * Z :=
  if phy_clk >=? 640000 then (0x42, 1)
  else if phy_clk >=? 320000 then (0x02, 2)
  else if phy_clk >=? 160000 then (0x12, 4)
  else if phy_clk >=? 80000 then (0x22, 8)
  else (0x32, 16).

Definition txpll_pixdiv_sel (pixel_clk_div : Z) : Z :=
  if pixel_clk_div <=? 1 * 2 then 0x00
  else if pixel_clk_div <=? 2 * 2 then 0x01
  else if pixel_clk_div <=? 4 * 2 then 0x02
  else if pixel_clk_div <=? 8 * 2 then 0x03
  else 0x03.

(** ** The register transport and the driver context *)

(** What the driver does to the outside, in program order (newest first in
    [trace]). *)
Inductive event : Type :=
| EvWrite (reg val : Z)          (* regmap_write *)
| EvRead (reg : Z) (count : nat) (* regmap_bulk_read *)
| EvSleep (usec : Z)             (* usleep_range *)
| EvGpio (value : Z)             (* gpiod_set_value_cansleep on the reset line *)
| EvSchedule (msec : Z).         (* schedule_delayed_work *)

(** regmap over I2C.  A write and a bulk read each answer with a status
    ([0], or a negative errno) and move the device on; a read also delivers
    the bytes its buffer holds afterwards.  [stack_garbage] stands for the
    indeterminate content of a [u32] local of which
    [regmap_bulk_read(..., &data, 1)] fills the lowest-addressed byte only
    (the low byte on the little-endian i.MX). *)
Class RegisterInterface (dev : Type) : Type := {
  reg_write : dev -> Z -> Z -> dev * Z;
  reg_read : dev -> Z -> nat -> dev * Z * list Z;
  stack_garbage : dev -> Z
}.

Record lt9211c (dev : Type) : Type := mk_ctx {
  regmap : dev;
  dsi_lanes : Z;
  dsi_mode_flags : Z;
  state : lt9211c_state;
  mipi_rx_video_timing : lt9211c_mipi_rx_video_timing;
  video_timing : lt9211c_video_timing; (* the field [lt9211c_video_timing] *)
  counter : Z;  (* [static int counter] of [lt9211c_module_config] *)
  trace : list event
}.
Arguments mk_ctx {dev}.
Arguments regmap {dev}.
Arguments dsi_lanes {dev}.
Arguments dsi_mode_flags {dev}.
Arguments state {dev}.
Arguments mipi_rx_video_timing {dev}.
Arguments video_timing {dev}.
Arguments counter {dev}.
Arguments trace {dev}.

(** Outcome of running a piece of the driver: it returns, or it divides by
    zero, or the model's loop budget ran out. *)
Inductive result (dev A : Type) : Type :=
| Done (a : A) (s : lt9211c dev)
| DivideError
| FuelOut.
Arguments Done {dev A}.
Arguments DivideError {dev A}.
Arguments FuelOut {dev A}.

Definition M (dev A : Type) : Type := lt9211c dev -> result dev A.

Definition Ret {dev A : Type} (a : A) : M dev A := fun s => Done a s.

Definition bind {dev A B : Type} (m : M dev A) (k : A -> M dev B) : M dev B :=
  fun s =>
    match m s with
    | Done a s' => k a s'
    | DivideError => DivideError
    | FuelOut => FuelOut
    end.

Notation "x <- m ;; k" := (bind m (fun x => k))
  (at level 61, m at next level, right associativity).
Notation "' pat <- m ;; k" := (bind m (fun x => match x with pat => k end))
  (at level 61, pat pattern, m at next level, right associativity).
Notation "m ;;; k" := (bind m (fun _ => k))
  (at level 61, right associativity).

Section Driver.
Context {dev : Type} {RI : RegisterInterface dev}.

Local Abbreviation ctx := (lt9211c dev).
Local Abbreviation M := (M dev).

Definition with_regmap (d : dev) (e : event) (s : ctx) : ctx :=
  mk_ctx d (dsi_lanes s) (dsi_mode_flags s) (state s)
         (mipi_rx_video_timing s) (video_timing s) (counter s) (e :: trace s).

Definition upd_state (st : lt9211c_state) (s : ctx) : ctx :=
  mk_ctx (regmap s) (dsi_lanes s) (dsi_mode_flags s) st
         (mipi_rx_video_timing s) (video_timing s) (counter s) (trace s).

Definition upd_rx_timing (t : lt9211c_mipi_rx_video_timing) (s : ctx) : ctx :=
  mk_ctx (regmap s) (dsi_lanes s) (dsi_mode_flags s) (state s)
         t (video_timing s) (counter s) (trace s).

Definition upd_video_timing (t : lt9211c_video_timing) (s : ctx) : ctx :=
  mk_ctx (regmap s) (dsi_lanes s) (dsi_mode_flags s) (state s)
         (mipi_rx_video_timing s) t (counter s) (trace s).

Definition upd_counter (c : Z) (s : ctx) : ctx :=
  mk_ctx (regmap s) (dsi_lanes s) (dsi_mode_flags s) (state s)
         (mipi_rx_video_timing s) (video_timing s) c (trace s).

Definition emit (e : event) : M unit := fun s =>
  Done tt (with_regmap (regmap s) e s).

Definition get {A : Type} (f : ctx -> A) : M A := fun s => Done (f s) s.

Definition set_state (st : lt9211c_state) : M unit := fun s =>
  Done tt (upd_state st s).

Definition set_rx_timing (t : lt9211c_mipi_rx_video_timing) : M unit := fun s =>
  Done tt (upd_rx_timing t s).

Definition set_video_timing (t : lt9211c_video_timing) : M unit := fun s =>
  Done tt (upd_video_timing t s).

Definition set_counter (c : Z) : M unit := fun s =>
  Done tt (upd_counter c s).

Definition regmap_write (reg val : Z) : M Z := fun s =>
  let '(d, ret) := reg_write (regmap s) reg val in
  Done ret (with_regmap d (EvWrite reg val) s).

Definition regmap_bulk_read (reg : Z) (count : nat) : M (Z * list Z) := fun s =>
  let '(d, ret, bytes) := reg_read (regmap s) reg count in
  Done (ret, bytes) (with_regmap d (EvRead reg count) s).

(** One byte into a [u8]. *)
Definition read_u8 (reg : Z) : M (Z * Z) :=
  '(ret, bytes) <- regmap_bulk_read reg 1 ;;
  Ret (ret, u8 (nth 0 bytes 0)).

(** One byte into the lowest byte of a [u32] that held [old]. *)
Definition read_low_byte (reg old : Z) : M (Z * Z) :=
  '(ret, bytes) <- regmap_bulk_read reg 1 ;;
  Ret (ret, old / 256 * 256 + u8 (nth 0 bytes 0)).

(** An uninitialised [u32] local. *)
Definition uninit_u32 : M Z := fun s => Done (u32 (stack_garbage (regmap s))) s.

(** [regmap_multi_reg_write]: the writes in order, stopping at the first
    status that is not 0. *)
Fixpoint regmap_multi_reg_write (regs : list (Z * Z)) : M Z :=
  match regs with
  | [] => Ret 0
  | (reg, def) :: rest =>
      ret <- regmap_write reg def ;;
      if ret =? 0 then regmap_multi_reg_write rest else Ret ret
  end.

Definition usleep_range (usec : Z) : M unit := emit (EvSleep usec).
Definition gpiod_set_value_cansleep (v : Z) : M unit := emit (EvGpio v).
Definition schedule_delayed_work (msec : Z) : M unit := emit (EvSchedule msec).

(** The recurring tail
    [if (ret < 0) { dev_err(...); return -EPROBE_DEFER; } return ret;]. *)
Definition defer_on_error (ret : Z) : M Z :=
  if ret <? 0 then Ret (- EPROBE_DEFER) else Ret ret.

Definition lt9211c_read_chipid : M Z :=
  regmap_write 0xff 0x81 ;;;
  '(ret, _) <- regmap_bulk_read 0x00 3 ;;
  Ret ret.

Definition lt9211c_mipi_rx_phy_poweron : M Z :=
  regmap_write 0xff 0xd0 ;;;
  data0 <- uninit_u32 ;;
  '(_, data) <- read_low_byte 0x00 data0 ;;
  lanes <- get dsi_lanes ;;
  flags <- get dsi_mode_flags ;;
  let def := if negb (lanes =? 4) then Z.lor data lanes else data in
  ret <- regmap_multi_reg_write [(0x00, def); (0xff, 0x82); (0x01, 0x11)] ;;
  if ret <? 0 then Ret (- EPROBE_DEFER) else
  ret <- regmap_multi_reg_write
           [(0x18, 0x48); (0x01, 0x91); (0x02, 0x00); (0x03, 0xee);
            (0x09, 0x21); (0x04, 0x44); (0x05, 0xc4); (0x06, 0x44);
            (0x13, 0x0c)] ;;
  ret <- (if negb (Z.land flags MIPI_DSI_MODE_VIDEO_BURST =? 0)
          then regmap_write 0x13 0x00 else Ret ret) ;;
  if ret <? 0 then Ret (- EPROBE_DEFER) else
  ret <- regmap_multi_reg_write
           [(0xff, 0xd0); (0x01, 0x00); (0x02, 0x0e); (0x05, 0x00);
            (0x0a, 0x59); (0x0b, 0x20); (0xff, 0x81); (0x09, 0xde);
            (0x09, 0xdf)] ;;
  defer_on_error ret.

Definition lt9211c_mipi_rx_clk_sel : M Z :=
  ret <- regmap_multi_reg_write
           [(0xff, 0x85); (0xe9, 0x88); (0xff, 0x81); (0x80, 0x51);
            (0x81, 0x10); (0xff, 0x86); (0x32, 0x03)] ;;
  defer_on_error ret.

Definition lt9211c_mipi_rx_input_sel : M Z :=
  ret <- regmap_multi_reg_write [(0xff, 0xd0); (0x04, 0x00); (0x21, 0x46)] ;;
  defer_on_error ret.

Definition lt9211c_mipi_rx_lane_set : M Z :=
  ret <- regmap_multi_reg_write
           [(0xff, 0x85); (0x3f, 0x08); (0x40, 0x04); (0x41, 0x03);
            (0x42, 0x02); (0x43, 0x01); (0x45, 0x04); (0x46, 0x03);
            (0x47, 0x02); (0x48, 0x01); (0x44, 0x00); (0x49, 0x00)] ;;
  defer_on_error ret.

Definition lt9211c_video_check_framerate_get : M Z :=
  regmap_write 0xff 0x86 ;;;
  '(_, frametime) <- read_low_byte 0x43 0 ;;
  data0 <- uninit_u32 ;;
  '(_, data) <- read_low_byte 0x44 data0 ;;
  let frametime := u32 (Z.shiftl frametime 8 + data) in
  '(_, data) <- read_low_byte 0x45 data ;;
  let frametime := u32 (Z.shiftl frametime 8 + data) in
  match framerate_of_frametime frametime with
  | Some framerate => Ret framerate
  | None => fun _ => DivideError
  end.

Definition lt9211c_mipi_rx_sot_get : M Z :=
  regmap_write 0xff 0xd0 ;;;
  read_u8 0x88 ;;; read_u8 0x89 ;;;
  read_u8 0x8a ;;; read_u8 0x8b ;;;
  read_u8 0x8c ;;; read_u8 0x8d ;;;
  read_u8 0x8e ;;;
  '(ret, _) <- read_u8 0x8f ;;
  Ret ret.

Definition lt9211c_mipi_rx_hs_settle_set : M Z :=
  ret <- regmap_multi_reg_write [(0xff, 0xd0); (0x02, 0x0a)] ;;
  defer_on_error ret.

Definition lt9211c_mipi_rx_hact_get : M Z :=
  regmap_write 0xff 0xd0 ;;;
  '(_, bytes) <- regmap_bulk_read 0x82 5 ;;
  let data := fun i => u8 (nth i bytes 0) in
  let vact := u16 (Z.shiftl (data 3%nat) 8 + data 4%nat) in
  let fmt := u8 (Z.land (data 2%nat) 0x0f) in
  '(ret, pa_lpn) <- read_u8 0x9c ;;
  let wc := u16 (Z.shiftl (data 0%nat) 8 + data 1%nat) in
  rx <- get mipi_rx_video_timing ;;
  set_rx_timing (mk_rx_timing wc (hact_of_wc fmt wc) vact fmt pa_lpn
                              (frame_rate rx)) ;;;
  Ret ret.

Definition lt9211c_mipi_rx_video_timing_get : M Z :=
  lt9211c_mipi_rx_sot_get ;;;
  lt9211c_mipi_rx_hs_settle_set ;;;
  lt9211c_mipi_rx_hact_get ;;;
  rx <- get mipi_rx_video_timing ;;
  if (hact rx <? 400) || (vact rx <? 400)
  then Ret (- EPROBE_DEFER)
  else Ret 0.

Definition lt9211c_mipi_rx_video_timing_set (t : lt9211c_video_timing) : M Z :=
  regmap_write 0xff 0xd0 ;;;
  regmap_write 0x0d (Z.shiftr (vtotal t) 8) ;;;
  regmap_write 0x0e (vtotal t) ;;;
  regmap_write 0x0f (Z.shiftr (vactive t) 8) ;;;
  regmap_write 0x10 (vactive t) ;;;
  regmap_write 0x15 (vsync_len t) ;;;
  regmap_write 0x17 (Z.shiftr (vfront_porch t) 8) ;;;
  regmap_write 0x18 (vfront_porch t) ;;;
  regmap_write 0x11 (Z.shiftr (htotal t) 8) ;;;
  regmap_write 0x12 (htotal t) ;;;
  regmap_write 0x13 (Z.shiftr (hactive t) 8) ;;;
  regmap_write 0x14 (hactive t) ;;;
  regmap_write 0x4c (hsync_len t) ;;;
  regmap_write 0x19 (Z.shiftr (hfront_porch t) 8) ;;;
  regmap_write 0x1a (hfront_porch t).

Definition lt9211c_mipi_rx_video_timing_sel : M Z :=
  current_framerate <- lt9211c_video_check_framerate_get ;;
  rx <- get mipi_rx_video_timing ;;
  match support_timing_scan lt9211c_support_timing 0
          (hact rx) (vact rx) current_framerate with
  | Some index =>
      let t := nth index lt9211c_support_timing video_timing_zero in
      set_video_timing (resolved_timing t current_framerate) ;;;
      vt <- get video_timing ;;
      lt9211c_mipi_rx_video_timing_set vt
  | None => Ret (- ENOPARAM)
  end.

Definition lt9211c_mipi_rx_dessc_pll_sdm_cal (p : lt9211c_pcr_setting) : M Z :=
  regmap_multi_reg_write [(0xff, 0xd0); (0x08, 0x00)] ;;;
  regmap_write 0x26 (Z.lor 0x80 (u8 (pcr_m p))) ;;;
  regmap_write 0x2d (pcr_up_limit p) ;;;
  regmap_write 0x31 (pcr_down_limit p) ;;;
  regmap_write 0x27 (u8 (Z.shiftr (pcr_k p) 16)) ;;;
  regmap_write 0x28 (u8 (Z.shiftr (pcr_k p) 8)) ;;;
  regmap_write 0x29 (u8 (pcr_k p)) ;;;
  '(_, data) <- read_u8 0x26 ;;
  regmap_write 0x26 (Z.land data 0x7f).

Definition lt9211c_mipi_rx_dessc_pll_set : M Z :=
  regmap_multi_reg_write [(0xff, 0x82); (0x26, 0x20); (0x27, 0x40)] ;;;
  vt <- get video_timing ;;
  let '(divsel, dessc_pll_pixel_clock_div, lowf) := dessc_pll_band (pclk_khz vt) in
  regmap_write 0x2f divsel ;;;
  (if lowf then regmap_write 0x2c 0x01 else Ret 0) ;;;
  lt9211c_mipi_rx_dessc_pll_sdm_cal
    (pcr_setting_of (pclk_khz vt) dessc_pll_pixel_clock_div) ;;;
  regmap_multi_reg_write [(0xff, 0x81); (0x03, 0xfe)] ;;;
  usleep_range 1000 ;;;
  regmap_write 0x03 0xff.

(** One round of the [while(1)] of [lt9211c_mipi_rx_pcr_calibration]: the
    status of the read of register 0x87 and the byte read. *)
Definition pcr_poll : M (Z * Z) :=
  usleep_range (500 * 1000) ;;;
  read_u8 0x94 ;;;
  read_u8 0x87.

Fixpoint pcr_stable_loop (fuel : nat) (pcr_cal_count : Z) : M Z :=
  match fuel with
  | O => fun _ => FuelOut
  | S fuel' =>
      '(ret, data) <- pcr_poll ;;
      if Z.land data 0x18 =? 0x18 then Ret ret
      else if pcr_cal_count >? 50 then Ret (- ENOPARAM)
      else pcr_stable_loop fuel' (u8 (pcr_cal_count + 1))
  end.

(** Budget handed to the driver's polling loops; every one of them stops
    well within it on its own counter (see [module_config_in_budget]). *)
Definition loop_budget : nat := 64.

(** [lt9211c_mipi_rx_pcr_calibration] up to its [while(1)]. *)
Definition pcr_calibration_setup : M Z :=
  regmap_multi_reg_write
    [(0xff, 0xd0); (0x0c, 0x60); (0x1c, 0x60); (0x24, 0x70);
     (0x2d, 0x30); (0x31, 0x0a);
     (0x25, 0xf0); (0x2a, 0x30); (0x21, 0x4f); (0x22, 0x00);
     (0x1e, 0x01); (0x23, 0x80);
     (0x0a, 0x02); (0x38, 0x02); (0x39, 0x04); (0x3a, 0x08); (0x3b, 0x10);
     (0x3f, 0x04); (0x40, 0x08); (0x41, 0x10); (0x42, 0x20);
     (0x2b, 0xa0);
     (0xff, 0xd0);
     (0x26, 0x97); (0x26, 0x17); (0x27, 0x0f);
     (0xff, 0x81); (0x20, 0xbf); (0x20, 0xff)] ;;;
  usleep_range 5000 ;;;
  regmap_write 0x0b 0x6f ;;;
  regmap_write 0x0b 0xff ;;;
  vt <- get video_timing ;;
  flags <- get dsi_mode_flags ;;
  (if pclk_khz vt <? 44000 then
     if negb (Z.land flags MIPI_DSI_MODE_VIDEO_BURST =? 0)
     then regmap_multi_reg_write [(0x0c, 0x40); (0x1b, 0x00); (0x1c, 0x40)]
     else regmap_multi_reg_write [(0x0c, 0x60); (0x1b, 0x00); (0x1c, 0x60)]
   else regmap_multi_reg_write [(0x0c, 0x40); (0x1b, 0x00); (0x1c, 0x40)]) ;;;
  regmap_multi_reg_write
    [(0xff, 0x81); (0x09, 0xdb); (0x09, 0xdf);
     (0xff, 0xd0); (0x08, 0x80); (0x08, 0x00)] ;;;
  usleep_range (10 * 1000) ;;;
  Ret 0.

Definition lt9211c_mipi_rx_pcr_calibration : M Z :=
  pcr_calibration_setup ;;;
  pcr_stable_loop loop_budget 0.

Definition lt9211c_lvds_tx_phy_poweroff : M Z :=
  ret <- regmap_multi_reg_write [(0xff, 0x82); (0x36, 0x00); (0x37, 0x00)] ;;
  defer_on_error ret.

Definition lt9211c_lvds_tx_phy_poweron : M Z :=
  ret <- regmap_multi_reg_write
           [(0xff, 0x82); (0x36, 0x03); (0x37, 0x44);
            (0x38, 0x14); (0x39, 0x31); (0x3a, 0xc8); (0x3b, 0x00);
            (0x3c, 0x0f);
            (0x46, 0x40); (0x47, 0x40); (0x48, 0x40); (0x49, 0x40);
            (0x4a, 0x40); (0x4b, 0x40); (0x4c, 0x40); (0x4d, 0x40);
            (0x4e, 0x40); (0x4f, 0x40); (0x50, 0x40); (0x51, 0x40);
            (0xff, 0x81); (0x03, 0xbf); (0x03, 0xff)] ;;
  defer_on_error ret.

Definition lt9211c_system_fm_clk_get (clk_src : Z) : M Z :=
  regmap_write 0xff 0x86 ;;;
  regmap_write 0x90 clk_src ;;;
  usleep_range 5000 ;;;
  regmap_write 0x90 (Z.lor clk_src 0x80) ;;;
  '(_, data) <- read_u8 0x98 ;;
  let return_data := Z.land data 0x0f in
  '(_, data) <- read_u8 0x99 ;;
  let return_data := u32 (Z.shiftl return_data 8 + data) in
  '(_, data) <- read_u8 0x9a ;;
  let return_data := u32 (Z.shiftl return_data 8 + data) in
  read_u8 0x90 ;;;
  regmap_write 0x90 (Z.lor clk_src 0x7f) ;;;
  Ret return_data.

Definition lt9211c_lvds_tx_pll_ref_pixel_clk_get : M Z :=
  clk <- lt9211c_system_fm_clk_get LT9211C_AD_DESSCPLL_PIX_CLK ;;
  vt <- get video_timing ;;
  set_video_timing
    (mk_timing (hfront_porch vt) (hsync_len vt) (hback_porch vt) (hactive vt)
               (htotal vt) (vfront_porch vt) (vsync_len vt) (vback_porch vt)
               (vactive vt) (vtotal vt) (framerate vt) clk) ;;;
  Ret 0.

Definition lt9211c_lvds_tx_pll_ref_pixel_clk_set : M Z :=
  ret <- regmap_multi_reg_write [(0xff, 0x82); (0x30, 0x00)] ;;
  defer_on_error ret.

Definition lt9211c_lvds_tx_pll_config : M Z :=
  vt <- get video_timing ;;
  let pclk := pclk_khz vt in
  let lvds_tx_phy_clk := lvds_tx_phy_clk_of pclk in
  regmap_write 0xff 0x85 ;;;
  '(_, data) <- read_u8 0x6f ;;
  regmap_write 0x6f (Z.lor data 0x01) ;;;
  regmap_write 0xff 0x82 ;;;
  let '(prediv_code, pre_div) := txpll_prediv pclk in
  regmap_write 0x31 prediv_code ;;;
  regmap_write 0xff 0x82 ;;;
  let '(sericlk_code, serial_clk_div) := txpll_sericlk_div lvds_tx_phy_clk in
  regmap_write 0x32 sericlk_code ;;;
  regmap_write 0xff 0x82 ;;;
  (if pclk <? 150000 then regmap_write 0x33 0x04
   else
     match udiv (u32 (u32 (lvds_tx_phy_clk * serial_clk_div) * 2))
                (u32 (pclk * 7)) with
     | Some q => regmap_write 0x33 (txpll_pixdiv_sel (u8 q))
     | None => fun _ => DivideError
     end) ;;;
  match udiv (u32 (lvds_tx_phy_clk * serial_clk_div)) (pclk / pre_div) with
  | Some q =>
      let div_set := u8 q in
      regmap_write 0x34 0x01 ;;;
      regmap_write 0x35 div_set
  | None => fun _ => DivideError
  end.

Fixpoint txpll_cal_loop (fuel : nat) (count : Z) : M unit :=
  if count <=? 3 then
    match fuel with
    | O => fun _ => FuelOut
    | S fuel' =>
        regmap_multi_reg_write [(0xff, 0x87); (0x0f, 0x00); (0x0f, 0x01)] ;;;
        usleep_range (20 * 1000) ;;;
        '(_, data) <- read_u8 0x39 ;;
        if Z.land data 0x01 =? 0x01 then Ret tt
        else txpll_cal_loop fuel' (s32 (count + 1))
    end
  else Ret tt.

Definition lt9211c_lvds_tx_pll_calibration : M Z :=
  regmap_write 0xff 0x81 ;;;
  regmap_write 0x0c 0xfe ;;;
  usleep_range 1000 ;;;
  regmap_write 0x0c 0xff ;;;
  txpll_cal_loop loop_budget 0 ;;;
  '(_, data) <- read_u8 0x39 ;;
  if negb (Z.land data 0x04 =? 0) then Ret 0 else Ret (- ENOPARAM).

Definition lt9211c_lvds_tx_port_set : M Z :=
  regmap_write 0xff 0x85 ;;;
  '(_, data) <- read_u8 0x6f ;;
  regmap_write 0x6f (Z.lor data 0x90).

Definition lt9211c_lvds_tx_video_format_set (t : lt9211c_video_timing) : M Z :=
  regmap_write 0xff 0x85 ;;;
  '(_, data) <- read_u8 0x6e ;;
  regmap_write 0x6e (Z.land data 0xf7) ;;;
  '(_, data) <- read_u8 0x6f ;;
  regmap_write 0x6f (Z.land data 0xbf) ;;;
  '(_, data) <- read_u8 0x6f ;;
  regmap_write 0x6f (Z.lor data 0x04) ;;;
  regmap_write 0x68 0x00.

Definition lt9211c_lvds_tx_lane_num_set : M Z :=
  ret <- regmap_multi_reg_write
           [(0xff, 0x85); (0x4a, 0x01); (0x4b, 0x00); (0x4c, 0x10);
            (0x4d, 0x20); (0x4e, 0x50); (0x4f, 0x30);
            (0x50, 0x46); (0x51, 0x10); (0x52, 0x20); (0x53, 0x50);
            (0x54, 0x30); (0x55, 0x00); (0x56, 0x20)] ;;
  defer_on_error ret.

Definition lt9211c_lvds_tx_port_swap : M Z :=
  regmap_multi_reg_write [(0xff, 0x85); (0x4a, 0x01)] ;;;
  '(_, data) <- read_u8 0x50 ;;
  regmap_write 0x50 (Z.land data 0x40).

Definition lt9211c_lvds_tx_sw_reset : M Z :=
  regmap_multi_reg_write [(0xff, 0x81); (0x08, 0x6f)] ;;;
  usleep_range 2000 ;;;
  regmap_write 0x08 0x7f.

Definition lt9211c_mipi_rx_dig_set : M Z :=
  lt9211c_mipi_rx_input_sel ;;;
  lt9211c_mipi_rx_lane_set.

Definition lt9211c_lvds_tx_dig_set (t : lt9211c_video_timing) : M Z :=
  lt9211c_lvds_tx_port_set ;;;
  lt9211c_lvds_tx_video_format_set t ;;;
  lt9211c_lvds_tx_lane_num_set ;;;
  lt9211c_lvds_tx_port_swap ;;;
  lt9211c_lvds_tx_sw_reset.

Definition lt9211c_system_video_chk_clk_src_sel (clk_src : Z) : M Z :=
  regmap_write 0xff 0x81 ;;;
  data0 <- uninit_u32 ;;
  '(_, data) <- read_low_byte 0x80 data0 ;;
  ret <- regmap_multi_reg_write [(0x80, Z.land 0xfc data)] ;;
  if ret <? 0 then Ret (- EPROBE_DEFER) else
  '(_, data) <- read_low_byte 0x80 data ;;
  regmap_write 0x80 (Z.lor data clk_src).

Definition lt9211c_system_video_chk_src_sel : M Z :=
  regmap_write 0xff 0x86 ;;;
  data0 <- uninit_u32 ;;
  '(_, data) <- read_low_byte 0x80 data0 ;;
  ret <- regmap_multi_reg_write [(0x3f, Z.land 0xf8 data); (0x3f, 0x05)] ;;
  defer_on_error ret.

Definition lt9211c_system_act_rx_sel : M Z :=
  regmap_write 0xff 0x85 ;;;
  data0 <- uninit_u32 ;;
  '(_, data) <- read_low_byte 0x30 data0 ;;
  ret <- regmap_multi_reg_write [(0x30, Z.land 0xf8 data)] ;;
  if ret <? 0 then Ret (- EPROBE_DEFER) else
  '(_, data) <- read_low_byte 0x30 data ;;
  regmap_write 0x30 (Z.lor data 0x01) ;;;
  '(_, data) <- read_low_byte 0x30 data ;;
  regmap_write 0x30 (Z.lor data 0x10).

Definition lt9211c_system_tx_sram_sel : M Z :=
  ret <- regmap_multi_reg_write [(0xff, 0x85)] ;;
  if ret <? 0 then Ret (- EPROBE_DEFER) else
  '(_, data) <- read_u8 0x30 ;;
  regmap_write 0x30 (Z.land data 0x3f) ;;;
  '(_, data) <- read_u8 0x30 ;;
  regmap_write 0x30 (Z.lor data 0x40).

(** A 16-bit field of the check block: [x = data << 8; x += data']. *)
Definition read_u16_field (reg_hi reg_lo : Z) : M (Z * Z) :=
  '(_, hi) <- read_u8 reg_hi ;;
  '(ret, lo) <- read_u8 reg_lo ;;
  Ret (ret, u16 (u16 (Z.shiftl hi 8) + lo)).

Definition lt9211c_video_check_get : M (Z * lt9211c_video_timing) :=
  regmap_multi_reg_write [(0xff, 0x81); (0x0b, 0x7f); (0x0b, 0xff)] ;;;
  usleep_range (80 * 1000) ;;;
  regmap_write 0xff 0x86 ;;;
  '(_, ht) <- read_u16_field 0x60 0x61 ;;
  '(_, ha) <- read_u16_field 0x5c 0x5d ;;
  '(_, hfp) <- read_u16_field 0x58 0x59 ;;
  '(_, hs) <- read_u16_field 0x50 0x51 ;;
  '(_, hbp) <- read_u16_field 0x54 0x55 ;;
  '(_, vt) <- read_u16_field 0x62 0x63 ;;
  '(_, va) <- read_u16_field 0x5e 0x5f ;;
  '(_, vfp) <- read_u16_field 0x5a 0x5b ;;
  '(_, vs) <- read_u16_field 0x52 0x53 ;;
  '(ret, vbp) <- read_u16_field 0x56 0x57 ;;
  Ret (ret, mk_timing hfp hs hbp ha ht vfp vs vbp va vt 0 0).

Definition lt9211c_mipi_rx_source_config : M Z :=
  lt9211c_mipi_rx_phy_poweron ;;;
  lt9211c_mipi_rx_clk_sel ;;;
  lt9211c_system_video_chk_clk_src_sel LT9211C_MLRX_BYTE_CLK ;;;
  lt9211c_system_video_chk_src_sel ;;;
  lt9211c_system_act_rx_sel ;;;
  lt9211c_mipi_rx_dig_set.

Definition lt9211c_mipi_rx_video_timing_config : M Z :=
  ret <- lt9211c_mipi_rx_video_timing_get ;;
  if ret <? 0 then Ret ret else
  lt9211c_mipi_rx_video_timing_sel.

Definition lt9211c_mipi_rx_pll_config : M Z :=
  lt9211c_mipi_rx_dessc_pll_set ;;;
  ret <- lt9211c_mipi_rx_pcr_calibration ;;
  if ret <? 0 then Ret ret else
  lt9211c_system_video_chk_clk_src_sel LT9211C_DESSCPLL_PIX_CLK ;;;
  lt9211c_system_video_chk_src_sel.

Definition lt9211c_mipi_rx_video_check_stable : M Z :=
  regmap_write 0xff 0x86 ;;;
  '(_, data) <- read_u8 0x40 ;;
  if Z.land data 0x01 =? 0x01 then Ret 0 else Ret (- ENOPARAM).

Definition lt9211c_lvds_tx_source_config : M Z :=
  lt9211c_system_tx_sram_sel ;;;
  lt9211c_lvds_tx_phy_poweron.

Definition lt9211c_lvds_tx_config_video : M Z :=
  lt9211c_lvds_tx_pll_ref_pixel_clk_get ;;;
  lt9211c_lvds_tx_pll_ref_pixel_clk_set ;;;
  lt9211c_lvds_tx_pll_config ;;;
  lt9211c_lvds_tx_pll_calibration.

Definition lt9211c_lvds_tx_config_video_out : M Z :=
  '(_, video_timing) <- lt9211c_video_check_get ;;
  lt9211c_lvds_tx_dig_set video_timing.

Definition lt9211c_module_reset : M Z :=
  gpiod_set_value_cansleep 0 ;;;
  usleep_range (60 * 1000) ;;;
  gpiod_set_value_cansleep 1 ;;;
  usleep_range (60 * 1000) ;;;
  Ret 0.

(** ** The bring-up state machine, [lt9211c_module_config]

    One definition per [case] label; a case that does not [return] runs on
    into the next one, as the [switch] falls through. *)

Definition delayed_msec : Z := 0.

Definition case_CHIPTX_VIDEO_OUT : M Z :=
  lt9211c_lvds_tx_config_video_out.

Definition case_CHIPTX_CONFIG_VIDEO : M Z :=
  ret <- lt9211c_lvds_tx_config_video ;;
  if ret <? 0 then
    schedule_delayed_work delayed_msec ;;;
    Ret ret
  else
    set_state LT9211C_STATE_CHIPTX_VIDEO_OUT ;;;
    case_CHIPTX_VIDEO_OUT.

(** [while (lt9211c_mipi_rx_video_check_stable(ctx) < 0)
       { counter++; if (counter > 50) break; }] *)
Fixpoint video_stable_wait (fuel : nat) : M unit :=
  match fuel with
  | O => fun _ => FuelOut
  | S fuel' =>
      ret <- lt9211c_mipi_rx_video_check_stable ;;
      if ret <? 0 then
        c <- get counter ;;
        set_counter (s32 (c + 1)) ;;;
        if s32 (c + 1) >? 50 then Ret tt else video_stable_wait fuel'
      else Ret tt
  end.

(** The part of [case LT9211C_STATE_CHIPRX_PLL_CONFIG] after the clock
    recovery has succeeded. *)
Definition pll_config_tail : M unit :=
  set_counter 0 ;;;
  video_stable_wait loop_budget ;;;
  lt9211c_lvds_tx_source_config ;;;
  set_state LT9211C_STATE_CHIPTX_CONFIG_VIDEO.

Definition case_CHIPRX_PLL_CONFIG : M Z :=
  ret <- lt9211c_mipi_rx_pll_config ;;
  if ret <? 0 then
    set_state LT9211C_STATE_CHIPRX_VIDTIMING_CONFIG ;;;
    schedule_delayed_work delayed_msec ;;;
    Ret ret
  else
    pll_config_tail ;;;
    case_CHIPTX_CONFIG_VIDEO.

Definition case_CHIPRX_VIDTIMING_CONFIG : M Z :=
  ret <- lt9211c_mipi_rx_video_timing_config ;;
  if ret >=? 0 then
    set_state LT9211C_STATE_CHIPRX_PLL_CONFIG ;;;
    case_CHIPRX_PLL_CONFIG
  else
    c <- get counter ;;
    set_counter (s32 (c + 1)) ;;;
    rx <- get mipi_rx_video_timing ;;
    (if fmt rx =? 0x0a then set_counter 0 else Ret tt) ;;;
    c <- get counter ;;
    (if c >? 30 then set_state LT9211C_STATE_PREPARE else Ret tt) ;;;
    schedule_delayed_work delayed_msec ;;;
    Ret ret.

(** The statements of [case LT9211C_STATE_PREPARE]. *)
Definition prepare_body : M unit :=
  set_counter 0 ;;;
  lt9211c_module_reset ;;;
  lt9211c_read_chipid ;;;
  lt9211c_mipi_rx_source_config ;;;
  lt9211c_lvds_tx_phy_poweroff ;;;
  set_state LT9211C_STATE_CHIPRX_VIDTIMING_CONFIG.

Definition case_PREPARE : M Z :=
  prepare_body ;;;
  case_CHIPRX_VIDTIMING_CONFIG.

Definition lt9211c_module_config : M Z :=
  set_rx_timing rx_timing_zero ;;;
  st <- get state ;;
  match st with
  | LT9211C_STATE_PREPARE => case_PREPARE
  | LT9211C_STATE_CHIPRX_VIDTIMING_CONFIG => case_CHIPRX_VIDTIMING_CONFIG
  | LT9211C_STATE_CHIPRX_PLL_CONFIG => case_CHIPRX_PLL_CONFIG
  | LT9211C_STATE_CHIPTX_CONFIG_VIDEO => case_CHIPTX_CONFIG_VIDEO
  | LT9211C_STATE_CHIPTX_VIDEO_OUT => case_CHIPTX_VIDEO_OUT
  end.

(** The delays handed to [schedule_delayed_work], newest first. *)
Fixpoint scheduled (tr : list event) : list Z :=
  match tr with
  | [] => []
  | EvSchedule msec :: rest => msec :: scheduled rest
  | _ :: rest => scheduled rest
  end.

End Driver.

(** ** A simulated chip

    A paged register file whose reads are a fixed function of page and
    offset; register 0xff selects the page, every transfer succeeds.  It is
    used to run the driver on concrete inputs. *)

Record simdev : Type := mk_simdev {
  sd_page : Z;
  sd_regs : Z -> Z -> Z;
  sd_garbage : Z
}.

#[export] Instance sim_interface : RegisterInterface simdev := {
  reg_write d reg val :=
    (if reg =? 0xff then mk_simdev (u8 val) (sd_regs d) (sd_garbage d) else d,
     0);
  reg_read d reg count :=
    (d, 0,
     map (fun i => sd_regs d (sd_page d) (reg + Z.of_nat i)) (seq 0 count));
  stack_garbage d := sd_garbage d
}.

(** No input signal: every register reads 0. *)
Definition regs_silent : Z -> Z -> Z := fun _ _ => 0.

(** A 1920x1080 RGB8 input whose frame-time counter reads [ft2 ft1 ft0];
    clock recovery stable, video check stable, TX PLL calibrated and locked,
    frequency meter at 148500 kHz. *)
Definition regs_1080p (ft2 ft1 ft0 : Z) : Z -> Z -> Z := fun page reg =>
  match page, reg with
  | 0xd0, 0x82 => 0x16 | 0xd0, 0x83 => 0x80   (* wc = 5760 *)
  | 0xd0, 0x84 => 0x0a                        (* RGB8bpc *)
  | 0xd0, 0x85 => 0x04 | 0xd0, 0x86 => 0x38   (* vact = 1080 *)
  | 0xd0, 0x87 => 0x18                        (* PCR stable *)
  | 0x86, 0x43 => ft2 | 0x86, 0x44 => ft1 | 0x86, 0x45 => ft0
  | 0x86, 0x40 => 0x01                        (* video check stable *)
  | 0x86, 0x98 => 0x02 | 0x86, 0x99 => 0x44 | 0x86, 0x9a => 0x14
  | 0x87, 0x39 => 0x05                        (* TX PLL done and locked *)
  | _, _ => 0
  end.

(** A RAW10 line of 60000 bytes. *)
Definition regs_raw10_wide : Z -> Z -> Z := fun page reg =>
  match page, reg with
  | 0xd0, 0x82 => 0xea | 0xd0, 0x83 => 0x60   (* wc = 60000 *)
  | 0xd0, 0x84 => 0x0c                        (* RAW10 *)
  | _, _ => 0
  end.

(** 25 MHz / 416667 = 60 Hz, 25 MHz / 423729 = 59 Hz and
    25 MHz / 555556 = 45 Hz. *)
Definition regs_1080p60 : Z -> Z -> Z := regs_1080p 0x06 0x5b 0x9b.
Definition regs_1080p59 : Z -> Z -> Z := regs_1080p 0x06 0x77 0x31.
Definition regs_1080p45 : Z -> Z -> Z := regs_1080p 0x08 0x7a 0x24.

(** The RGB8 format code on the line, but no picture. *)
Definition regs_rgb8_blank : Z -> Z -> Z := fun page reg =>
  match page, reg with
  | 0xd0, 0x84 => 0x0a
  | _, _ => 0
  end.

(** The chip whose registers all read 0, whatever page is selected. *)
Definition silent_chip (d : simdev) : Prop := sd_regs d = regs_silent.

(** A chip whose frequency meter reads 148500 kHz on every page and whose
    other registers read 0: the output PLL never calibrates nor locks. *)
Definition regs_meter_only : Z -> Z -> Z := fun _ reg =>
  match reg with
  | 0x98 => 0x02 | 0x99 => 0x44 | 0x9a => 0x14
  | _ => 0
  end.

Definition meter_only_chip (d : simdev) : Prop := sd_regs d = regs_meter_only.

(** The context after [lt9211c_probe] and [lt9211c_module_init]: zeroed by
    [devm_kzalloc], four lanes, burst mode, state [PREPARE]. *)
Definition sim_ctx (regs : Z -> Z -> Z) : lt9211c simdev :=
  mk_ctx (mk_simdev 0 regs 0) 4 227 LT9211C_STATE_PREPARE
         rx_timing_zero video_timing_zero 0 [].

(** The same chip once the probe has stored 1920x1080 RGB8. *)
Definition sim_probed (regs : Z -> Z -> Z) : lt9211c simdev :=
  upd_rx_timing (mk_rx_timing 5760 1920 1080 0x0a 0 0) (sim_ctx regs).

(** ** Predicates of the statements below *)

(** Row [t] fits a probe of [h] x [v] at a measured rate [rate]. *)
Definition qualifies (h v rate : Z) (t : lt9211c_video_timing) : Prop :=
  hactive t = h /\ vactive t = v /\
  framerate t - 3 <= rate <= framerate t + 3.

Definition support_row (i : nat) : lt9211c_video_timing :=
  nth i lt9211c_support_timing video_timing_zero.

(** [i] is the first row of the table that fits. *)
Definition first_qualifying (h v rate : Z) (i : nat) : Prop :=
  (i < length lt9211c_support_timing)%nat /\
  qualifies h v rate (support_row i) /\
  forall j, (j < i)%nat -> ~ qualifies h v rate (support_row j).

Definition none_qualifies (h v rate : Z) : Prop :=
  forall t, In t lt9211c_support_timing -> ~ qualifies h v rate t.

(** Number of 500 ms polls of the clock-recovery status in a trace. *)
Fixpoint pcr_polls (tr : list event) : nat :=
  match tr with
  | [] => 0
  | EvSleep usec :: rest =>
      if usec =? 500 * 1000 then S (pcr_polls rest) else pcr_polls rest
  | _ :: rest => pcr_polls rest
  end.

(** A call of [lt9211c_module_config] in [s] reaches
    [case LT9211C_STATE_CHIPRX_VIDTIMING_CONFIG] in the context [s0]: either
    the switch jumps there, or it falls through from the case before. *)
Definition enters_vidtiming {dev : Type} {RI : RegisterInterface dev}
    (s s0 : lt9211c dev) : Prop :=
  (state s = LT9211C_STATE_CHIPRX_VIDTIMING_CONFIG /\
   s0 = upd_rx_timing rx_timing_zero s) \/
  (state s = LT9211C_STATE_PREPARE /\
   prepare_body (upd_rx_timing rx_timing_zero s) = Done tt s0).

(** [m] never exhausts the loop budget of the model. *)
Definition in_budget {dev A : Type} (m : M dev A) : Prop :=
  forall s, m s <> FuelOut.

(** [m] relates the context it starts from to the one it returns in by [R]. *)
Definition respects {dev A : Type} (R : lt9211c dev -> lt9211c dev -> Prop)
    (m : M dev A) : Prop :=
  forall s a s', m s = Done a s' -> R s s'.

(** The transfers of [lt9211c_video_check_framerate_get] and the writes of
    [lt9211c_mipi_rx_video_timing_set], newest first. *)
Definition framerate_get_events : list event :=
  [EvRead 0x45 1; EvRead 0x44 1; EvRead 0x43 1; EvWrite 0xff 0x86].

Definition video_timing_set_events (t : lt9211c_video_timing) : list event :=
  [ EvWrite 0x1a (hfront_porch t); EvWrite 0x19 (Z.shiftr (hfront_porch t) 8);
    EvWrite 0x4c (hsync_len t);
    EvWrite 0x14 (hactive t); EvWrite 0x13 (Z.shiftr (hactive t) 8);
    EvWrite 0x12 (htotal t); EvWrite 0x11 (Z.shiftr (htotal t) 8);
    EvWrite 0x18 (vfront_porch t); EvWrite 0x17 (Z.shiftr (vfront_porch t) 8);
    EvWrite 0x15 (vsync_len t);
    EvWrite 0x10 (vactive t); EvWrite 0x0f (Z.shiftr (vactive t) 8);
    EvWrite 0x0e (vtotal t); EvWrite 0x0d (Z.shiftr (vtotal t) 8);
    EvWrite 0xff 0xd0 ].

(** Nothing was handed to [schedule_delayed_work] in between. *)
Definition same_schedule {dev : Type} (s s' : lt9211c dev) : Prop :=
  scheduled (trace s') = scheduled (trace s).

(** Neither the schedule, nor the state, nor the failure counter moved. *)
Definition same_control {dev : Type} (s s' : lt9211c dev) : Prop :=
  scheduled (trace s') = scheduled (trace s) /\
  state s' = state s /\ counter s' = counter s.

(** Only the device and the trace moved. *)
Definition same_fields {dev : Type} (s s' : lt9211c dev) : Prop :=
  dsi_lanes s' = dsi_lanes s /\ dsi_mode_flags s' = dsi_mode_flags s /\
  state s' = state s /\
  mipi_rx_video_timing s' = mipi_rx_video_timing s /\
  video_timing s' = video_timing s /\ counter s' = counter s.

(** The device stays within [P] and no 500 ms poll was added. *)
Definition keeps_device {dev : Type} (P : dev -> Prop) (s s' : lt9211c dev)
  : Prop :=
  (P (regmap s) -> P (regmap s')) /\
  pcr_polls (trace s') = pcr_polls (trace s).

(** [m] always returns. *)
Definition returns {dev A : Type} (m : M dev A) : Prop :=
  forall s, exists a s', m s = Done a s'.

(** A property of the device that no transfer destroys. *)
Definition transfer_invariant {dev : Type} {RI : RegisterInterface dev}
    (P : dev -> Prop) : Prop :=
  (forall d reg val, P d -> P (fst (reg_write d reg val))) /\
  (forall d reg count, P d -> P (fst (fst (reg_read d reg count)))).

(** Under [P] the clock-recovery status never shows both stable bits. *)
Definition never_stable {dev : Type} {RI : RegisterInterface dev}
    (P : dev -> Prop) : Prop :=
  forall d, P d ->
    Z.land (u8 (nth 0 (snd (reg_read d 0x87 1)) 0)) 0x18 <> 0x18.

(** ** The work item

    [lt9211c_bridge_enable] arms the delayed work; the work queue then calls
    [lt9211c_state_handler], again after every [schedule_delayed_work]. *)

Section Work.
Context {dev : Type} {RI : RegisterInterface dev}.

Definition lt9211c_state_handler : M dev unit :=
  lt9211c_module_config ;;;
  Ret tt.




(** [n] runs of the handler, one after the other. *)
Fixpoint run_work (n : nat) : M dev unit :=
  match n with
  | O => Ret tt
  | S n' => lt9211c_state_handler ;;; run_work n'
  end.

End Work.

(** ** Measures on traces *)

Fixpoint count_events (p : event -> bool) (tr : list event) : nat :=
  match tr with
  | [] => 0
  | e :: rest => if p e then S (count_events p rest) else count_events p rest
  end.

Definition is_sleep (usec : Z) (e : event) : bool :=
  match e with EvSleep u => u =? usec | _ => false end.

Definition is_gpio (e : event) : bool :=
  match e with EvGpio _ => true | _ => false end.

(** Rounds of the TX PLL calibration (20 ms each) in a trace. *)
Definition txpll_rounds (tr : list event) : nat :=
  count_events (is_sleep (20 * 1000)) tr.

(** Under [P] the TX PLL never reports its calibration done (bit 0 of
    register 0x39), the video check never reports stable (bit 0 of 0x40). *)
Definition never_calibrated {dev : Type} {RI : RegisterInterface dev}
    (P : dev -> Prop) : Prop :=
  forall d, P d ->
    Z.land (u8 (nth 0 (snd (reg_read d 0x39 1)) 0)) 0x01 <> 0x01.

Definition never_video_stable {dev : Type} {RI : RegisterInterface dev}
    (P : dev -> Prop) : Prop :=
  forall d, P d ->
    Z.land (u8 (nth 0 (snd (reg_read d 0x40 1)) 0)) 0x01 <> 0x01.

(** Under [P] the output PLL never reports lock (bit 2 of register 0x39),
    and the low byte of the frequency meter (register 0x9a) never reads
    0. *)
Definition never_locked {dev : Type} {RI : RegisterInterface dev}
    (P : dev -> Prop) : Prop :=
  forall d, P d ->
    Z.land (u8 (nth 0 (snd (reg_read d 0x39 1)) 0)) 0x04 = 0.

Definition meter_runs {dev : Type} {RI : RegisterInterface dev}
    (P : dev -> Prop) : Prop :=
  forall d, P d -> u8 (nth 0 (snd (reg_read d 0x9a 1)) 0) <> 0.

(** Under [P] the five bytes read from register 0x82 give an active height
    below 400 and a format code other than 0x0a. *)
Definition no_picture {dev : Type} {RI : RegisterInterface dev}
    (P : dev -> Prop) : Prop :=
  forall d, P d ->
    let data := fun i => u8 (nth i (snd (reg_read d 0x82 5)) 0) in
    u16 (Z.shiftl (data 3%nat) 8 + data 4%nat) < 400 /\
    u8 (Z.land (data 2%nat) 0x0f) <> 0x0a.

(** Resets of the chip in a trace: each one drives the reset line low, then
    high. *)
Definition gpio_events (tr : list event) : nat := count_events is_gpio tr.

(** The resolved timing and the control fields did not move. *)
Definition same_resolved {dev : Type} (s s' : lt9211c dev) : Prop :=
  video_timing s' = video_timing s /\
  scheduled (trace s') = scheduled (trace s) /\
  state s' = state s /\ counter s' = counter s.

(** The device stays within [P]. *)
Definition stays_within {dev : Type} (P : dev -> Prop) (s s' : lt9211c dev)
  : Prop :=
  P (regmap s) -> P (regmap s').

(** The device stays within [P], the reset line and the control fields did
    not move. *)
Definition quiet {dev : Type} (P : dev -> Prop) (s s' : lt9211c dev) : Prop :=
  stays_within P s s' /\
  gpio_events (trace s') = gpio_events (trace s) /\
  same_control s s'.

(** * Proofs *)

(** ** Arithmetic of the fixed-width conversions *)

Lemma u8_small (x : Z) : 0 <= x < 256 -> u8 x = x.
Proof. intros H. unfold u8. apply Z.mod_small. lia. Qed.

Lemma u16_small (x : Z) : 0 <= x < 65536 -> u16 x = x.
Proof. intros H. unfold u16. apply Z.mod_small. lia. Qed.

Lemma u32_small (x : Z) : 0 <= x < 4294967296 -> u32 x = x.
Proof. intros H. unfold u32. apply Z.mod_small. lia. Qed.

Lemma u8_range (x : Z) : 0 <= u8 x < 256.
Proof. unfold u8. apply Z.mod_pos_bound. lia. Qed.

Lemma u16_range (x : Z) : 0 <= u16 x < 65536.
Proof. unfold u16. apply Z.mod_pos_bound. lia. Qed.

Lemma u32_range (x : Z) : 0 <= u32 x < 4294967296.
Proof. unfold u32. apply Z.mod_pos_bound. lia. Qed.

Lemma s32_small (x : Z) : - 2147483648 <= x < 2147483648 -> s32 x = x.
Proof.
  intros H. unfold s32.
  rewrite Z.mod_small by lia. lia.
Qed.

Lemma geb_0_false (x : Z) : x < 0 -> (x >=? 0) = false.
Proof. intros H. rewrite Z.geb_leb. apply Z.leb_gt. exact H. Qed.

Lemma geb_0_true (x : Z) : 0 <= x -> (x >=? 0) = true.
Proof. intros H. rewrite Z.geb_leb. apply Z.leb_le. exact H. Qed.

Lemma ltb_0_false (x : Z) : 0 <= x -> (x <? 0) = false.
Proof. intros H. apply Z.ltb_ge. exact H. Qed.

Lemma land_0x0f_range (x : Z) : 0 <= x -> 0 <= Z.land x 0x0f < 16.
Proof.
  intros H. change 0x0f with (Z.ones 4).
  rewrite Z.land_ones by lia.
  apply Z.mod_pos_bound. lia.
Qed.

Lemma hact_of_wc_factor (code wc : Z) :
  0 <= code < 16 ->
  hact_of_wc code wc
  = u16 (wc * fst (format_factor code) / snd (format_factor code)).
Proof.
  intros H.
  assert (E : code = 0 \/ code = 1 \/ code = 2 \/ code = 3 \/ code = 4 \/
              code = 5 \/ code = 6 \/ code = 7 \/ code = 8 \/ code = 9 \/
              code = 10 \/ code = 11 \/ code = 12 \/ code = 13 \/
              code = 14 \/ code = 15) by lia.
  repeat (destruct E as [E | E]; [subst code; cbn [hact_of_wc format_factor Z.eqb Pos.eqb orb fst snd]; rewrite ?Z.mul_1_r; reflexivity | ]).
  subst code. cbn. rewrite ?Z.mul_1_r; reflexivity.
Qed.

Lemma format_factor_positive (code : Z) :
  0 < fst (format_factor code) /\ 0 < snd (format_factor code).
Proof.
  unfold format_factor.
  repeat match goal with
         | |- context [if ?b then _ else _] => destruct b
         end; cbn; lia.
Qed.

Lemma format_factor_fallback (code : Z) :
  enumerated_format code = false -> format_factor code = (1, 3).
Proof.
  unfold enumerated_format, format_factor. intros H.
  apply andb_false_iff in H.
  repeat match goal with
         | |- context [?a =? ?b] => destruct (Z.eqb_spec a b); cbn [orb]
         end; try reflexivity; exfalso; destruct H as [H | H];
    (apply Z.leb_gt in H; lia).
Qed.

(** ** The monad and the transfers *)

Section Transfers.
Context {dev : Type} {RI : RegisterInterface dev}.

Local Abbreviation ctx := (lt9211c dev).

Lemma bind_Done {A B : Type} (m : M dev A) (k : A -> M dev B)
    (s s1 : ctx) (a : A) :
  m s = Done a s1 -> bind m k s = k a s1.
Proof. intros H. unfold bind. rewrite H. reflexivity. Qed.

Lemma bind_inv {A B : Type} (m : M dev A) (k : A -> M dev B)
    (s s' : ctx) (b : B) :
  bind m k s = Done b s' ->
  exists a s1, m s = Done a s1 /\ k a s1 = Done b s'.
Proof.
  unfold bind. destruct (m s) as [a s1 | | ]; intros H; try discriminate.
  exists a, s1. split; [reflexivity | exact H].
Qed.

Lemma Ret_inv {A : Type} (a b : A) (s s' : ctx) :
  Ret a s = Done b s' -> b = a /\ s' = s.
Proof. unfold Ret. intros H. injection H as -> ->. split; reflexivity. Qed.

Lemma regmap_write_eq (reg val : Z) (s : ctx) :
  regmap_write reg val s
  = Done (snd (reg_write (regmap s) reg val))
         (with_regmap (fst (reg_write (regmap s) reg val)) (EvWrite reg val) s).
Proof.
  unfold regmap_write. destruct (reg_write (regmap s) reg val) as [d ret].
  reflexivity.
Qed.

Lemma regmap_bulk_read_eq (reg : Z) (count : nat) (s : ctx) :
  regmap_bulk_read reg count s
  = Done (snd (fst (reg_read (regmap s) reg count)),
          snd (reg_read (regmap s) reg count))
         (with_regmap (fst (fst (reg_read (regmap s) reg count)))
                      (EvRead reg count) s).
Proof.
  unfold regmap_bulk_read.
  destruct (reg_read (regmap s) reg count) as [[d ret] bytes].
  reflexivity.
Qed.

Lemma read_u8_eq (reg : Z) (s : ctx) :
  read_u8 reg s
  = Done (snd (fst (reg_read (regmap s) reg 1)),
          u8 (nth 0 (snd (reg_read (regmap s) reg 1)) 0))
         (with_regmap (fst (fst (reg_read (regmap s) reg 1))) (EvRead reg 1) s).
Proof.
  unfold read_u8, bind. rewrite regmap_bulk_read_eq. reflexivity.
Qed.

Lemma read_low_byte_eq (reg old : Z) (s : ctx) :
  read_low_byte reg old s
  = Done (snd (fst (reg_read (regmap s) reg 1)),
          old / 256 * 256 + u8 (nth 0 (snd (reg_read (regmap s) reg 1)) 0))
         (with_regmap (fst (fst (reg_read (regmap s) reg 1))) (EvRead reg 1) s).
Proof.
  unfold read_low_byte, bind. rewrite regmap_bulk_read_eq. reflexivity.
Qed.

(** *** Frame reasoning: what a piece of the driver leaves alone *)

Section Frame.
Variable R : ctx -> ctx -> Prop.
Hypothesis R_refl : forall s, R s s.
Hypothesis R_trans : forall s1 s2 s3, R s1 s2 -> R s2 s3 -> R s1 s3.
Hypothesis R_write :
  forall s reg val,
    R s (with_regmap (fst (reg_write (regmap s) reg val)) (EvWrite reg val) s).
Hypothesis R_read :
  forall s reg count,
    R s (with_regmap (fst (fst (reg_read (regmap s) reg count)))
                     (EvRead reg count) s).
Hypothesis R_sleep :
  forall s usec,
    (usec =? 500 * 1000) = false ->
    R s (with_regmap (regmap s) (EvSleep usec) s).
Hypothesis R_poll :
  forall s, R s (with_regmap (regmap s) (EvSleep (500 * 1000)) s).
Hypothesis R_gpio :
  forall s v, R s (with_regmap (regmap s) (EvGpio v) s).
Hypothesis R_rx : forall s t, R s (upd_rx_timing t s).
Hypothesis R_vt : forall s t, R s (upd_video_timing t s).
Hypothesis R_counter : forall s c, R s (upd_counter c s).
Hypothesis R_state : forall s st, R s (upd_state st s).

Lemma respects_Ret {A : Type} (a : A) : respects R (Ret a).
Proof. intros s a' s' H. inversion H; subst. apply R_refl. Qed.

Lemma respects_bind {A B : Type} (m : M dev A) (k : A -> M dev B) :
  respects R m -> (forall a, respects R (k a)) -> respects R (bind m k).
Proof.
  intros Hm Hk s b s' H.
  apply bind_inv in H. destruct H as (a & s1 & H1 & H2).
  eapply R_trans; [eapply Hm | eapply Hk]; eassumption.
Qed.

Lemma respects_fault {A : Type} : respects R (fun _ : ctx => @DivideError dev A).
Proof. intros s a s' H. discriminate. Qed.

Lemma respects_fuel_out {A : Type} : respects R (fun _ : ctx => @FuelOut dev A).
Proof. intros s a s' H. discriminate. Qed.

Lemma respects_get {A : Type} (f : ctx -> A) : respects R (get f).
Proof. intros s a s' H. inversion H; subst. apply R_refl. Qed.

Lemma respects_regmap_write (reg val : Z) : respects R (regmap_write reg val).
Proof.
  intros s a s' H. rewrite regmap_write_eq in H. inversion H; subst.
  apply R_write.
Qed.

Lemma respects_regmap_bulk_read (reg : Z) (count : nat) :
  respects R (regmap_bulk_read reg count).
Proof.
  intros s a s' H. rewrite regmap_bulk_read_eq in H. inversion H; subst.
  apply R_read.
Qed.

Lemma respects_read_u8 (reg : Z) : respects R (read_u8 reg).
Proof.
  intros s a s' H. rewrite read_u8_eq in H. inversion H; subst.
  apply R_read.
Qed.

Lemma respects_read_low_byte (reg old : Z) : respects R (read_low_byte reg old).
Proof.
  intros s a s' H. rewrite read_low_byte_eq in H. inversion H; subst.
  apply R_read.
Qed.

Lemma respects_uninit_u32 : respects R uninit_u32.
Proof. intros s a s' H. inversion H; subst. apply R_refl. Qed.

Lemma respects_usleep_range (usec : Z) :
  (usec =? 500 * 1000) = false -> respects R (usleep_range usec).
Proof. intros Hu s a s' H. inversion H; subst. apply R_sleep. exact Hu. Qed.

Lemma respects_poll_sleep : respects R (usleep_range (500 * 1000)).
Proof. intros s a s' H. inversion H; subst. apply R_poll. Qed.

Lemma respects_gpiod_set_value_cansleep (v : Z) :
  respects R (gpiod_set_value_cansleep v).
Proof. intros s a s' H. inversion H; subst. apply R_gpio. Qed.

Lemma respects_set_rx_timing t : respects R (set_rx_timing t).
Proof. intros s a s' H. inversion H; subst. apply R_rx. Qed.

Lemma respects_set_video_timing t : respects R (set_video_timing t).
Proof. intros s a s' H. inversion H; subst. apply R_vt. Qed.

Lemma respects_set_counter c : respects R (set_counter c).
Proof. intros s a s' H. inversion H; subst. apply R_counter. Qed.

Lemma respects_set_state st : respects R (set_state st).
Proof. intros s a s' H. inversion H; subst. apply R_state. Qed.

Lemma respects_regmap_multi_reg_write (regs : list (Z * Z)) :
  respects R (regmap_multi_reg_write regs).
Proof.
  induction regs as [| [reg def] rest IH]; cbn [regmap_multi_reg_write].
  - apply respects_Ret.
  - apply respects_bind; [apply respects_regmap_write | ].
    intros ret. destruct (ret =? 0); [exact IH | apply respects_Ret].
Qed.

Lemma respects_defer_on_error (ret : Z) : respects R (defer_on_error ret).
Proof. unfold defer_on_error. destruct (ret <? 0); apply respects_Ret. Qed.

(** Walks through a straight-line definition: splits binds, branches and
    pattern bindings, and closes the leaves with the lemmas at hand. *)
Ltac frame_leaf :=
  first
    [ apply respects_Ret | apply respects_get | apply respects_fault
    | apply respects_fuel_out
    | apply respects_regmap_write | apply respects_regmap_bulk_read
    | apply respects_read_u8 | apply respects_read_low_byte
    | apply respects_uninit_u32
    | apply respects_usleep_range; reflexivity | apply respects_poll_sleep
    | apply respects_gpiod_set_value_cansleep
    | apply respects_regmap_multi_reg_write | apply respects_defer_on_error
    | assumption ].

Ltac frame_walk extra :=
  repeat first
    [ frame_leaf
    | extra
    | apply respects_bind; [ | intros ? ]
    | match goal with
      | |- respects _ (if ?b then _ else _) => destruct b
      | |- respects _ (match ?x with _ => _ end) => destruct x
      | |- respects _ (let '(_, _) := ?x in _) => destruct x
      end ].

Lemma respects_lt9211c_read_chipid : respects R lt9211c_read_chipid.
Proof. unfold lt9211c_read_chipid. frame_walk fail. Qed.

Lemma respects_lt9211c_mipi_rx_phy_poweron :
  respects R lt9211c_mipi_rx_phy_poweron.
Proof. unfold lt9211c_mipi_rx_phy_poweron. frame_walk fail. Qed.

Lemma respects_lt9211c_mipi_rx_clk_sel : respects R lt9211c_mipi_rx_clk_sel.
Proof. unfold lt9211c_mipi_rx_clk_sel. frame_walk fail. Qed.

Lemma respects_lt9211c_video_check_framerate_get :
  respects R lt9211c_video_check_framerate_get.
Proof. unfold lt9211c_video_check_framerate_get. frame_walk fail. Qed.

Lemma respects_lt9211c_mipi_rx_input_sel : respects R lt9211c_mipi_rx_input_sel.
Proof. unfold lt9211c_mipi_rx_input_sel. frame_walk fail. Qed.

Lemma respects_lt9211c_mipi_rx_lane_set : respects R lt9211c_mipi_rx_lane_set.
Proof. unfold lt9211c_mipi_rx_lane_set. frame_walk fail. Qed.

Lemma respects_lt9211c_mipi_rx_sot_get : respects R lt9211c_mipi_rx_sot_get.
Proof. unfold lt9211c_mipi_rx_sot_get. frame_walk fail. Qed.

Lemma respects_lt9211c_mipi_rx_hs_settle_set :
  respects R lt9211c_mipi_rx_hs_settle_set.
Proof. unfold lt9211c_mipi_rx_hs_settle_set. frame_walk fail. Qed.

Lemma respects_lt9211c_mipi_rx_hact_get : respects R lt9211c_mipi_rx_hact_get.
Proof.
  unfold lt9211c_mipi_rx_hact_get.
  frame_walk ltac:(apply respects_set_rx_timing).
Qed.

Lemma respects_lt9211c_mipi_rx_video_timing_get :
  respects R lt9211c_mipi_rx_video_timing_get.
Proof.
  unfold lt9211c_mipi_rx_video_timing_get.
  frame_walk ltac:(first [ apply respects_lt9211c_mipi_rx_sot_get
                         | apply respects_lt9211c_mipi_rx_hs_settle_set
                         | apply respects_lt9211c_mipi_rx_hact_get ]).
Qed.

Lemma respects_lt9211c_mipi_rx_video_timing_set (t : lt9211c_video_timing) :
  respects R (lt9211c_mipi_rx_video_timing_set t).
Proof. unfold lt9211c_mipi_rx_video_timing_set. frame_walk fail. Qed.

Lemma respects_lt9211c_mipi_rx_video_timing_sel :
  respects R lt9211c_mipi_rx_video_timing_sel.
Proof.
  unfold lt9211c_mipi_rx_video_timing_sel.
  frame_walk ltac:(first [ apply respects_lt9211c_video_check_framerate_get
                         | apply respects_set_video_timing
                         | apply respects_lt9211c_mipi_rx_video_timing_set ]).
Qed.

Lemma respects_lt9211c_mipi_rx_video_timing_config :
  respects R lt9211c_mipi_rx_video_timing_config.
Proof.
  unfold lt9211c_mipi_rx_video_timing_config.
  frame_walk ltac:(first [ apply respects_lt9211c_mipi_rx_video_timing_get
                         | apply respects_lt9211c_mipi_rx_video_timing_sel ]).
Qed.

Lemma respects_lt9211c_mipi_rx_dessc_pll_sdm_cal (p : lt9211c_pcr_setting) :
  respects R (lt9211c_mipi_rx_dessc_pll_sdm_cal p).
Proof. unfold lt9211c_mipi_rx_dessc_pll_sdm_cal. frame_walk fail. Qed.

Lemma respects_lt9211c_mipi_rx_dessc_pll_set :
  respects R lt9211c_mipi_rx_dessc_pll_set.
Proof.
  unfold lt9211c_mipi_rx_dessc_pll_set.
  frame_walk ltac:(apply respects_lt9211c_mipi_rx_dessc_pll_sdm_cal).
Qed.

Lemma respects_pcr_poll : respects R pcr_poll.
Proof. unfold pcr_poll. frame_walk fail. Qed.

Lemma respects_pcr_stable_loop (fuel : nat) (pcr_cal_count : Z) :
  respects R (pcr_stable_loop fuel pcr_cal_count).
Proof.
  revert pcr_cal_count.
  induction fuel as [| fuel IH]; intros pcr_cal_count;
    cbn [pcr_stable_loop].
  - apply respects_fuel_out.
  - frame_walk ltac:(first [ apply respects_pcr_poll | apply IH ]).
Qed.

Lemma respects_pcr_calibration_setup : respects R pcr_calibration_setup.
Proof. unfold pcr_calibration_setup. frame_walk fail. Qed.

Lemma respects_lt9211c_mipi_rx_pcr_calibration :
  respects R lt9211c_mipi_rx_pcr_calibration.
Proof.
  unfold lt9211c_mipi_rx_pcr_calibration.
  frame_walk ltac:(first [ apply respects_pcr_calibration_setup
                         | apply respects_pcr_stable_loop ]).
Qed.

Lemma respects_lt9211c_lvds_tx_phy_poweroff :
  respects R lt9211c_lvds_tx_phy_poweroff.
Proof. unfold lt9211c_lvds_tx_phy_poweroff. frame_walk fail. Qed.

Lemma respects_lt9211c_lvds_tx_phy_poweron :
  respects R lt9211c_lvds_tx_phy_poweron.
Proof. unfold lt9211c_lvds_tx_phy_poweron. frame_walk fail. Qed.

Lemma respects_lt9211c_system_fm_clk_get (clk_src : Z) :
  respects R (lt9211c_system_fm_clk_get clk_src).
Proof. unfold lt9211c_system_fm_clk_get. frame_walk fail. Qed.

Lemma respects_lt9211c_lvds_tx_pll_ref_pixel_clk_get :
  respects R lt9211c_lvds_tx_pll_ref_pixel_clk_get.
Proof.
  unfold lt9211c_lvds_tx_pll_ref_pixel_clk_get.
  frame_walk ltac:(first [ apply respects_lt9211c_system_fm_clk_get
                         | apply respects_set_video_timing ]).
Qed.

Lemma respects_lt9211c_lvds_tx_pll_ref_pixel_clk_set :
  respects R lt9211c_lvds_tx_pll_ref_pixel_clk_set.
Proof. unfold lt9211c_lvds_tx_pll_ref_pixel_clk_set. frame_walk fail. Qed.

Lemma respects_lt9211c_lvds_tx_pll_config :
  respects R lt9211c_lvds_tx_pll_config.
Proof. unfold lt9211c_lvds_tx_pll_config. frame_walk fail. Qed.

Lemma respects_txpll_cal_loop (fuel : nat) (count : Z) :
  respects R (txpll_cal_loop fuel count).
Proof.
  revert count.
  induction fuel as [| fuel IH]; intros count; cbn [txpll_cal_loop].
  - destruct (count <=? 3); [apply respects_fuel_out | apply respects_Ret].
  - frame_walk ltac:(apply IH).
Qed.

Lemma respects_lt9211c_lvds_tx_pll_calibration :
  respects R lt9211c_lvds_tx_pll_calibration.
Proof.
  unfold lt9211c_lvds_tx_pll_calibration.
  frame_walk ltac:(apply respects_txpll_cal_loop).
Qed.

Lemma respects_lt9211c_lvds_tx_port_set : respects R lt9211c_lvds_tx_port_set.
Proof. unfold lt9211c_lvds_tx_port_set. frame_walk fail. Qed.

Lemma respects_lt9211c_lvds_tx_video_format_set (t : lt9211c_video_timing) :
  respects R (lt9211c_lvds_tx_video_format_set t).
Proof. unfold lt9211c_lvds_tx_video_format_set. frame_walk fail. Qed.

Lemma respects_lt9211c_lvds_tx_lane_num_set :
  respects R lt9211c_lvds_tx_lane_num_set.
Proof. unfold lt9211c_lvds_tx_lane_num_set. frame_walk fail. Qed.

Lemma respects_lt9211c_lvds_tx_port_swap : respects R lt9211c_lvds_tx_port_swap.
Proof. unfold lt9211c_lvds_tx_port_swap. frame_walk fail. Qed.

Lemma respects_lt9211c_lvds_tx_sw_reset : respects R lt9211c_lvds_tx_sw_reset.
Proof. unfold lt9211c_lvds_tx_sw_reset. frame_walk fail. Qed.

Lemma respects_lt9211c_mipi_rx_dig_set : respects R lt9211c_mipi_rx_dig_set.
Proof.
  unfold lt9211c_mipi_rx_dig_set.
  frame_walk ltac:(first [ apply respects_lt9211c_mipi_rx_input_sel
                         | apply respects_lt9211c_mipi_rx_lane_set ]).
Qed.

Lemma respects_lt9211c_lvds_tx_dig_set (t : lt9211c_video_timing) :
  respects R (lt9211c_lvds_tx_dig_set t).
Proof.
  unfold lt9211c_lvds_tx_dig_set.
  frame_walk ltac:(first [ apply respects_lt9211c_lvds_tx_port_set
                         | apply respects_lt9211c_lvds_tx_video_format_set
                         | apply respects_lt9211c_lvds_tx_lane_num_set
                         | apply respects_lt9211c_lvds_tx_port_swap
                         | apply respects_lt9211c_lvds_tx_sw_reset ]).
Qed.

Lemma respects_lt9211c_system_video_chk_clk_src_sel (clk_src : Z) :
  respects R (lt9211c_system_video_chk_clk_src_sel clk_src).
Proof. unfold lt9211c_system_video_chk_clk_src_sel. frame_walk fail. Qed.

Lemma respects_lt9211c_system_video_chk_src_sel :
  respects R lt9211c_system_video_chk_src_sel.
Proof. unfold lt9211c_system_video_chk_src_sel. frame_walk fail. Qed.

Lemma respects_lt9211c_system_act_rx_sel : respects R lt9211c_system_act_rx_sel.
Proof. unfold lt9211c_system_act_rx_sel. frame_walk fail. Qed.

Lemma respects_lt9211c_system_tx_sram_sel :
  respects R lt9211c_system_tx_sram_sel.
Proof. unfold lt9211c_system_tx_sram_sel. frame_walk fail. Qed.

Lemma respects_read_u16_field (reg_hi reg_lo : Z) :
  respects R (read_u16_field reg_hi reg_lo).
Proof. unfold read_u16_field. frame_walk fail. Qed.

Lemma respects_lt9211c_video_check_get : respects R lt9211c_video_check_get.
Proof.
  unfold lt9211c_video_check_get.
  frame_walk ltac:(apply respects_read_u16_field).
Qed.

Lemma respects_lt9211c_mipi_rx_source_config :
  respects R lt9211c_mipi_rx_source_config.
Proof.
  unfold lt9211c_mipi_rx_source_config.
  frame_walk ltac:(first [ apply respects_lt9211c_mipi_rx_phy_poweron
                         | apply respects_lt9211c_mipi_rx_clk_sel
                         | apply respects_lt9211c_system_video_chk_clk_src_sel
                         | apply respects_lt9211c_system_video_chk_src_sel
                         | apply respects_lt9211c_system_act_rx_sel
                         | apply respects_lt9211c_mipi_rx_dig_set ]).
Qed.

Lemma respects_lt9211c_mipi_rx_pll_config :
  respects R lt9211c_mipi_rx_pll_config.
Proof.
  unfold lt9211c_mipi_rx_pll_config.
  frame_walk ltac:(first [ apply respects_lt9211c_mipi_rx_dessc_pll_set
                         | apply respects_lt9211c_mipi_rx_pcr_calibration
                         | apply respects_lt9211c_system_video_chk_clk_src_sel
                         | apply respects_lt9211c_system_video_chk_src_sel ]).
Qed.

Lemma respects_lt9211c_mipi_rx_video_check_stable :
  respects R lt9211c_mipi_rx_video_check_stable.
Proof. unfold lt9211c_mipi_rx_video_check_stable. frame_walk fail. Qed.

Lemma respects_lt9211c_lvds_tx_source_config :
  respects R lt9211c_lvds_tx_source_config.
Proof.
  unfold lt9211c_lvds_tx_source_config.
  frame_walk ltac:(first [ apply respects_lt9211c_system_tx_sram_sel
                         | apply respects_lt9211c_lvds_tx_phy_poweron ]).
Qed.

Lemma respects_lt9211c_lvds_tx_config_video :
  respects R lt9211c_lvds_tx_config_video.
Proof.
  unfold lt9211c_lvds_tx_config_video.
  frame_walk ltac:(first [ apply respects_lt9211c_lvds_tx_pll_ref_pixel_clk_get
                         | apply respects_lt9211c_lvds_tx_pll_ref_pixel_clk_set
                         | apply respects_lt9211c_lvds_tx_pll_config
                         | apply respects_lt9211c_lvds_tx_pll_calibration ]).
Qed.

Lemma respects_lt9211c_lvds_tx_config_video_out :
  respects R lt9211c_lvds_tx_config_video_out.
Proof.
  unfold lt9211c_lvds_tx_config_video_out.
  frame_walk ltac:(first [ apply respects_lt9211c_video_check_get
                         | apply respects_lt9211c_lvds_tx_dig_set ]).
Qed.

Lemma respects_lt9211c_module_reset : respects R lt9211c_module_reset.
Proof. unfold lt9211c_module_reset. frame_walk fail. Qed.

Lemma respects_video_stable_wait (fuel : nat) :
  respects R (video_stable_wait fuel).
Proof.
  induction fuel as [| fuel IH]; cbn [video_stable_wait].
  - apply respects_fuel_out.
  - frame_walk ltac:(first [ apply respects_lt9211c_mipi_rx_video_check_stable
                           | apply respects_set_counter
                           | apply IH ]).
Qed.

Lemma respects_pll_config_tail : respects R pll_config_tail.
Proof.
  unfold pll_config_tail.
  frame_walk ltac:(first [ apply respects_set_counter
                         | apply respects_video_stable_wait
                         | apply respects_lt9211c_lvds_tx_source_config
                         | apply respects_set_state ]).
Qed.

Lemma respects_prepare_body : respects R prepare_body.
Proof.
  unfold prepare_body.
  frame_walk ltac:(first [ apply respects_set_counter
                         | apply respects_lt9211c_module_reset
                         | apply respects_lt9211c_read_chipid
                         | apply respects_lt9211c_mipi_rx_source_config
                         | apply respects_lt9211c_lvds_tx_phy_poweroff
                         | apply respects_set_state ]).
Qed.

End Frame.
End Transfers.

(** ** The frames used below *)

Section Frames.
Context {dev : Type} {RI : RegisterInterface dev}.

Local Abbreviation ctx := (lt9211c dev).

Ltac frame_rel :=
  unfold same_schedule, same_control, same_fields;
  intros; cbn; intuition congruence.

Lemma video_timing_config_same_control :
  respects (@same_control dev) lt9211c_mipi_rx_video_timing_config.
Proof. apply respects_lt9211c_mipi_rx_video_timing_config; frame_rel. Qed.

Lemma pll_config_same_control :
  respects (@same_control dev) lt9211c_mipi_rx_pll_config.
Proof. apply respects_lt9211c_mipi_rx_pll_config; frame_rel. Qed.

Lemma config_video_same_control :
  respects (@same_control dev) lt9211c_lvds_tx_config_video.
Proof. apply respects_lt9211c_lvds_tx_config_video; frame_rel. Qed.

Lemma config_video_out_same_control :
  respects (@same_control dev) lt9211c_lvds_tx_config_video_out.
Proof. apply respects_lt9211c_lvds_tx_config_video_out; frame_rel. Qed.

Lemma module_reset_same_control :
  respects (@same_control dev) lt9211c_module_reset.
Proof. apply respects_lt9211c_module_reset; frame_rel. Qed.

Lemma read_chipid_same_control :
  respects (@same_control dev) lt9211c_read_chipid.
Proof. apply respects_lt9211c_read_chipid; frame_rel. Qed.

Lemma source_config_same_control :
  respects (@same_control dev) lt9211c_mipi_rx_source_config.
Proof. apply respects_lt9211c_mipi_rx_source_config; frame_rel. Qed.

Lemma poweroff_same_control :
  respects (@same_control dev) lt9211c_lvds_tx_phy_poweroff.
Proof. apply respects_lt9211c_lvds_tx_phy_poweroff; frame_rel. Qed.

Lemma prepare_body_same_schedule : respects (@same_schedule dev) prepare_body.
Proof. apply respects_prepare_body; frame_rel. Qed.

Lemma pll_config_tail_same_schedule :
  respects (@same_schedule dev) pll_config_tail.
Proof. apply respects_pll_config_tail; frame_rel. Qed.

Lemma framerate_get_same_fields :
  respects (@same_fields dev) lt9211c_video_check_framerate_get.
Proof. apply respects_lt9211c_video_check_framerate_get; frame_rel. Qed.

End Frames.

(** ** The bring-up state machine *)

Section StateMachine.
Context {dev : Type} {RI : RegisterInterface dev}.

Local Abbreviation ctx := (lt9211c dev).

Lemma module_config_dispatch (s : ctx) :
  lt9211c_module_config s
  = match state s with
    | LT9211C_STATE_PREPARE => case_PREPARE
    | LT9211C_STATE_CHIPRX_VIDTIMING_CONFIG => case_CHIPRX_VIDTIMING_CONFIG
    | LT9211C_STATE_CHIPRX_PLL_CONFIG => case_CHIPRX_PLL_CONFIG
    | LT9211C_STATE_CHIPTX_CONFIG_VIDEO => case_CHIPTX_CONFIG_VIDEO
    | LT9211C_STATE_CHIPTX_VIDEO_OUT => case_CHIPTX_VIDEO_OUT
    end (upd_rx_timing rx_timing_zero s).
Proof. reflexivity. Qed.

(** What [case LT9211C_STATE_CHIPRX_VIDTIMING_CONFIG] does when the timing
    configuration fails. *)
Lemma case_vidtiming_failure (s0 s1 : ctx) (ret : Z) :
  lt9211c_mipi_rx_video_timing_config s0 = Done ret s1 ->
  ret < 0 ->
  let c := if fmt (mipi_rx_video_timing s1) =? 0x0a then 0
           else s32 (counter s1 + 1) in
  let st := if c >? 30 then LT9211C_STATE_PREPARE else state s1 in
  case_CHIPRX_VIDTIMING_CONFIG s0
  = Done ret (with_regmap (regmap s1) (EvSchedule delayed_msec)
                          (upd_state st (upd_counter c s1))).
Proof.
  intros H Hneg c st. unfold case_CHIPRX_VIDTIMING_CONFIG.
  rewrite (bind_Done _ _ _ _ _ H).
  rewrite (geb_0_false ret Hneg).
  subst c st. cbn.
  destruct (fmt (mipi_rx_video_timing s1) =? 10); cbn.
  - reflexivity.
  - destruct (s32 (counter s1 + 1) >? 30); reflexivity.
Qed.

(** After the statements of [case LT9211C_STATE_PREPARE]. *)
Lemma prepare_body_post (s s0 : ctx) :
  prepare_body s = Done tt s0 ->
  counter s0 = 0 /\ state s0 = LT9211C_STATE_CHIPRX_VIDTIMING_CONFIG /\
  scheduled (trace s0) = scheduled (trace s).
Proof.
  unfold prepare_body. intros H.
  apply bind_inv in H. destruct H as ([] & sa & Ha & H).
  apply bind_inv in H. destruct H as (? & sb & Hb & H).
  apply bind_inv in H. destruct H as (? & sc & Hc & H).
  apply bind_inv in H. destruct H as (? & sd & Hd & H).
  apply bind_inv in H. destruct H as (? & se & He & H).
  inversion Ha; subst sa. inversion H; subst s0.
  apply module_reset_same_control in Hb. apply read_chipid_same_control in Hc.
  apply source_config_same_control in Hd. apply poweroff_same_control in He.
  unfold same_control in *. cbn in *. intuition congruence.
Qed.

(** C2.  Whenever the timing configuration fails in the state
    InputTimingConfig (entered directly or by falling through from
    Prepare), [lt9211c_module_config] returns the error after exactly one
    [schedule_delayed_work] with delay 0; the failure counter becomes 0
    when the probed format code is 0x0A and is incremented otherwise; the
    state becomes Prepare exactly when the format code is not 0x0A and the
    incremented counter exceeds 30, and stays InputTimingConfig in every
    other case. *)
Theorem vidtiming_failure_policy (s s0 s1 : ctx) (ret : Z) :
  enters_vidtiming s s0 ->
  lt9211c_mipi_rx_video_timing_config s0 = Done ret s1 ->
  ret < 0 ->
  exists s',
    lt9211c_module_config s = Done ret s' /\
    counter s' = (if fmt (mipi_rx_video_timing s1) =? 0x0a then 0
                  else s32 (counter s0 + 1)) /\
    (state s' = LT9211C_STATE_PREPARE <->
     fmt (mipi_rx_video_timing s1) <> 0x0a /\ s32 (counter s0 + 1) > 30) /\
    (state s' = LT9211C_STATE_CHIPRX_VIDTIMING_CONFIG <->
     ~ (fmt (mipi_rx_video_timing s1) <> 0x0a /\ s32 (counter s0 + 1) > 30)) /\
    trace s' = EvSchedule 0 :: trace s1 /\
    scheduled (trace s') = 0 :: scheduled (trace s) /\
    (state s = LT9211C_STATE_CHIPRX_VIDTIMING_CONFIG -> counter s0 = counter s) /\
    (state s = LT9211C_STATE_PREPARE -> counter s0 = 0).
Proof.
  intros Hin H Hneg.
  destruct (video_timing_config_same_control _ _ _ H) as (Hsch & Hst1 & Hc1).
  assert (Hs0 : lt9211c_module_config s = case_CHIPRX_VIDTIMING_CONFIG s0 /\
                state s0 = LT9211C_STATE_CHIPRX_VIDTIMING_CONFIG /\
                scheduled (trace s0) = scheduled (trace s) /\
                (state s = LT9211C_STATE_CHIPRX_VIDTIMING_CONFIG ->
                 counter s0 = counter s) /\
                (state s = LT9211C_STATE_PREPARE -> counter s0 = 0)).
  { rewrite module_config_dispatch.
    destruct Hin as [[Hst ->] | [Hst Hp]]; rewrite Hst.
    - cbn. repeat split;
        first [reflexivity | exact Hst | intros D; discriminate D].
    - destruct (prepare_body_post _ _ Hp) as (Ec & Es & Esch).
      unfold case_PREPARE. rewrite (bind_Done _ _ _ _ _ Hp).
      repeat split; try assumption;
        first [intros D; discriminate D | intros _; assumption]. }
  destruct Hs0 as (Emc & Est0 & Esch0 & Hcv & Hcp).
  rewrite Est0 in Hst1.
  eexists. split.
  - rewrite Emc. apply (case_vidtiming_failure _ _ _ H Hneg).
  - cbn. rewrite Hc1, Hst1, Hsch, Esch0.
    destruct (Z.eqb_spec (fmt (mipi_rx_video_timing s1)) 10) as [E | E].
    + cbn. repeat split; try reflexivity; try discriminate; try assumption;
        intros; lia.
    + destruct (s32 (counter s0 + 1) >? 30) eqn:G.
      * assert (s32 (counter s0 + 1) > 30) by lia.
        repeat split; try reflexivity; try discriminate; try assumption;
          intros; tauto.
      * assert (~ s32 (counter s0 + 1) > 30) by lia.
        repeat split; try reflexivity; try discriminate; try assumption;
          intros; tauto.
Qed.

(** C7.  From the state Prepare, when the timing configuration, the clock
    recovery and the output PLL each succeed at once, one call of
    [lt9211c_module_config] runs through every case, returns what the
    output formatter returns, ends in the state OutputVideoOut and hands
    nothing to [schedule_delayed_work]. *)
Theorem bringup_falls_through (s s1 s2 s3 s4 s5 s6 : ctx) (r2 r3 r5 r6 : Z) :
  state s = LT9211C_STATE_PREPARE ->
  prepare_body (upd_rx_timing rx_timing_zero s) = Done tt s1 ->
  lt9211c_mipi_rx_video_timing_config s1 = Done r2 s2 -> 0 <= r2 ->
  lt9211c_mipi_rx_pll_config (upd_state LT9211C_STATE_CHIPRX_PLL_CONFIG s2)
  = Done r3 s3 -> 0 <= r3 ->
  pll_config_tail s3 = Done tt s4 ->
  lt9211c_lvds_tx_config_video s4 = Done r5 s5 -> 0 <= r5 ->
  lt9211c_lvds_tx_config_video_out
    (upd_state LT9211C_STATE_CHIPTX_VIDEO_OUT s5) = Done r6 s6 ->
  lt9211c_module_config s = Done r6 s6 /\
  state s6 = LT9211C_STATE_CHIPTX_VIDEO_OUT /\
  scheduled (trace s6) = scheduled (trace s).
Proof.
  intros Hst H1 H2 Hr2 H3 Hr3 H4 H5 Hr5 H6.
  split; [ | split].
  - rewrite module_config_dispatch, Hst.
    unfold case_PREPARE. rewrite (bind_Done _ _ _ _ _ H1).
    unfold case_CHIPRX_VIDTIMING_CONFIG. rewrite (bind_Done _ _ _ _ _ H2).
    rewrite (geb_0_true r2 Hr2).
    cbn [bind set_state].
    unfold case_CHIPRX_PLL_CONFIG. rewrite (bind_Done _ _ _ _ _ H3).
    rewrite (ltb_0_false r3 Hr3).
    rewrite (bind_Done _ _ _ _ _ H4).
    unfold case_CHIPTX_CONFIG_VIDEO. rewrite (bind_Done _ _ _ _ _ H5).
    rewrite (ltb_0_false r5 Hr5).
    cbn [bind set_state]. exact H6.
  - destruct (config_video_out_same_control _ _ _ H6) as (_ & E & _).
    exact E.
  - pose proof (prepare_body_same_schedule _ _ _ H1) as E1.
    destruct (video_timing_config_same_control _ _ _ H2) as (E2 & _).
    destruct (pll_config_same_control _ _ _ H3) as (E3 & _).
    pose proof (pll_config_tail_same_schedule _ _ _ H4) as E4.
    destruct (config_video_same_control _ _ _ H5) as (E5 & _).
    destruct (config_video_out_same_control _ _ _ H6) as (E6 & _).
    unfold same_schedule in E1, E4. cbn in E1, E3, E6. congruence.
Qed.

End StateMachine.

(** ** The mode matcher *)

Lemma row_test_spec (h v rate : Z) (t : lt9211c_video_timing) :
  (negb (h =? hactive t) || negb (v =? vactive t)
   || ((rate <? framerate t - 3) || (rate >? framerate t + 3))) = false
  <-> qualifies h v rate t.
Proof.
  unfold qualifies.
  rewrite !orb_false_iff, !negb_false_iff, !Z.eqb_eq, Z.ltb_ge.
  rewrite Z.gtb_ltb, Z.ltb_ge. intuition lia.
Qed.

Lemma scan_step (t : lt9211c_video_timing) (rest : list lt9211c_video_timing)
    (index : nat) (h v rate : Z) :
  support_timing_scan (t :: rest) index h v rate
  = if negb (h =? hactive t) || negb (v =? vactive t)
       || ((rate <? framerate t - 3) || (rate >? framerate t + 3))
    then support_timing_scan rest (S index) h v rate
    else Some index.
Proof.
  cbn [support_timing_scan].
  destruct (negb (h =? hactive t) || negb (v =? vactive t)); reflexivity.
Qed.

Lemma scan_some (rows : list lt9211c_video_timing) (h v rate : Z) :
  forall index i,
    support_timing_scan rows index h v rate = Some i ->
    exists k, i = (index + k)%nat /\ (k < length rows)%nat /\
      qualifies h v rate (nth k rows video_timing_zero) /\
      forall j, (j < k)%nat ->
        ~ qualifies h v rate (nth j rows video_timing_zero).
Proof.
  induction rows as [| t rest IH]; intros index i H.
  - discriminate.
  - rewrite scan_step in H.
    destruct (negb (h =? hactive t) || negb (v =? vactive t)
              || ((rate <? framerate t - 3) || (rate >? framerate t + 3)))
      eqn:E.
    + destruct (IH _ _ H) as (k & Hi & Hk & Hq & Hfirst).
      exists (S k). split; [ | split; [ | split]].
      * lia.
      * cbn [length]. lia.
      * exact Hq.
      * intros [| j] Hj; cbn [nth].
        -- intros Q. apply row_test_spec in Q. congruence.
        -- apply Hfirst. lia.
    + inversion H; subst i. exists 0%nat. split; [ | split; [ | split]].
      * lia.
      * cbn [length]. lia.
      * cbn [nth]. apply row_test_spec. exact E.
      * intros j Hj. lia.
Qed.

Lemma scan_none (rows : list lt9211c_video_timing) (h v rate : Z) :
  forall index,
    support_timing_scan rows index h v rate = None ->
    forall t, In t rows -> ~ qualifies h v rate t.
Proof.
  induction rows as [| t rest IH]; intros index H t' Hin.
  - destruct Hin.
  - rewrite scan_step in H.
    destruct (negb (h =? hactive t) || negb (v =? vactive t)
              || ((rate <? framerate t - 3) || (rate >? framerate t + 3)))
      eqn:E; [ | discriminate].
    destruct Hin as [<- | Hin].
    + intros Q. apply row_test_spec in Q. congruence.
    + exact (IH _ H _ Hin).
Qed.

Lemma scan_first_qualifying (h v rate : Z) (i : nat) :
  support_timing_scan lt9211c_support_timing 0 h v rate = Some i <->
  first_qualifying h v rate i.
Proof.
  split.
  - intros H. destruct (scan_some _ _ _ _ _ _ H) as (k & -> & Hk & Hq & Hf).
    unfold first_qualifying, support_row. cbn [Nat.add]. auto.
  - intros (Hi & Hq & Hf).
    destruct (support_timing_scan lt9211c_support_timing 0 h v rate)
      as [i' | ] eqn:E.
    + destruct (scan_some _ _ _ _ _ _ E) as (k & -> & Hk & Hq' & Hf').
      cbn [Nat.add]. f_equal.
      destruct (Nat.lt_trichotomy k i) as [L | [L | L]].
      * exfalso. exact (Hf _ L Hq').
      * exact L.
      * exfalso. exact (Hf' _ L Hq).
    + exfalso. apply (scan_none _ _ _ _ _ E (support_row i)); [ | exact Hq].
      apply nth_In. exact Hi.
Qed.

Lemma scan_none_qualifies (h v rate : Z) :
  support_timing_scan lt9211c_support_timing 0 h v rate = None <->
  none_qualifies h v rate.
Proof.
  split.
  - intros H. exact (scan_none _ _ _ _ _ H).
  - intros Hn.
    destruct (support_timing_scan lt9211c_support_timing 0 h v rate)
      as [i | ] eqn:E; [ | reflexivity].
    apply scan_first_qualifying in E. destruct E as (Hi & Hq & _).
    exfalso. apply (Hn (support_row i)); [ | exact Hq].
    apply nth_In. exact Hi.
Qed.

(** No row of the table overflows the 32-bit product of the pixel clock. *)
Lemma support_timing_pclk_exact :
  forall t rate, In t lt9211c_support_timing ->
    pclk_khz (resolved_timing t rate)
    = htotal t * vtotal t * framerate t / 1000.
Proof.
  intros t rate Hin. cbn in Hin.
  repeat (destruct Hin as [<- | Hin]; [reflexivity | ]).
  destruct Hin.
Qed.

Section Matcher.
Context {dev : Type} {RI : RegisterInterface dev}.

Local Abbreviation ctx := (lt9211c dev).

Lemma returns_Ret {A : Type} (a : A) : returns (@Ret dev A a).
Proof. intros s. exists a, s. reflexivity. Qed.

Lemma returns_bind {A B : Type} (m : M dev A) (k : A -> M dev B) :
  returns m -> (forall a, returns (k a)) -> returns (bind m k).
Proof.
  intros Hm Hk s. destruct (Hm s) as (a & s1 & H1).
  destruct (Hk a s1) as (b & s2 & H2).
  exists b, s2. rewrite (bind_Done _ _ _ _ _ H1). exact H2.
Qed.

Lemma returns_regmap_write (reg val : Z) : returns (regmap_write reg val).
Proof. intros s. rewrite regmap_write_eq. eauto. Qed.

Lemma returns_read_u8 (reg : Z) : returns (read_u8 reg).
Proof. intros s. rewrite read_u8_eq. eauto. Qed.

Lemma regmap_write_trace (reg val : Z) (s s1 : ctx) (ret : Z) :
  regmap_write reg val s = Done ret s1 ->
  trace s1 = EvWrite reg val :: trace s.
Proof. rewrite regmap_write_eq. intros H. inversion H. reflexivity. Qed.

Lemma read_low_byte_trace (reg old : Z) (s s1 : ctx) (a : Z * Z) :
  read_low_byte reg old s = Done a s1 ->
  trace s1 = EvRead reg 1 :: trace s.
Proof. rewrite read_low_byte_eq. intros H. inversion H. reflexivity. Qed.

Lemma video_timing_set_returns (t : lt9211c_video_timing) :
  returns (lt9211c_mipi_rx_video_timing_set t).
Proof.
  unfold lt9211c_mipi_rx_video_timing_set.
  repeat (apply returns_bind; [apply returns_regmap_write | intros _]).
  apply returns_regmap_write.
Qed.

Lemma video_timing_set_same_fields (t : lt9211c_video_timing) :
  respects (@same_fields dev) (lt9211c_mipi_rx_video_timing_set t).
Proof.
  apply respects_lt9211c_mipi_rx_video_timing_set;
    unfold same_fields; intros; cbn; intuition congruence.
Qed.

Lemma video_timing_set_trace (t : lt9211c_video_timing) (s s' : ctx) (ret : Z) :
  lt9211c_mipi_rx_video_timing_set t s = Done ret s' ->
  trace s' = video_timing_set_events t ++ trace s.
Proof.
  unfold lt9211c_mipi_rx_video_timing_set, video_timing_set_events. intros H.
  repeat match type of H with
         | bind _ _ _ = Done _ _ =>
             let Hw := fresh "Hw" in
             apply bind_inv in H; destruct H as (? & ? & Hw & H);
             apply regmap_write_trace in Hw
         end.
  apply regmap_write_trace in H.
  cbn [app]. congruence.
Qed.

Lemma framerate_get_trace (s s1 : ctx) (rate : Z) :
  lt9211c_video_check_framerate_get s = Done rate s1 ->
  trace s1 = framerate_get_events ++ trace s.
Proof.
  unfold lt9211c_video_check_framerate_get, framerate_get_events. intros H.
  apply bind_inv in H. destruct H as (? & s2 & H2 & H).
  apply regmap_write_trace in H2.
  apply bind_inv in H. destruct H as ([? ?] & s3 & H3 & H).
  apply read_low_byte_trace in H3.
  apply bind_inv in H. destruct H as (? & s4 & H4 & H).
  inversion H4; subst s4.
  apply bind_inv in H. destruct H as ([? ?] & s5 & H5 & H).
  apply read_low_byte_trace in H5.
  apply bind_inv in H. destruct H as ([? ?] & s6 & H6 & H).
  apply read_low_byte_trace in H6.
  destruct (framerate_of_frametime _); [ | discriminate].
  inversion H; subst. cbn [app]. congruence.
Qed.

(** [lt9211c_mipi_rx_video_timing_sel] after the frame-rate measurement. *)
Lemma video_timing_sel_after_measure (s s1 : ctx) (rate : Z) :
  lt9211c_video_check_framerate_get s = Done rate s1 ->
  lt9211c_mipi_rx_video_timing_sel s
  = match support_timing_scan lt9211c_support_timing 0
            (hact (mipi_rx_video_timing s)) (vact (mipi_rx_video_timing s))
            rate with
    | Some index =>
        lt9211c_mipi_rx_video_timing_set
          (resolved_timing (support_row index) rate)
          (upd_video_timing (resolved_timing (support_row index) rate) s1)
    | None => Done (- ENOPARAM) s1
    end.
Proof.
  intros H. unfold lt9211c_mipi_rx_video_timing_sel.
  rewrite (bind_Done _ _ _ _ _ H).
  destruct (framerate_get_same_fields _ _ _ H) as (_ & _ & _ & Erx & _).
  cbn [bind get]. rewrite Erx.
  destruct (support_timing_scan _ _ _ _ _); reflexivity.
Qed.

(** On a match the resolved timing is stored and then programmed. *)
Lemma video_timing_sel_match (s s1 : ctx) (rate : Z) (i : nat) :
  lt9211c_video_check_framerate_get s = Done rate s1 ->
  first_qualifying (hact (mipi_rx_video_timing s))
                   (vact (mipi_rx_video_timing s)) rate i ->
  exists ret s',
    lt9211c_mipi_rx_video_timing_sel s = Done ret s' /\
    video_timing s' = resolved_timing (support_row i) rate /\
    trace s'
    = video_timing_set_events (resolved_timing (support_row i) rate)
        ++ framerate_get_events ++ trace s.
Proof.
  intros H Hq. apply scan_first_qualifying in Hq.
  rewrite (video_timing_sel_after_measure _ _ _ H), Hq.
  destruct (video_timing_set_returns
              (resolved_timing (support_row i) rate)
              (upd_video_timing (resolved_timing (support_row i) rate) s1))
    as (ret & s' & E).
  exists ret, s'. split; [exact E | ].
  destruct (video_timing_set_same_fields _ _ _ _ E) as (_ & _ & _ & _ & Evt & _).
  pose proof (video_timing_set_trace _ _ _ _ E) as Etr.
  cbn [trace upd_video_timing] in Etr.
  rewrite (framerate_get_trace _ _ _ H) in Etr.
  split; [exact Evt | exact Etr].
Qed.

Lemma video_timing_sel_no_match (s s1 : ctx) (rate : Z) :
  lt9211c_video_check_framerate_get s = Done rate s1 ->
  none_qualifies (hact (mipi_rx_video_timing s))
                 (vact (mipi_rx_video_timing s)) rate ->
  lt9211c_mipi_rx_video_timing_sel s = Done (- ENOPARAM) s1.
Proof.
  intros H Hn. apply scan_none_qualifies in Hn.
  rewrite (video_timing_sel_after_measure _ _ _ H), Hn. reflexivity.
Qed.

Lemma match_or_none (h v rate : Z) :
  (exists i, first_qualifying h v rate i) \/ none_qualifies h v rate.
Proof.
  destruct (support_timing_scan lt9211c_support_timing 0 h v rate)
    as [i | ] eqn:E.
  - left. exists i. apply scan_first_qualifying. exact E.
  - right. apply scan_none_qualifies. exact E.
Qed.

(** C4.  The matcher walks the table in order and takes the first row
    whose active width and height equal the probed ones and whose nominal
    rate is within 3 of the measured rate; it leaves through the NoMatch
    exit exactly when no row fits.  For 1920x1080 at a measured 59 Hz it
    is row 13, the 60 Hz row standing before the 90 Hz row 14. *)
Theorem mode_matcher_first_match (s s1 : ctx) (rate : Z) :
  lt9211c_video_check_framerate_get s = Done rate s1 ->
  let h := hact (mipi_rx_video_timing s) in
  let v := vact (mipi_rx_video_timing s) in
  ((exists i, first_qualifying h v rate i) \/ none_qualifies h v rate) /\
  (forall i, first_qualifying h v rate i ->
     exists ret s',
       lt9211c_mipi_rx_video_timing_sel s = Done ret s' /\
       video_timing s' = resolved_timing (support_row i) rate) /\
  (none_qualifies h v rate ->
     lt9211c_mipi_rx_video_timing_sel s = Done (- ENOPARAM) s1) /\
  first_qualifying 1920 1080 59 13 /\
  support_row 13 = row 88 44 148 1920 2200 4 5 36 1080 1125 60 /\
  support_row 14 = row 88 44 148 1920 2200 4 5 36 1080 1125 90.
Proof.
  intros H h v. split; [apply match_or_none | ]. split; [ | split].
  - intros i Hq.
    destruct (video_timing_sel_match _ _ _ _ H Hq) as (ret & s' & E & Evt & _).
    exists ret, s'. split; assumption.
  - intros Hn. exact (video_timing_sel_no_match _ _ _ H Hn).
  - split; [ | split; reflexivity].
    apply scan_first_qualifying. reflexivity.
Qed.

(** C10.  When no row fits, the matcher returns [-ENOPARAM] in the context
    the frame-rate measurement left: the stored video timing is the one it
    started with and the only register written is the page select of the
    measurement.  Whenever the matcher returns with the stored timing or
    the transfers differing from that, a first fitting row exists, the
    stored timing is the one resolved from it and the timing registers
    were written after the measurement. *)
Theorem no_match_leaves_timing_alone (s s1 : ctx) (rate : Z) :
  lt9211c_video_check_framerate_get s = Done rate s1 ->
  let h := hact (mipi_rx_video_timing s) in
  let v := vact (mipi_rx_video_timing s) in
  (none_qualifies h v rate ->
     lt9211c_mipi_rx_video_timing_sel s = Done (- ENOPARAM) s1 /\
     video_timing s1 = video_timing s /\
     trace s1 = framerate_get_events ++ trace s) /\
  (forall ret s',
     lt9211c_mipi_rx_video_timing_sel s = Done ret s' ->
     video_timing s' <> video_timing s \/
     trace s' <> framerate_get_events ++ trace s ->
     exists i,
       first_qualifying h v rate i /\
       video_timing s' = resolved_timing (support_row i) rate /\
       trace s'
       = video_timing_set_events (resolved_timing (support_row i) rate)
           ++ framerate_get_events ++ trace s).
Proof.
  intros H h v.
  destruct (framerate_get_same_fields _ _ _ H) as (_ & _ & _ & _ & Evt & _).
  pose proof (framerate_get_trace _ _ _ H) as Etr.
  split.
  - intros Hn. split; [exact (video_timing_sel_no_match _ _ _ H Hn) | ].
    split; assumption.
  - intros ret s' E Hdiff.
    destruct (match_or_none h v rate) as [[i Hq] | Hn].
    + exists i. split; [exact Hq | ].
      destruct (video_timing_sel_match _ _ _ _ H Hq)
        as (ret' & s'' & E' & Evt' & Etr').
      rewrite E in E'. inversion E'; subst. split; assumption.
    + rewrite (video_timing_sel_no_match _ _ _ H Hn) in E.
      inversion E; subst. exfalso. destruct Hdiff as [D | D]; contradiction.
Qed.

(** C1 (as the code has it).  On every match the stored pixel clock is
    h-total * v-total * nominal rate of the matched row / 1000; the
    measured rate goes to the stored frame rate only. *)
Theorem pclk_from_nominal_rate (s s1 : ctx) (rate : Z) (i : nat) :
  lt9211c_video_check_framerate_get s = Done rate s1 ->
  first_qualifying (hact (mipi_rx_video_timing s))
                   (vact (mipi_rx_video_timing s)) rate i ->
  exists ret s',
    lt9211c_mipi_rx_video_timing_sel s = Done ret s' /\
    pclk_khz (video_timing s')
    = htotal (video_timing s') * vtotal (video_timing s')
      * framerate (support_row i) / 1000 /\
    framerate (video_timing s') = rate /\
    htotal (video_timing s') = htotal (support_row i) /\
    vtotal (video_timing s') = vtotal (support_row i).
Proof.
  intros H Hq.
  destruct (video_timing_sel_match _ _ _ _ H Hq) as (ret & s' & E & Evt & _).
  exists ret, s'. split; [exact E | ]. rewrite Evt.
  split; [ | repeat split].
  unfold support_row.
  rewrite support_timing_pclk_exact by (apply nth_In; exact (proj1 Hq)).
  reflexivity.
Qed.

End Matcher.

(** ** Clock recovery: the calibration poll *)

Section ClockRecovery.
Context {dev : Type} {RI : RegisterInterface dev}.

Local Abbreviation ctx := (lt9211c dev).

Lemma returns_regmap_multi_reg_write (regs : list (Z * Z)) :
  returns (regmap_multi_reg_write regs).
Proof.
  induction regs as [| [reg def] rest IH]; cbn [regmap_multi_reg_write].
  - apply returns_Ret.
  - apply returns_bind; [apply returns_regmap_write | ].
    intros ret. destruct (ret =? 0); [exact IH | apply returns_Ret].
Qed.

Lemma returns_emit (e : event) : returns (@emit dev e).
Proof. intros s. unfold emit. eauto. Qed.

Lemma returns_get {A : Type} (f : ctx -> A) : returns (get f).
Proof. intros s. unfold get. eauto. Qed.

Lemma pcr_calibration_setup_returns : returns pcr_calibration_setup.
Proof.
  unfold pcr_calibration_setup, usleep_range.
  repeat first
    [ apply returns_regmap_multi_reg_write | apply returns_regmap_write
    | apply returns_emit | apply returns_get | apply returns_Ret
    | apply returns_bind; [ | intros ? ]
    | match goal with
      | |- returns (if ?b then _ else _) => destruct b
      end ].
Qed.

Lemma pcr_calibration_setup_keeps_device (P : dev -> Prop) :
  transfer_invariant P ->
  respects (keeps_device P) pcr_calibration_setup.
Proof.
  intros [Hw Hr].
  apply respects_pcr_calibration_setup; unfold keeps_device; cbn.
  - tauto.
  - intros s1 s2 s3 [A1 B1] [A2 B2]. split; [tauto | congruence].
  - intros s reg val. split; [apply Hw | reflexivity].
  - intros s usec ->. tauto.
Qed.

(** One poll: it returns, counts as one 500 ms poll, keeps the device inside
    any transfer invariant, and under [never_stable] it does not see both
    stable bits. *)
Lemma pcr_poll_spec (s : ctx) :
  exists ret data s1,
    pcr_poll s = Done (ret, data) s1 /\
    pcr_polls (trace s1) = S (pcr_polls (trace s)) /\
    forall P, transfer_invariant P -> P (regmap s) ->
      P (regmap s1) /\ (never_stable P -> Z.land data 0x18 <> 0x18).
Proof.
  unfold pcr_poll, usleep_range, emit, bind.
  rewrite read_u8_eq. cbn [regmap with_regmap]. rewrite read_u8_eq.
  cbn [regmap with_regmap].
  do 3 eexists. split; [reflexivity | ]. split; [reflexivity | ].
  intros P [Hw Hr] HP. cbn [regmap with_regmap fst snd]. split.
  - apply Hr, Hr, HP.
  - intros Hn. apply Hn. apply Hr, HP.
Qed.

Lemma pcr_stable_loop_step (fuel : nat) (count : Z) (s s1 : ctx)
    (ret data : Z) :
  pcr_poll s = Done (ret, data) s1 ->
  pcr_stable_loop (S fuel) count s
  = if Z.land data 0x18 =? 0x18 then Done ret s1
    else if count >? 50 then Done (- ENOPARAM) s1
    else pcr_stable_loop fuel (u8 (count + 1)) s1.
Proof.
  intros H. cbn [pcr_stable_loop]. rewrite (bind_Done _ _ _ _ _ H).
  destruct (Z.land data 0x18 =? 0x18); [reflexivity | ].
  destruct (count >? 50); reflexivity.
Qed.

(** The loop always comes back, within [52 - count] polls. *)
Lemma pcr_stable_loop_bound (fuel : nat) :
  forall (count : Z) (s : ctx),
    0 <= count <= 51 -> 52 - count <= Z.of_nat fuel ->
    exists ret s',
      pcr_stable_loop fuel count s = Done ret s' /\
      Z.of_nat (pcr_polls (trace s'))
      <= Z.of_nat (pcr_polls (trace s)) + (52 - count).
Proof.
  induction fuel as [| fuel IH]; intros count s Hc Hf; [lia | ].
  destruct (pcr_poll_spec s) as (ret & data & s1 & Hp & Hn & _).
  rewrite (pcr_stable_loop_step _ _ _ _ _ _ Hp).
  destruct (Z.land data 0x18 =? 0x18).
  - exists ret, s1. split; [reflexivity | lia].
  - destruct (count >? 50) eqn:G.
    + exists (- ENOPARAM), s1. split; [reflexivity | lia].
    + assert (count <= 50) by lia.
      rewrite u8_small by lia.
      destruct (IH (count + 1) s1) as (ret' & s' & E & B); [lia | lia | ].
      exists ret', s'. split; [exact E | lia].
Qed.

(** With the stable bits never both set it gives up after exactly
    [52 - count] polls. *)
Lemma pcr_stable_loop_never_stable (P : dev -> Prop) (fuel : nat) :
  transfer_invariant P -> never_stable P ->
  forall (count : Z) (s : ctx),
    P (regmap s) ->
    0 <= count <= 51 -> 52 - count <= Z.of_nat fuel ->
    exists s',
      pcr_stable_loop fuel count s = Done (- ENOPARAM) s' /\
      Z.of_nat (pcr_polls (trace s'))
      = Z.of_nat (pcr_polls (trace s)) + (52 - count).
Proof.
  intros HP Hnever.
  induction fuel as [| fuel IH]; intros count s Hs Hc Hf; [lia | ].
  destruct (pcr_poll_spec s) as (ret & data & s1 & Hp & Hn & Hinv).
  destruct (Hinv P HP Hs) as [Hs1 Hdata]. specialize (Hdata Hnever).
  rewrite (pcr_stable_loop_step _ _ _ _ _ _ Hp).
  destruct (Z.eqb_spec (Z.land data 0x18) 0x18) as [E | _]; [contradiction | ].
  destruct (count >? 50) eqn:G.
  - exists s1. split; [reflexivity | lia].
  - assert (count <= 50) by lia.
    rewrite u8_small by lia.
    destruct (IH (count + 1) s1) as (s' & E & B); [assumption | lia | lia | ].
    exists s'. split; [exact E | lia].
Qed.

(** C3 (as the code has it).  The clock-recovery calibration always
    returns, after at most 52 polls of 500 ms.  When the status register
    never shows both stable bits (mask 0x18) it returns [-ENOPARAM] after
    exactly 52 polls; a poll that sees both bits ends the loop with the
    status of that read. *)
Theorem pcr_calibration_bounded (s : ctx) :
  (exists ret s',
     lt9211c_mipi_rx_pcr_calibration s = Done ret s' /\
     (pcr_polls (trace s') <= pcr_polls (trace s) + 52)%nat) /\
  (forall P : dev -> Prop,
     transfer_invariant P -> never_stable P -> P (regmap s) ->
     exists s',
       lt9211c_mipi_rx_pcr_calibration s = Done (- ENOPARAM) s' /\
       pcr_polls (trace s') = (pcr_polls (trace s) + 52)%nat) /\
  (forall fuel count ret data s1,
     pcr_poll s = Done (ret, data) s1 ->
     Z.land data 0x18 = 0x18 ->
     pcr_stable_loop (S fuel) count s = Done ret s1).
Proof.
  destruct (pcr_calibration_setup_returns s) as (r0 & s0 & H0).
  split; [ | split].
  - destruct (pcr_calibration_setup_keeps_device (fun _ => True)
                (conj (fun _ _ _ _ => I) (fun _ _ _ _ => I)) _ _ _ H0)
      as [_ E0].
    destruct (pcr_stable_loop_bound loop_budget 0 s0) as (ret & s' & E & B);
      [lia | cbn; lia | ].
    exists ret, s'. split.
    + unfold lt9211c_mipi_rx_pcr_calibration.
      rewrite (bind_Done _ _ _ _ _ H0). exact E.
    + lia.
  - intros P HP Hn Hs.
    destruct (pcr_calibration_setup_keeps_device P HP _ _ _ H0) as [Hs0 E0].
    destruct (pcr_stable_loop_never_stable P loop_budget HP Hn 0 s0)
      as (s' & E & B); [tauto | lia | cbn; lia | ].
    exists s'. split.
    + unfold lt9211c_mipi_rx_pcr_calibration.
      rewrite (bind_Done _ _ _ _ _ H0). exact E.
    + lia.
  - intros fuel count ret data s1 Hp Hd.
    rewrite (pcr_stable_loop_step _ _ _ _ _ _ Hp).
    rewrite Hd. reflexivity.
Qed.

End ClockRecovery.

(** ** The probe: word count to active pixels *)

Section Probe.
Context {dev : Type} {RI : RegisterInterface dev}.

Local Abbreviation ctx := (lt9211c dev).

(** What [lt9211c_mipi_rx_hact_get] leaves in [ctx->mipi_rx_video_timing]. *)
Lemma hact_get_stores (s s' : ctx) (ret : Z) :
  lt9211c_mipi_rx_hact_get s = Done ret s' ->
  exists b0 b1 b2,
    wc (mipi_rx_video_timing s') = u16 (Z.shiftl (u8 b0) 8 + u8 b1) /\
    fmt (mipi_rx_video_timing s') = u8 (Z.land (u8 b2) 0x0f) /\
    hact (mipi_rx_video_timing s')
    = hact_of_wc (fmt (mipi_rx_video_timing s'))
                 (wc (mipi_rx_video_timing s')).
Proof.
  unfold lt9211c_mipi_rx_hact_get. intros H.
  apply bind_inv in H. destruct H as (? & s2 & _ & H).
  apply bind_inv in H. destruct H as ([? bytes] & s3 & _ & H).
  apply bind_inv in H. destruct H as ([? ?] & s4 & _ & H).
  apply bind_inv in H. destruct H as (rx & s5 & _ & H).
  apply bind_inv in H. destruct H as ([] & s6 & H6 & H).
  inversion H; subst. inversion H6; subst.
  exists (nth 0 bytes 0), (nth 1 bytes 0), (nth 2 bytes 0).
  cbn. repeat split.
Qed.

(** What the switch computes, whatever its comments say: the word count
    times the factor written in the code, cut to the 16 bits of [hact].
    Every code has a factor with non-zero numerator and denominator, and a
    code outside the enumeration takes the 24 bpp factor 1/3. *)
Lemma hact_is_scaled_word_count (s s' : ctx) (ret : Z) :
  lt9211c_mipi_rx_hact_get s = Done ret s' ->
  let rx := mipi_rx_video_timing s' in
  let n := fst (format_factor (fmt rx)) in
  let d := snd (format_factor (fmt rx)) in
  0 <= wc rx < 65536 /\ 0 <= fmt rx < 16 /\
  0 < n /\ 0 < d /\
  hact rx = (wc rx * n / d) mod 65536 /\
  (wc rx * n / d < 65536 -> hact rx = wc rx * n / d) /\
  (n <= d -> hact rx = wc rx * n / d) /\
  (enumerated_format (fmt rx) = false -> n = 1 /\ d = 3).
Proof.
  intros H rx n d.
  destruct (hact_get_stores _ _ _ H) as (b0 & b1 & b2 & Ewc & Efmt & Ehact).
  fold rx in Ewc, Efmt, Ehact.
  assert (Hwc : 0 <= wc rx < 65536) by (rewrite Ewc; apply u16_range).
  assert (Hfmt : 0 <= fmt rx < 16).
  { rewrite Efmt.
    pose proof (land_0x0f_range (u8 b2) (proj1 (u8_range b2))) as B.
    rewrite u8_small by lia. exact B. }
  destruct (format_factor_positive (fmt rx)) as [Hn Hd]. fold n d in Hn, Hd.
  assert (Eh : hact rx = (wc rx * n / d) mod 65536).
  { rewrite Ehact. rewrite (hact_of_wc_factor _ _ Hfmt). reflexivity. }
  assert (Hq : 0 <= wc rx * n / d) by (apply Z.div_pos; nia).
  split; [exact Hwc | ]. split; [exact Hfmt | ].
  split; [exact Hn | ]. split; [exact Hd | ]. split; [exact Eh | ].
  split; [ | split].
  - intros Hlt. rewrite Eh. apply Z.mod_small. lia.
  - intros Hle. rewrite Eh. apply Z.mod_small. split; [exact Hq | ].
    apply Z.div_lt_upper_bound; nia.
  - intros Hu. subst n d. rewrite (format_factor_fallback _ Hu).
    split; reflexivity.
Qed.

(** The frequency meter delivers 20 bits. *)
Lemma fm_clk_get_range (clk_src : Z) (s s' : ctx) (clk : Z) :
  lt9211c_system_fm_clk_get clk_src s = Done clk s' ->
  0 <= clk < 2 ^ 20.
Proof.
  unfold lt9211c_system_fm_clk_get. intros H.
  apply bind_inv in H. destruct H as (? & ? & _ & H).
  apply bind_inv in H. destruct H as (? & ? & _ & H).
  apply bind_inv in H. destruct H as (? & ? & _ & H).
  apply bind_inv in H. destruct H as (? & ? & _ & H).
  apply bind_inv in H. destruct H as ([? d2] & s2 & H2 & H).
  rewrite read_u8_eq in H2. inversion H2 as [[E1 E2 E3]]. clear H2.
  apply bind_inv in H. destruct H as ([? d1] & s1 & H1 & H).
  rewrite read_u8_eq in H1. inversion H1 as [[F1 F2 F3]]. clear H1.
  apply bind_inv in H. destruct H as ([? d0] & s0 & H0 & H).
  rewrite read_u8_eq in H0. inversion H0 as [[G1 G2 G3]]. clear H0.
  apply bind_inv in H. destruct H as (? & ? & _ & H).
  apply bind_inv in H. destruct H as (? & ? & _ & H).
  apply Ret_inv in H. destruct H as [-> _].
  assert (B2 : 0 <= d2 < 256) by (rewrite <- E2; apply u8_range).
  pose proof (land_0x0f_range d2 (proj1 B2)) as L.
  assert (B1 : 0 <= d1 < 256) by (rewrite <- F2; apply u8_range).
  assert (B0 : 0 <= d0 < 256) by (rewrite <- G2; apply u8_range).
  rewrite !Z.shiftl_mul_pow2 by lia.
  rewrite (u32_small (Z.land d2 15 * 2 ^ 8 + d1)) by lia.
  rewrite u32_small by lia. lia.
Qed.

End Probe.

(** ** Clock-recovery parameters *)

(** C6.  For every pixel clock the clock-recovery setup can receive (the
    mode table yields clocks from 25200 to 297000 kHz) and every divider
    of its bands (at most 16): with derived = pclk * div / 25,
    M = derived / 1000, K = (derived mod 1000) << 14, the upper limit is
    M + 1 and the lower limit M - 1, none of them cut by the 32-bit
    fields.  For 148500 kHz with divider 2 derived is 11880, M = 11,
    K = 14417920 and the limits are 12 and 10.  Every row of the table
    gives a clock in that range, and the bands select a divider between 1
    and 16 for it. *)
Theorem pcr_setting_in_range (pclk div : Z) :
  25200 <= pclk <= 297000 -> 1 <= div <= 16 ->
  let derived := pclk * div / 25 in
  let p := pcr_setting_of pclk div in
  (pcr_m p = derived / 1000 /\
   pcr_k p = Z.shiftl (derived mod 1000) 14 /\
   pcr_up_limit p = pcr_m p + 1 /\
   pcr_down_limit p = pcr_m p - 1) /\
  (148500 * 2 / 25 = 11880 /\
   pcr_setting_of 148500 2 = mk_pcr 11 14417920 12 10) /\
  (forall t rate, In t lt9211c_support_timing ->
     let clk := pclk_khz (resolved_timing t rate) in
     25200 <= clk <= 297000 /\
     1 <= snd (fst (dessc_pll_band clk)) <= 16).
Proof.
  intros Hp Hd derived p. split; [ | split].
  - assert (Hr : 25200 <= pclk * div <= 4752000) by nia.
    subst p. unfold pcr_setting_of.
    cbn [pcr_m pcr_k pcr_up_limit pcr_down_limit].
    rewrite (u32_small (pclk * div)) by lia. fold derived.
    assert (D : 1008 <= derived <= 190080).
    { subst derived. split.
      - apply Z.div_le_lower_bound; lia.
      - apply Z.div_le_upper_bound; lia. }
    assert (M : 1 <= derived / 1000 <= 191).
    { split.
      - apply Z.div_le_lower_bound; lia.
      - apply Z.div_le_upper_bound; lia. }
    assert (K : 0 <= derived mod 1000 < 1000) by (apply Z.mod_pos_bound; lia).
    rewrite Z.shiftl_mul_pow2 by lia.
    rewrite !u32_small by lia. repeat split.
  - split; reflexivity.
  - intros t rate Hin. cbn in Hin.
    repeat (destruct Hin as [<- | Hin]; [cbn; lia | ]).
    destruct Hin.
Qed.

(** ** Output PLL: divider bands *)

(** C8.  The serial-clock divider falls with the phy clock through the
    bands 640000, 320000, 160000, 80000 (1, 2, 4, 8, else 16); the
    pre-divider rises with the pixel clock through the bands 20000, 40000,
    80000, 160000, 320000 (1, 1, 2, 4, 8, else 16); the phy clock is
    pixel clock * 7 / 2 as long as the product fits 32 bits, which holds
    for every value the frequency meter delivers. *)
Theorem txpll_dividers_monotone :
  (forall phy,
     snd (txpll_sericlk_div phy)
     = if 640000 <=? phy then 1 else if 320000 <=? phy then 2
       else if 160000 <=? phy then 4 else if 80000 <=? phy then 8 else 16) /\
  (forall phy phy',
     phy <= phy' ->
     snd (txpll_sericlk_div phy') <= snd (txpll_sericlk_div phy)) /\
  (forall pclk,
     snd (txpll_prediv pclk)
     = if pclk <? 20000 then 1 else if pclk <? 40000 then 1
       else if pclk <? 80000 then 2 else if pclk <? 160000 then 4
       else if pclk <? 320000 then 8 else 16) /\
  (forall pclk pclk',
     pclk <= pclk' -> snd (txpll_prediv pclk) <= snd (txpll_prediv pclk')) /\
  (forall pclk,
     0 <= pclk -> pclk * 7 < 2 ^ 32 ->
     lvds_tx_phy_clk_of pclk = pclk * 7 / 2) /\
  (forall (dev : Type) (RI : RegisterInterface dev) (s s' : lt9211c dev) clk,
     lt9211c_system_fm_clk_get LT9211C_AD_DESSCPLL_PIX_CLK s = Done clk s' ->
     lvds_tx_phy_clk_of clk = clk * 7 / 2).
Proof.
  repeat split.
  - intros phy. unfold txpll_sericlk_div. rewrite !Z.geb_leb.
    repeat match goal with
           | |- context [?a <=? ?b] => destruct (a <=? b)
           end; reflexivity.
  - intros phy phy' H. unfold txpll_sericlk_div.
    repeat match goal with
           | |- context [?a >=? ?b] =>
               let E := fresh "E" in
               destruct (a >=? b) eqn:E; rewrite Z.geb_leb in E;
               [apply Z.leb_le in E | apply Z.leb_gt in E]
           end; cbn; lia.
  - intros pclk. unfold txpll_prediv.
    repeat match goal with
           | |- context [?a <? ?b] => destruct (a <? b)
           end; reflexivity.
  - intros pclk pclk' H. unfold txpll_prediv.
    repeat match goal with
           | |- context [?a <? ?b] => destruct (Z.ltb_spec a b)
           end; cbn; lia.
  - intros pclk H0 H1. unfold lvds_tx_phy_clk_of.
    rewrite u32_small by lia. reflexivity.
  - intros dev RI s s' clk H.
    pose proof (fm_clk_get_range _ _ _ _ H) as R.
    unfold lvds_tx_phy_clk_of. rewrite u32_small by lia. reflexivity.
Qed.

(** ** Frame-rate measurement *)

(** C9.  The division of [lt9211c_video_check_framerate_get] has no guard:
    a frame time of zero is a zero divisor, and the driver reaches it.
    With a 1920x1080 RGB8 picture on the line, so that the probe passes
    its 400 x 400 floor, and the three counter registers still reading
    zero, the measurement faults, and with it the timing configuration and
    the run of the state machine from Prepare. *)
Theorem framerate_get_divides_by_zero :
  (forall frametime, framerate_of_frametime frametime = None <-> frametime = 0) /\
  (exists s1,
     lt9211c_mipi_rx_video_timing_get (sim_ctx (regs_1080p 0 0 0)) = Done 0 s1 /\
     hact (mipi_rx_video_timing s1) = 1920 /\
     vact (mipi_rx_video_timing s1) = 1080 /\
     lt9211c_video_check_framerate_get s1 = DivideError) /\
  lt9211c_mipi_rx_video_timing_config (sim_ctx (regs_1080p 0 0 0)) = DivideError /\
  lt9211c_module_config (sim_ctx (regs_1080p 0 0 0)) = DivideError.
Proof.
  split; [ | split; [ | split]].
  - intros frametime. unfold framerate_of_frametime, udiv.
    destruct (Z.eqb_spec frametime 0) as [E | E]; split; intros H;
      first [assumption | reflexivity | discriminate | contradiction].
  - eexists. split; [vm_compute; reflexivity | ].
    repeat split; vm_compute; reflexivity.
  - vm_compute. reflexivity.
  - vm_compute. reflexivity.
Qed.

(** ** The loop budget of the model is never the reason to stop *)

Section Budget.
Context {dev : Type} {RI : RegisterInterface dev}.

Local Abbreviation ctx := (lt9211c dev).

Lemma returns_in_budget {A : Type} (m : M dev A) : returns m -> in_budget m.
Proof. intros H s. destruct (H s) as (a & s' & E). rewrite E. discriminate. Qed.

Lemma in_budget_bind {A B : Type} (m : M dev A) (k : A -> M dev B) :
  in_budget m -> (forall a, in_budget (k a)) -> in_budget (bind m k).
Proof.
  intros Hm Hk s. unfold bind. specialize (Hm s).
  destruct (m s) as [a s1 | | ]; [apply Hk | discriminate | contradiction].
Qed.

Lemma in_budget_fault {A : Type} :
  in_budget (fun _ : ctx => @DivideError dev A).
Proof. intros s. discriminate. Qed.

Lemma in_budget_regmap_bulk_read (reg : Z) (count : nat) :
  in_budget (regmap_bulk_read reg count).
Proof. intros s. rewrite regmap_bulk_read_eq. discriminate. Qed.

Lemma in_budget_read_low_byte (reg old : Z) :
  in_budget (read_low_byte reg old).
Proof. intros s. rewrite read_low_byte_eq. discriminate. Qed.

Lemma in_budget_pcr_stable_loop :
  in_budget (pcr_stable_loop loop_budget 0).
Proof.
  intros s.
  destruct (pcr_stable_loop_bound loop_budget 0 s) as (ret & s' & E & _);
    [lia | cbn; lia | ].
  rewrite E. discriminate.
Qed.

Ltac budget_leaf :=
  first
    [ apply in_budget_fault
    | apply in_budget_regmap_bulk_read | apply in_budget_read_low_byte
    | apply in_budget_pcr_stable_loop
    | apply returns_in_budget;
      first [ apply returns_Ret | apply returns_regmap_write
            | apply returns_read_u8 | apply returns_regmap_multi_reg_write
            | apply returns_emit | apply returns_get ]
    | intros ?; discriminate
    | assumption ].

Ltac budget_walk extra :=
  repeat first
    [ budget_leaf
    | extra
    | apply in_budget_bind; [ | intros ? ]
    | match goal with
      | |- in_budget (if ?b then _ else _) => destruct b
      | |- in_budget (match ?x with _ => _ end) => destruct x
      | |- in_budget (let '(_, _) := ?x in _) => destruct x
      end ].

Lemma in_budget_txpll_cal_loop (fuel : nat) :
  forall count,
    0 <= count -> 4 - count <= Z.of_nat fuel ->
    in_budget (txpll_cal_loop fuel count).
Proof.
  induction fuel as [| fuel IH]; intros count H0 Hf; cbn [txpll_cal_loop].
  - destruct (Z.leb_spec count 3); [lia | ].
    apply returns_in_budget, returns_Ret.
  - destruct (Z.leb_spec count 3);
      [ | apply returns_in_budget, returns_Ret].
    unfold usleep_range.
    budget_walk ltac:(rewrite s32_small by lia; apply IH; lia).
Qed.

Lemma video_check_stable_returns :
  forall s : ctx, exists ret s',
    lt9211c_mipi_rx_video_check_stable s = Done ret s' /\
    counter s' = counter s.
Proof.
  intros s. unfold lt9211c_mipi_rx_video_check_stable, bind.
  rewrite regmap_write_eq, read_u8_eq.
  destruct (Z.land _ 1 =? 1); do 2 eexists; split; reflexivity.
Qed.

Lemma video_stable_wait_in_budget (fuel : nat) :
  forall s : ctx,
    0 <= counter s <= 50 -> 51 - counter s <= Z.of_nat fuel ->
    video_stable_wait fuel s <> FuelOut.
Proof.
  induction fuel as [| fuel IH]; intros s Hc Hf; [lia | ].
  cbn [video_stable_wait].
  destruct (video_check_stable_returns s) as (ret & s1 & E & Ec).
  rewrite (bind_Done _ _ _ _ _ E).
  destruct (ret <? 0); [ | discriminate].
  cbn [bind get set_counter]. rewrite Ec.
  rewrite s32_small by lia.
  destruct (Z.gtb_spec (counter s + 1) 50); [discriminate | ].
  apply IH; cbn [counter upd_counter]; lia.
Qed.

Lemma in_budget_pll_config_tail : in_budget pll_config_tail.
Proof.
  intros s. unfold pll_config_tail.
  cbn [bind set_counter].
  pose proof (video_stable_wait_in_budget loop_budget (upd_counter 0 s)) as W.
  unfold bind at 1.
  destruct (video_stable_wait loop_budget (upd_counter 0 s)) as [[] s1 | | ].
  - clear W. revert s1.
    change (in_budget (lt9211c_lvds_tx_source_config ;;;
                       set_state LT9211C_STATE_CHIPTX_CONFIG_VIDEO)).
    unfold lt9211c_lvds_tx_source_config, lt9211c_system_tx_sram_sel,
      lt9211c_lvds_tx_phy_poweron, defer_on_error.
    budget_walk fail.
  - discriminate.
  - exfalso. apply W; [cbn; lia | cbn; lia | reflexivity].
Qed.

Create HintDb driver discriminated.

#[local] Hint Unfold
  lt9211c_module_config case_PREPARE case_CHIPRX_VIDTIMING_CONFIG
  case_CHIPRX_PLL_CONFIG case_CHIPTX_CONFIG_VIDEO case_CHIPTX_VIDEO_OUT
  prepare_body lt9211c_module_reset lt9211c_read_chipid
  lt9211c_mipi_rx_source_config lt9211c_mipi_rx_phy_poweron
  lt9211c_mipi_rx_clk_sel lt9211c_system_video_chk_clk_src_sel
  lt9211c_system_video_chk_src_sel lt9211c_system_act_rx_sel
  lt9211c_mipi_rx_dig_set lt9211c_mipi_rx_input_sel lt9211c_mipi_rx_lane_set
  lt9211c_lvds_tx_phy_poweroff lt9211c_mipi_rx_video_timing_config
  lt9211c_mipi_rx_video_timing_get lt9211c_mipi_rx_sot_get
  lt9211c_mipi_rx_hs_settle_set lt9211c_mipi_rx_hact_get
  lt9211c_mipi_rx_video_timing_sel lt9211c_video_check_framerate_get
  lt9211c_mipi_rx_video_timing_set lt9211c_mipi_rx_pll_config
  lt9211c_mipi_rx_dessc_pll_set lt9211c_mipi_rx_dessc_pll_sdm_cal
  lt9211c_mipi_rx_pcr_calibration pcr_calibration_setup
  lt9211c_lvds_tx_config_video lt9211c_lvds_tx_pll_ref_pixel_clk_get
  lt9211c_system_fm_clk_get lt9211c_lvds_tx_pll_ref_pixel_clk_set
  lt9211c_lvds_tx_pll_config lt9211c_lvds_tx_pll_calibration
  lt9211c_lvds_tx_config_video_out lt9211c_video_check_get read_u16_field
  lt9211c_lvds_tx_dig_set lt9211c_lvds_tx_port_set
  lt9211c_lvds_tx_video_format_set lt9211c_lvds_tx_lane_num_set
  lt9211c_lvds_tx_port_swap lt9211c_lvds_tx_sw_reset
  defer_on_error usleep_range gpiod_set_value_cansleep schedule_delayed_work
  set_state set_counter set_rx_timing set_video_timing uninit_u32 : driver.

(** Every call of the state machine returns or faults on a division: none
    of its polling loops needs more rounds than the model grants. *)
Lemma module_config_in_budget : in_budget lt9211c_module_config.
Proof.
  autounfold with driver.
  budget_walk ltac:(first [ apply in_budget_pll_config_tail
                          | apply in_budget_txpll_cal_loop; cbn; lia ]).
Qed.

End Budget.

(** ** Runs on the simulated chip *)

(** C1, counterexample.  A 1920x1080 input measured at 59 Hz is matched to
    the 60 Hz row and gets the pixel clock 2200 * 1125 * 60 / 1000 = 148500,
    not 2200 * 1125 * 59 / 1000 = 146025. *)
Lemma pclk_ignores_measured_rate :
  exists s1 ret s',
    lt9211c_video_check_framerate_get (sim_probed regs_1080p59) = Done 59 s1 /\
    lt9211c_mipi_rx_video_timing_sel (sim_probed regs_1080p59) = Done ret s' /\
    0 <= ret /\
    pclk_khz (video_timing s') = 148500 /\
    htotal (video_timing s') * vtotal (video_timing s') * 59 / 1000 = 146025 /\
    pclk_khz (video_timing s')
    <> htotal (video_timing s') * vtotal (video_timing s') * 59 / 1000.
Proof.
  do 3 eexists.
  split; [vm_compute; reflexivity | ].
  split; [vm_compute; reflexivity | ].
  cbn. repeat split; try discriminate.
Qed.

Lemma pclk_from_nominal_rate_witness :
  exists ret s',
    lt9211c_mipi_rx_video_timing_sel (sim_probed regs_1080p59) = Done ret s' /\
    pclk_khz (video_timing s')
    = htotal (video_timing s') * vtotal (video_timing s')
      * framerate (support_row 13%nat) / 1000 /\
    framerate (video_timing s') = 59 /\
    htotal (video_timing s') = htotal (support_row 13%nat) /\
    vtotal (video_timing s') = vtotal (support_row 13%nat).
Proof.
  eapply (pclk_from_nominal_rate (sim_probed regs_1080p59) _ 59 13).
  - vm_compute. reflexivity.
  - apply scan_first_qualifying. reflexivity.
Defined.

Lemma vidtiming_failure_policy_witness :
  exists s',
    lt9211c_module_config
      (upd_state LT9211C_STATE_CHIPRX_VIDTIMING_CONFIG (sim_ctx regs_silent))
    = Done (- EPROBE_DEFER) s' /\
    counter s' = 1 /\
    state s' = LT9211C_STATE_CHIPRX_VIDTIMING_CONFIG /\
    scheduled (trace s') = [0].
Proof.
  edestruct (vidtiming_failure_policy
               (upd_state LT9211C_STATE_CHIPRX_VIDTIMING_CONFIG
                          (sim_ctx regs_silent)))
    as (s' & E & Ec & _ & Est & _ & Esch & _).
  - left. split; reflexivity.
  - vm_compute. reflexivity.
  - reflexivity.
  - exists s'. split; [exact E | ]. split; [exact Ec | ].
    split; [ | exact Esch].
    apply Est. cbn. intros [_ G]. discriminate G.
Defined.

(** The two branches of the retry policy, run: at a counter of 30 one more
    failure without the RGB8 code goes back to Prepare; with the RGB8 code
    the counter is cleared and the state stays. *)
Example vidtiming_failure_31st :
  exists s',
    lt9211c_module_config
      (upd_counter 30
         (upd_state LT9211C_STATE_CHIPRX_VIDTIMING_CONFIG
                    (sim_ctx regs_silent)))
    = Done (- EPROBE_DEFER) s' /\
    counter s' = 31 /\ state s' = LT9211C_STATE_PREPARE /\
    scheduled (trace s') = [0].
Proof. eexists. split; [vm_compute; reflexivity | ]. cbn. tauto. Qed.

Example vidtiming_failure_rgb8 :
  exists s',
    lt9211c_module_config
      (upd_counter 30
         (upd_state LT9211C_STATE_CHIPRX_VIDTIMING_CONFIG
                    (sim_ctx regs_rgb8_blank)))
    = Done (- EPROBE_DEFER) s' /\
    fmt (mipi_rx_video_timing s') = 0x0a /\
    counter s' = 0 /\ state s' = LT9211C_STATE_CHIPRX_VIDTIMING_CONFIG /\
    scheduled (trace s') = [0].
Proof. eexists. split; [vm_compute; reflexivity | ]. cbn. tauto. Qed.

(** C3, counterexample.  On a chip that never reports stable the
    calibration polls 52 times before it gives up, one more than 51. *)
Lemma pcr_unstable_takes_52_polls :
  exists s',
    lt9211c_mipi_rx_pcr_calibration (sim_ctx regs_silent)
    = Done (- ENOPARAM) s' /\
    pcr_polls (trace s') = 52%nat /\
    ~ (pcr_polls (trace s') <= 51)%nat.
Proof.
  eexists. split; [vm_compute; reflexivity | ].
  split; [vm_compute; reflexivity | ].
  vm_compute. intros H. repeat apply le_S_n in H. inversion H.
Qed.

Lemma silent_chip_invariant : transfer_invariant silent_chip.
Proof.
  split.
  - intros d reg val H. unfold silent_chip in *. cbn.
    destruct (reg =? 255); [exact H | exact H].
  - intros d reg count H. exact H.
Defined.

Lemma silent_chip_never_stable : never_stable silent_chip.
Proof.
  intros d H. unfold silent_chip in H. cbn. rewrite H. cbn. discriminate.
Defined.

Lemma pcr_calibration_bounded_witness :
  transfer_invariant silent_chip /\ never_stable silent_chip /\
  exists s',
    lt9211c_mipi_rx_pcr_calibration (sim_ctx regs_silent)
    = Done (- ENOPARAM) s' /\
    pcr_polls (trace s') = 52%nat.
Proof.
  split; [exact silent_chip_invariant | ].
  split; [exact silent_chip_never_stable | ].
  exact (proj1 (proj2 (pcr_calibration_bounded (sim_ctx regs_silent)))
               silent_chip silent_chip_invariant silent_chip_never_stable
               eq_refl).
Defined.

Lemma mode_matcher_first_match_witness :
  exists ret s',
    lt9211c_mipi_rx_video_timing_sel (sim_probed regs_1080p59) = Done ret s' /\
    video_timing s' = resolved_timing (support_row 13%nat) 59.
Proof.
  eassert (H : lt9211c_video_check_framerate_get (sim_probed regs_1080p59)
               = Done 59 _) by (vm_compute; reflexivity).
  apply (proj1 (proj2 (mode_matcher_first_match _ _ _ H)) 13%nat).
  apply scan_first_qualifying. reflexivity.
Defined.

(** C5.  A RAW10 line of 60000 bytes: the code computes 60000 * 5 / 4 =
    75000 and the 16-bit [hact] holds 9464.  That is neither the product
    of the word count and the factor 5/4 nor the 48000 pixels of the
    comment on that very line, [wc = hact * 10bpp/8].  The cases whose
    comment leads to a division follow their comment (RGB8bpc,
    [wc = hact * 24bpp/8]: hact = wc * 8 / 24; RAW8, [wc = hact * 8bpp/8]:
    hact = wc) and cannot leave the 16 bits. *)
Theorem hact_wraps_at_16_bits :
  (exists ret s',
     lt9211c_mipi_rx_hact_get (sim_ctx regs_raw10_wide) = Done ret s' /\
     wc (mipi_rx_video_timing s') = 60000 /\
     fmt (mipi_rx_video_timing s') = 0x0c /\
     hact (mipi_rx_video_timing s') = 9464 /\
     hact (mipi_rx_video_timing s') <> wc (mipi_rx_video_timing s') * 5 / 4 /\
     hact (mipi_rx_video_timing s')
     <> wc (mipi_rx_video_timing s') * 8 / 10) /\
  (forall wc, 0 <= wc < 65536 ->
     hact_of_wc 0x0a wc = wc * 8 / 24 /\ hact_of_wc 0x0b wc = wc * 8 / 8).
Proof.
  split.
  - do 2 eexists. split; [vm_compute; reflexivity | ].
    cbn. repeat split; discriminate.
  - intros wc Hwc. cbn [hact_of_wc].
    assert (H3 : 0 <= wc / 3 < 65536).
    { split; [apply Z.div_pos; lia | apply Z.div_lt_upper_bound; lia]. }
    rewrite Z.div_1_r, !u16_small by lia.
    split.
    + change 24 with (3 * 8). rewrite Z.div_mul_cancel_r by lia. reflexivity.
    + rewrite Z.div_mul by lia. reflexivity.
Qed.

Lemma pcr_setting_in_range_witness :
  pcr_m (pcr_setting_of 148500 2) = 148500 * 2 / 25 / 1000 /\
  pcr_k (pcr_setting_of 148500 2) = Z.shiftl (148500 * 2 / 25 mod 1000) 14 /\
  pcr_up_limit (pcr_setting_of 148500 2) = pcr_m (pcr_setting_of 148500 2) + 1 /\
  pcr_down_limit (pcr_setting_of 148500 2)
  = pcr_m (pcr_setting_of 148500 2) - 1.
Proof.
  apply (pcr_setting_in_range 148500 2); lia.
Defined.

Lemma bringup_falls_through_witness :
  exists ret s',
    lt9211c_module_config (sim_ctx regs_1080p60) = Done ret s' /\
    state s' = LT9211C_STATE_CHIPTX_VIDEO_OUT /\
    scheduled (trace s') = scheduled (trace (sim_ctx regs_1080p60)).
Proof.
  do 2 eexists.
  eapply (bringup_falls_through (sim_ctx regs_1080p60)).
  - reflexivity.
  - vm_compute. reflexivity.
  - vm_compute. reflexivity.
  - vm_compute. discriminate.
  - vm_compute. reflexivity.
  - vm_compute. discriminate.
  - vm_compute. reflexivity.
  - vm_compute. reflexivity.
  - vm_compute. discriminate.
  - vm_compute. reflexivity.
Defined.

Lemma txpll_dividers_monotone_witness :
  snd (txpll_sericlk_div 519750) <= snd (txpll_sericlk_div 88200) /\
  snd (txpll_prediv 25200) <= snd (txpll_prediv 148500) /\
  lvds_tx_phy_clk_of 148500 = 148500 * 7 / 2.
Proof.
  destruct txpll_dividers_monotone as (_ & Hs & _ & Hp & Hphy & _).
  split; [apply Hs; lia | ].
  split; [apply Hp; lia | apply Hphy; lia].
Defined.

Lemma no_match_leaves_timing_alone_witness :
  exists s1,
    lt9211c_mipi_rx_video_timing_sel (sim_probed regs_1080p45)
    = Done (- ENOPARAM) s1 /\
    video_timing s1 = video_timing (sim_probed regs_1080p45) /\
    trace s1 = framerate_get_events ++ trace (sim_probed regs_1080p45).
Proof.
  eassert (H : lt9211c_video_check_framerate_get (sim_probed regs_1080p45)
               = Done 45 _) by (vm_compute; reflexivity).
  eexists.
  apply (proj1 (no_match_leaves_timing_alone _ _ _ H)).
  apply scan_none_qualifies. reflexivity.
Defined.

(** * Further properties of the driver *)

(** ** Running the transfers *)

Lemma udiv_some (a b : Z) : b <> 0 -> udiv a b = Some (a / b).
Proof.
  intros H. unfold udiv.
  destruct (Z.eqb_spec b 0); [contradiction | reflexivity].
Qed.

Lemma scheduled_app (a b : list event) :
  scheduled (a ++ b) = scheduled a ++ scheduled b.
Proof.
  induction a as [| [] a IH]; cbn [app scheduled]; try exact IH.
  - reflexivity.
  - rewrite IH. reflexivity.
Qed.

Lemma count_events_app (p : event -> bool) (a b : list event) :
  count_events p (a ++ b) = (count_events p a + count_events p b)%nat.
Proof.
  induction a as [| e a IH]; cbn [app count_events]; [reflexivity | ].
  destruct (p e); rewrite IH; reflexivity.
Qed.

Section Runs.
Context {dev : Type} {RI : RegisterInterface dev}.

Local Abbreviation ctx := (lt9211c dev).

Lemma returns_regmap_bulk_read (reg : Z) (count : nat) :
  returns (regmap_bulk_read reg count).
Proof. intros s. rewrite regmap_bulk_read_eq. eauto. Qed.

Lemma returns_read_low_byte (reg old : Z) : returns (read_low_byte reg old).
Proof. intros s. rewrite read_low_byte_eq. eauto. Qed.

Lemma returns_upd {A : Type} (a : A) (f : ctx -> ctx) :
  returns (fun s => Done a (f s)).
Proof. intros s. eauto. Qed.

Lemma returns_uninit_u32 : returns (@uninit_u32 dev RI).
Proof. intros s. unfold uninit_u32. eauto. Qed.

Lemma bind_get {A B : Type} (f : ctx -> A) (k : A -> M dev B) (s : ctx) :
  bind (get f) k s = k (f s) s.
Proof. reflexivity. Qed.

Lemma bind_write {B : Type} (reg val : Z) (k : Z -> M dev B) (s : ctx) :
  bind (regmap_write reg val) k s
  = k (snd (reg_write (regmap s) reg val))
      (with_regmap (fst (reg_write (regmap s) reg val)) (EvWrite reg val) s).
Proof. unfold bind. rewrite regmap_write_eq. reflexivity. Qed.

Lemma bind_read_u8 {B : Type} (reg : Z) (k : Z * Z -> M dev B) (s : ctx) :
  bind (read_u8 reg) k s
  = k (snd (fst (reg_read (regmap s) reg 1)),
       u8 (nth 0 (snd (reg_read (regmap s) reg 1)) 0))
      (with_regmap (fst (fst (reg_read (regmap s) reg 1))) (EvRead reg 1) s).
Proof. unfold bind. rewrite read_u8_eq. reflexivity. Qed.



Lemma multi_reg_write_spec (regs : list (Z * Z)) (p : event -> bool)
    (P : dev -> Prop) :
  (forall reg val, p (EvWrite reg val) = false) ->
  transfer_invariant P ->
  forall s : ctx, exists ret s',
    regmap_multi_reg_write regs s = Done ret s' /\
    count_events p (trace s') = count_events p (trace s) /\
    counter s' = counter s /\
    (P (regmap s) -> P (regmap s')).
Proof.
  intros Hp [Hw _].
  induction regs as [| [reg def] rest IH]; intros s;
    cbn [regmap_multi_reg_write].
  - exists 0, s. repeat split. tauto.
  - unfold bind. rewrite regmap_write_eq.
    destruct (snd (reg_write (regmap s) reg def) =? 0).
    + destruct (IH (with_regmap (fst (reg_write (regmap s) reg def))
                                (EvWrite reg def) s))
        as (ret & s' & E & Ec & Ecn & EP).
      exists ret, s'. split; [exact E | ].
      cbn in Ec, Ecn, EP. rewrite Hp in Ec.
      split; [exact Ec | ]. split; [exact Ecn | ].
      intros HP. apply EP, Hw, HP.
    + eexists _, _. split; [reflexivity | ]. cbn. rewrite Hp.
      split; [reflexivity | ]. split; [reflexivity | ]. apply Hw.
Qed.

End Runs.

Ltac returns_leaf :=
  first
    [ apply returns_Ret | apply returns_regmap_write | apply returns_read_u8
    | apply returns_regmap_bulk_read | apply returns_read_low_byte
    | apply returns_regmap_multi_reg_write | apply returns_emit
    | apply returns_get | apply returns_uninit_u32
    | apply (returns_upd tt) | assumption ].

Ltac returns_walk extra :=
  repeat first
    [ returns_leaf
    | extra
    | apply returns_bind; [ | intros ? ]
    | match goal with
      | |- returns (if ?b then _ else _) => destruct b
      | |- returns (let '(_, _) := ?x in _) => destruct x
      end ].

Ltac run_step :=
  first [rewrite bind_write | rewrite bind_read_u8 | rewrite bind_get
        | rewrite regmap_write_eq];
  cbn beta iota; cbn [regmap with_regmap].

Ltac frame_resolved :=
  unfold same_resolved; intros; cbn; intuition congruence.

(** ** The probe and its noise floor *)

Section ProbeFloor.
Context {dev : Type} {RI : RegisterInterface dev}.

Local Abbreviation ctx := (lt9211c dev).

Lemma video_timing_get_returns : returns lt9211c_mipi_rx_video_timing_get.
Proof.
  unfold lt9211c_mipi_rx_video_timing_get, lt9211c_mipi_rx_sot_get,
    lt9211c_mipi_rx_hs_settle_set, lt9211c_mipi_rx_hact_get, defer_on_error,
    set_rx_timing.
  returns_walk fail.
Qed.

Lemma video_timing_get_same_resolved :
  respects (@same_resolved dev) lt9211c_mipi_rx_video_timing_get.
Proof.
  apply respects_lt9211c_mipi_rx_video_timing_get;
    unfold same_resolved; intros; cbn; intuition congruence.
Qed.

(** What the probe answers, read off the context it leaves. *)
Lemma video_timing_get_result (s s' : ctx) (ret : Z) :
  lt9211c_mipi_rx_video_timing_get s = Done ret s' ->
  (ret = 0 /\ 400 <= hact (mipi_rx_video_timing s') /\
   400 <= vact (mipi_rx_video_timing s')) \/
  (ret = - EPROBE_DEFER /\
   (hact (mipi_rx_video_timing s') < 400 \/
    vact (mipi_rx_video_timing s') < 400)).
Proof.
  unfold lt9211c_mipi_rx_video_timing_get. intros H.
  apply bind_inv in H. destruct H as (? & ? & _ & H).
  apply bind_inv in H. destruct H as (? & ? & _ & H).
  apply bind_inv in H. destruct H as (? & s3 & _ & H).
  apply bind_inv in H. destruct H as (rx' & s4 & H4 & H).
  apply Ret_inv in H4. destruct H4 as [-> ->].
  destruct (Z.ltb_spec (hact (mipi_rx_video_timing s3)) 400) as [Hh | Hh];
    cbn [orb] in H.
  - apply Ret_inv in H. destruct H as [-> ->]. right. split; [reflexivity | ].
    left. exact Hh.
  - destruct (Z.ltb_spec (vact (mipi_rx_video_timing s3)) 400) as [Hv | Hv];
      apply Ret_inv in H; destruct H as [-> ->].
    + right. split; [reflexivity | ]. right. exact Hv.
    + left. repeat split; assumption.
Qed.

(** X1.  The timing probe always returns, and only 0 or [-EPROBE_DEFER]:
    0 exactly when the active width and the active height it stored are
    both at least 400.  The statuses of its transfers do not reach the
    result, and the resolved video timing is not touched. *)
Theorem probe_noise_floor (s : ctx) :
  exists ret s',
    lt9211c_mipi_rx_video_timing_get s = Done ret s' /\
    video_timing s' = video_timing s /\
    (ret = 0 \/ ret = - EPROBE_DEFER) /\
    (ret = 0 <->
     400 <= hact (mipi_rx_video_timing s') /\
     400 <= vact (mipi_rx_video_timing s')).
Proof.
  destruct (video_timing_get_returns s) as (ret & s' & H).
  exists ret, s'. split; [exact H | ].
  destruct (video_timing_get_same_resolved _ _ _ H) as (Evt & _).
  split; [exact Evt | ].
  destruct (video_timing_get_result _ _ _ H) as [(-> & Hh & Hv) | (-> & Hlow)].
  - split; [left; reflexivity | ]. split; [intros _; split; assumption | ].
    reflexivity.
  - split; [right; reflexivity | ]. split.
    + intros D. discriminate D.
    + intros [Hh Hv]. lia.
Qed.

(** X2.  When the probe stays below the floor, the timing configuration
    stops there: it returns [-EPROBE_DEFER] in the context the probe left,
    so the frame rate is not measured and nothing is matched or programmed.
    The division of the frame-rate measurement can therefore only fault
    after a probe of at least 400 x 400. *)
Theorem no_signal_skips_matcher (s : ctx) :
  exists ret s1,
    lt9211c_mipi_rx_video_timing_get s = Done ret s1 /\
    (ret < 0 ->
     lt9211c_mipi_rx_video_timing_config s = Done (- EPROBE_DEFER) s1 /\
     video_timing s1 = video_timing s) /\
    (0 <= ret ->
     lt9211c_mipi_rx_video_timing_config s
     = lt9211c_mipi_rx_video_timing_sel s1) /\
    (lt9211c_mipi_rx_video_timing_config s = DivideError ->
     400 <= hact (mipi_rx_video_timing s1) /\
     400 <= vact (mipi_rx_video_timing s1)).
Proof.
  destruct (video_timing_get_returns s) as (ret & s1 & H).
  exists ret, s1. split; [exact H | ].
  destruct (video_timing_get_same_resolved _ _ _ H) as (Evt & _).
  unfold lt9211c_mipi_rx_video_timing_config.
  rewrite (bind_Done _ _ _ _ _ H).
  destruct (video_timing_get_result _ _ _ H) as [(-> & Hh & Hv) | (-> & Hlow)].
  - split; [intros D; discriminate D | ].
    split; [intros _; reflexivity | ]. intros _. split; assumption.
  - split; [intros _; split; [reflexivity | exact Evt] | ].
    split; [intros D; exfalso; apply D; reflexivity | ].
    intros D. discriminate D.
Qed.

End ProbeFloor.

(** ** Frame-rate rounding *)

(** X3.  From a frame time of 97848 counts on (of the 25 MHz reference) the
    measured rate is 25000000 / frametime rounded to the nearest integer:
    it fits the [u8] and (2 r - 1) * frametime <= 50000000 <
    (2 r + 1) * frametime.  One count below, the rate 256 wraps to 0. *)
Theorem framerate_rounds_to_nearest (frametime : Z) :
  97848 <= frametime < 2 ^ 32 ->
  (exists r,
     framerate_of_frametime frametime = Some r /\
     0 <= r <= 255 /\
     (2 * r - 1) * frametime <= 50000000 < (2 * r + 1) * frametime) /\
  framerate_of_frametime 97847 = Some 0.
Proof.
  intros H. split; [ | reflexivity].
  unfold framerate_of_frametime, udiv.
  destruct (Z.eqb_spec frametime 0) as [E | _]; [lia | ].
  change (25000000 * 2) with 50000000.
  pose proof (Z.div_mod 50000000 frametime ltac:(lia)) as D.
  pose proof (Z.mod_pos_bound 50000000 frametime ltac:(lia)) as B.
  set (q := 50000000 / frametime) in *.
  assert (Q : 0 <= q <= 510).
  { split; [apply Z.div_pos; lia | ].
    assert (q < 511); [ | lia].
    apply Z.div_lt_upper_bound; lia. }
  rewrite (u32_small (q + 1)) by lia.
  pose proof (Z.div_mod (q + 1) 2 ltac:(lia)) as D2.
  pose proof (Z.mod_pos_bound (q + 1) 2 ltac:(lia)) as B2.
  set (r := (q + 1) / 2) in *.
  assert (R : 0 <= r <= 255) by lia.
  rewrite (u32_small r) by lia. rewrite (u8_small r) by lia.
  exists r. split; [reflexivity | ]. split; [exact R | ].
  split; nia.
Qed.

Lemma framerate_rounds_to_nearest_witness :
  exists r,
    framerate_of_frametime 416667 = Some r /\
    0 <= r <= 255 /\
    (2 * r - 1) * 416667 <= 50000000 < (2 * r + 1) * 416667.
Proof.
  apply (framerate_rounds_to_nearest 416667). lia.
Defined.

(** ** The mode table *)

Lemma support_timing_unambiguous (t1 t2 : lt9211c_video_timing) :
  In t1 lt9211c_support_timing -> In t2 lt9211c_support_timing ->
  hactive t1 = hactive t2 -> vactive t1 = vactive t2 ->
  -6 <= framerate t1 - framerate t2 <= 6 ->
  t1 = t2.
Proof.
  intros H1 H2. cbn in H1, H2.
  repeat (destruct H1 as [<- | H1];
          [ repeat (destruct H2 as [<- | H2];
                    [ cbn; intros; first [reflexivity | lia] | ]);
            destruct H2
          | ]).
  destruct H1.
Qed.

(** X4.  The table is unambiguous: whenever some row fits a probe and a
    measured rate, the row the scan stops at carries the same timing, so
    the order of the rows never changes what is resolved (rows 4 and 9,
    both 1280x720 at 30 Hz, are equal). *)
Theorem support_timing_order_irrelevant (h v rate : Z) (i j : nat) :
  (i < length lt9211c_support_timing)%nat ->
  qualifies h v rate (support_row i) ->
  first_qualifying h v rate j ->
  support_row j = support_row i /\ (j <= i)%nat.
Proof.
  intros Hi (Eh & Ev & Er) (Hj & (Eh' & Ev' & Er') & Hfirst).
  split.
  - apply support_timing_unambiguous.
    + apply nth_In. exact Hj.
    + apply nth_In. exact Hi.
    + congruence.
    + congruence.
    + lia.
  - destruct (Nat.le_gt_cases j i) as [L | L]; [exact L | ].
    exfalso. apply (Hfirst i L). exact (conj Eh (conj Ev Er)).
Qed.

Lemma support_timing_order_irrelevant_witness :
  support_row 4 = support_row 9 /\ (4 <= 9)%nat.
Proof.
  apply (support_timing_order_irrelevant 1280 720 30 9 4).
  - cbn. lia.
  - unfold qualifies. cbn. lia.
  - apply scan_first_qualifying. reflexivity.
Defined.

Lemma below_table_none_qualifies (h v rate : Z) :
  h < 640 \/ v < 480 \/ rate < 21 \/ 93 < rate ->
  none_qualifies h v rate.
Proof.
  intros H t Hin (Eh & Ev & Er). cbn in Hin.
  repeat (destruct Hin as [<- | Hin]; [cbn in *; lia | ]).
  destruct Hin.
Qed.

Section MatcherRange.
Context {dev : Type} {RI : RegisterInterface dev}.

Local Abbreviation ctx := (lt9211c dev).

(** X5.  A probe narrower than 640 or lower than 480, or a measured rate
    below 21 or above 93, fits no row: the matcher leaves through the
    NoMatch exit, whatever the other values are. *)
Theorem no_match_outside_table (s s1 : ctx) (rate : Z) :
  lt9211c_video_check_framerate_get s = Done rate s1 ->
  hact (mipi_rx_video_timing s) < 640 \/
  vact (mipi_rx_video_timing s) < 480 \/ rate < 21 \/ 93 < rate ->
  lt9211c_mipi_rx_video_timing_sel s = Done (- ENOPARAM) s1 /\
  video_timing s1 = video_timing s.
Proof.
  intros H Hout. split.
  - apply (video_timing_sel_no_match _ _ _ H).
    apply below_table_none_qualifies. exact Hout.
  - destruct (framerate_get_same_fields _ _ _ H) as (_ & _ & _ & _ & E & _).
    exact E.
Qed.

(** X6.  Whenever the matcher changes the stored timing, the timing it
    stores has the probed active size, the measured rate, and a pixel
    clock between 25200 and 297000 kHz. *)
Theorem resolved_timing_in_range (s s1 s' : ctx) (rate ret : Z) :
  lt9211c_video_check_framerate_get s = Done rate s1 ->
  lt9211c_mipi_rx_video_timing_sel s = Done ret s' ->
  video_timing s' <> video_timing s ->
  hactive (video_timing s') = hact (mipi_rx_video_timing s) /\
  vactive (video_timing s') = vact (mipi_rx_video_timing s) /\
  framerate (video_timing s') = rate /\
  25200 <= pclk_khz (video_timing s') <= 297000.
Proof.
  intros H E Hdiff.
  destruct (match_or_none (hact (mipi_rx_video_timing s))
                          (vact (mipi_rx_video_timing s)) rate)
    as [[i Hq] | Hn].
  - destruct (video_timing_sel_match _ _ _ _ H Hq) as (ret' & s'' & E' & Evt & _).
    rewrite E in E'. inversion E'; subst s'' ret'. rewrite Evt.
    destruct Hq as (Hi & (Eh & Ev & _) & _).
    split; [exact Eh | ]. split; [exact Ev | ]. split; [reflexivity | ].
    unfold support_row in *.
    pose proof (nth_In lt9211c_support_timing video_timing_zero Hi) as Hin.
    revert Hin. generalize (nth i lt9211c_support_timing video_timing_zero).
    intros t Hin. cbn in Hin.
    repeat (destruct Hin as [<- | Hin]; [cbn; lia | ]).
    destruct Hin.
  - rewrite (video_timing_sel_no_match _ _ _ H Hn) in E.
    inversion E; subst. exfalso. apply Hdiff.
    destruct (framerate_get_same_fields _ _ _ H) as (_ & _ & _ & _ & Evt & _).
    exact Evt.
Qed.

End MatcherRange.

Lemma no_match_outside_table_witness :
  exists s1,
    lt9211c_mipi_rx_video_timing_sel
      (upd_rx_timing (mk_rx_timing 1500 500 500 0x0a 0 0)
                     (sim_ctx regs_1080p60))
    = Done (- ENOPARAM) s1 /\
    video_timing s1 = video_timing (sim_ctx regs_1080p60).
Proof.
  eassert (H : lt9211c_video_check_framerate_get
                 (upd_rx_timing (mk_rx_timing 1500 500 500 0x0a 0 0)
                                (sim_ctx regs_1080p60))
               = Done 60 _) by (vm_compute; reflexivity).
  eexists.
  apply (no_match_outside_table _ _ _ H). left. cbn. lia.
Defined.

Lemma resolved_timing_in_range_witness :
  exists ret s',
    lt9211c_mipi_rx_video_timing_sel (sim_probed regs_1080p60) = Done ret s' /\
    hactive (video_timing s') = 1920 /\
    vactive (video_timing s') = 1080 /\
    framerate (video_timing s') = 60 /\
    25200 <= pclk_khz (video_timing s') <= 297000.
Proof.
  eassert (H : lt9211c_video_check_framerate_get (sim_probed regs_1080p60)
               = Done 60 _) by (vm_compute; reflexivity).
  eassert (E : lt9211c_mipi_rx_video_timing_sel (sim_probed regs_1080p60)
               = Done _ _) by (vm_compute; reflexivity).
  do 2 eexists. split; [exact E | ].
  apply (resolved_timing_in_range _ _ _ _ _ H E).
  vm_compute. discriminate.
Defined.

(** ** Clock recovery: the divider bands *)

(** X7.  For a pixel clock from 22000 up to (not including) 352000 kHz the
    selected divider puts pclk * div between 352000 and 704000, the low
    frequency /2 stage stays off, M lies between 14 and 28 with the limits
    M + 1 and M - 1, and K is below 2^24.  The divider never grows with the
    pixel clock. *)
Theorem dessc_pll_band_window (pclk : Z) :
  22000 <= pclk < 352000 ->
  let div := snd (fst (dessc_pll_band pclk)) in
  let p := pcr_setting_of pclk div in
  352000 <= pclk * div < 704000 /\
  snd (dessc_pll_band pclk) = false /\
  14 <= pcr_m p <= 28 /\
  pcr_up_limit p = pcr_m p + 1 /\ pcr_down_limit p = pcr_m p - 1 /\
  0 <= pcr_k p < 2 ^ 24 /\
  (forall pclk', pclk <= pclk' ->
     snd (fst (dessc_pll_band pclk')) <= div).
Proof.
  intros H div p.
  assert (B : 352000 <= pclk * div < 704000 /\
              snd (dessc_pll_band pclk) = false).
  { subst div. unfold dessc_pll_band.
    repeat match goal with
           | |- context [?a >=? ?b] =>
               let E := fresh "E" in
               destruct (a >=? b) eqn:E; rewrite Z.geb_leb in E;
               [apply Z.leb_le in E | apply Z.leb_gt in E]
           end; cbn; lia. }
  destruct B as [B L]. split; [exact B | ]. split; [exact L | ].
  assert (Hdiv : 0 <= div) by nia.
  subst p. unfold pcr_setting_of.
  cbn [pcr_m pcr_k pcr_up_limit pcr_down_limit].
  rewrite (u32_small (pclk * div)) by lia.
  assert (D : 14080 <= pclk * div / 25 < 28160).
  { split.
    - apply Z.div_le_lower_bound; lia.
    - apply Z.div_lt_upper_bound; lia. }
  assert (M : 14 <= pclk * div / 25 / 1000 <= 28).
  { split.
    - apply Z.div_le_lower_bound; lia.
    - assert (pclk * div / 25 / 1000 < 29); [ | lia].
      apply Z.div_lt_upper_bound; lia. }
  assert (K : 0 <= (pclk * div / 25) mod 1000 < 1000)
    by (apply Z.mod_pos_bound; lia).
  rewrite Z.shiftl_mul_pow2 by lia.
  rewrite !u32_small by lia.
  split; [exact M | ]. split; [reflexivity | ]. split; [reflexivity | ].
  split; [lia | ].
  intros pclk' Hle. subst div. unfold dessc_pll_band.
  repeat match goal with
         | |- context [?a >=? ?b] =>
             let E := fresh "E" in
             destruct (a >=? b) eqn:E; rewrite Z.geb_leb in E;
             [apply Z.leb_le in E | apply Z.leb_gt in E]
         end; cbn; lia.
Qed.

Lemma dessc_pll_band_window_witness :
  352000 <= 148500 * snd (fst (dessc_pll_band 148500)) < 704000 /\
  14 <= pcr_m (pcr_setting_of 148500 (snd (fst (dessc_pll_band 148500)))) <= 28.
Proof.
  destruct (dessc_pll_band_window 148500 ltac:(lia)) as (A & _ & B & _).
  split; [exact A | exact B].
Defined.



Section SdmCal.
Context {dev : Type} {RI : RegisterInterface dev}.

Local Abbreviation ctx := (lt9211c dev).


End SdmCal.


(** ** Output PLL configuration *)

Section TxPllConfig.
Context {dev : Type} {RI : RegisterInterface dev}.

Local Abbreviation ctx := (lt9211c dev).

(** [lt9211c_lvds_tx_pll_config] opened up: its two divisions decide alone
    whether it returns, and the transfers are the same eleven each time. *)
Lemma tx_pll_config_run (s : ctx) :
  let pclk := pclk_khz (video_timing s) in
  let phy := lvds_tx_phy_clk_of pclk in
  let pre_div := snd (txpll_prediv pclk) in
  let serial := snd (txpll_sericlk_div phy) in
  let pix :=
    if pclk <? 150000 then Some 0x04
    else match udiv (u32 (u32 (phy * serial) * 2)) (u32 (pclk * 7)) with
         | Some q => Some (txpll_pixdiv_sel (u8 q))
         | None => None
         end in
  match pix, udiv (u32 (phy * serial)) (pclk / pre_div) with
  | Some pixsel, Some q =>
      exists ret s' data,
        lt9211c_lvds_tx_pll_config s = Done ret s' /\
        0 <= data < 256 /\
        trace s'
        = [ EvWrite 0x35 (u8 q); EvWrite 0x34 0x01; EvWrite 0x33 pixsel;
            EvWrite 0xff 0x82; EvWrite 0x32 (fst (txpll_sericlk_div phy));
            EvWrite 0xff 0x82; EvWrite 0x31 (fst (txpll_prediv pclk));
            EvWrite 0xff 0x82; EvWrite 0x6f (Z.lor data 0x01);
            EvRead 0x6f 1; EvWrite 0xff 0x85 ] ++ trace s /\
        video_timing s' = video_timing s
  | _, _ => lt9211c_lvds_tx_pll_config s = DivideError
  end.
Proof.
  intros pclk phy pre_div serial pix.
  unfold lt9211c_lvds_tx_pll_config.
  do 5 run_step. fold pclk phy.
  subst pre_div serial pix.
  destruct (txpll_prediv pclk) as [pc pre_div].
  destruct (txpll_sericlk_div phy) as [sc serial]. cbn [fst snd].
  do 4 run_step.
  destruct (pclk <? 150000).
  - run_step.
    destruct (udiv (u32 (phy * serial)) (pclk / pre_div)) as [q | ];
      [ | reflexivity].
    do 2 run_step.
    do 3 eexists. split; [reflexivity | ]. split; [apply u8_range | ].
    split; reflexivity.
  - destruct (udiv (u32 (u32 (phy * serial) * 2)) (u32 (pclk * 7))) as [q' | ];
      [ | reflexivity].
    run_step.
    destruct (udiv (u32 (phy * serial)) (pclk / pre_div)) as [q | ];
      [ | reflexivity].
    do 2 run_step.
    do 3 eexists. split; [reflexivity | ]. split; [apply u8_range | ].
    split; reflexivity.
Qed.

Lemma txpll_prediv_cases (pclk : Z) :
  (pclk < 40000 /\ snd (txpll_prediv pclk) = 1) \/
  (40000 <= pclk < 80000 /\ snd (txpll_prediv pclk) = 2) \/
  (80000 <= pclk < 160000 /\ snd (txpll_prediv pclk) = 4) \/
  (160000 <= pclk < 320000 /\ snd (txpll_prediv pclk) = 8) \/
  (320000 <= pclk /\ snd (txpll_prediv pclk) = 16).
Proof.
  unfold txpll_prediv.
  repeat match goal with
         | |- context [?a <? ?b] => destruct (Z.ltb_spec a b)
         end; cbn [snd]; lia.
Qed.

Lemma txpll_sericlk_div_cases (phy : Z) :
  (640000 <= phy /\ snd (txpll_sericlk_div phy) = 1) \/
  (320000 <= phy < 640000 /\ snd (txpll_sericlk_div phy) = 2) \/
  (160000 <= phy < 320000 /\ snd (txpll_sericlk_div phy) = 4) \/
  (80000 <= phy < 160000 /\ snd (txpll_sericlk_div phy) = 8) \/
  (phy < 80000 /\ snd (txpll_sericlk_div phy) = 16).
Proof.
  unfold txpll_sericlk_div.
  repeat match goal with
         | |- context [?a >=? ?b] =>
             let E := fresh "E" in
             destruct (a >=? b) eqn:E; rewrite Z.geb_leb in E;
             [apply Z.leb_le in E | apply Z.leb_gt in E]
         end; cbn [snd]; lia.
Qed.

Lemma tx_pll_config_faults_at_zero (s : ctx) :
  pclk_khz (video_timing s) = 0 ->
  lt9211c_lvds_tx_pll_config s = DivideError.
Proof.
  intros E0. pose proof (tx_pll_config_run s) as R. cbn zeta in R.
  rewrite E0 in R. exact R.
Qed.

(** With a pixel clock other than 0 neither division faults. *)
Lemma tx_pll_config_returns_on_clock (s : ctx) :
  0 < pclk_khz (video_timing s) < 2 ^ 32 ->
  exists ret s',
    lt9211c_lvds_tx_pll_config s = Done ret s' /\
    video_timing s' = video_timing s /\
    scheduled (trace s') = scheduled (trace s) /\
    state s' = state s /\ counter s' = counter s /\
    txpll_rounds (trace s') = txpll_rounds (trace s).
Proof.
  intros Hr. pose proof (tx_pll_config_run s) as R. cbn zeta in R.
  set (pclk := pclk_khz (video_timing s)) in *.
  set (phy := lvds_tx_phy_clk_of pclk) in *.
  assert (Hpre : pclk / snd (txpll_prediv pclk) <> 0).
  { destruct (txpll_prediv_cases pclk)
      as [[H ->] | [[H ->] | [[H ->] | [[H ->] | [H ->]]]]].
    - rewrite Z.div_1_r. lia.
    - assert (20000 <= pclk / 2) by (apply Z.div_le_lower_bound; lia). lia.
    - assert (20000 <= pclk / 4) by (apply Z.div_le_lower_bound; lia). lia.
    - assert (20000 <= pclk / 8) by (apply Z.div_le_lower_bound; lia). lia.
    - assert (20000 <= pclk / 16) by (apply Z.div_le_lower_bound; lia). lia. }
  assert (H7 : (pclk <? 150000) = false -> u32 (pclk * 7) <> 0).
  { intros _. unfold u32. intros Z0.
    apply Z.mod_divide in Z0; [ | lia]. destruct Z0 as [k Hk]. lia. }
  rewrite (udiv_some _ _ Hpre) in R.
  assert (R' : exists ret s' pre,
             lt9211c_lvds_tx_pll_config s = Done ret s' /\
             trace s' = pre ++ trace s /\
             scheduled pre = [] /\ txpll_rounds pre = 0%nat /\
             video_timing s' = video_timing s).
  { destruct (pclk <? 150000) eqn:E150.
    - destruct R as (ret & s' & data & E & _ & Et & Evt).
      eexists ret, s', _. split; [exact E | ]. split; [exact Et | ].
      split; [reflexivity | ]. split; [reflexivity | exact Evt].
    - rewrite (udiv_some _ _ (H7 eq_refl)) in R.
      destruct R as (ret & s' & data & E & _ & Et & Evt).
      eexists ret, s', _. split; [exact E | ]. split; [exact Et | ].
      split; [reflexivity | ]. split; [reflexivity | exact Evt]. }
  destruct R' as (ret & s' & pre & E & Et & Esch & Ern & Evt).
  exists ret, s'. split; [exact E | ]. split; [exact Evt | ].
  assert (F : state s' = state s /\ counter s' = counter s).
  { apply (respects_lt9211c_lvds_tx_pll_config
             (fun a b : ctx => state b = state a /\ counter b = counter a))
      with (a := ret);
      first [exact E | intros; cbn; intuition congruence]. }
  destruct F as [Est Ec].
  rewrite Et. unfold txpll_rounds in *.
  rewrite scheduled_app, count_events_app, Esch, Ern.
  repeat split; assumption.
Qed.

(** X9.  The output PLL configuration divides by pclk / pre_div: for a
    32-bit pixel clock it faults exactly when the clock is 0 kHz (what the
    frequency meter reads without a recovered clock) and returns, with the
    stored timing untouched, for every other value. *)
Theorem tx_pll_config_faults_only_at_zero (s : ctx) :
  0 <= pclk_khz (video_timing s) < 2 ^ 32 ->
  (lt9211c_lvds_tx_pll_config s = DivideError <->
   pclk_khz (video_timing s) = 0) /\
  (pclk_khz (video_timing s) <> 0 ->
   exists ret s',
     lt9211c_lvds_tx_pll_config s = Done ret s' /\
     video_timing s' = video_timing s).
Proof.
  intros Hr.
  destruct (Z.eq_dec (pclk_khz (video_timing s)) 0) as [E0 | Hnz].
  - pose proof (tx_pll_config_faults_at_zero s E0) as R.
    split; [tauto | ]. intros D. contradiction.
  - destruct (tx_pll_config_returns_on_clock s) as (ret & s' & E & Evt & _);
      [lia | ].
    split.
    + rewrite E. split; [intros D; discriminate D | intros D; contradiction].
    + intros _. exists ret, s'. split; assumption.
Qed.

(** X10.  For a pixel clock from 20000 kHz up to the 20 bits of the
    frequency meter, the configuration writes the same eleven transfers;
    register 0x33 gets 0x04 below 150000 kHz and 0x00 from there on (the
    /14, /28 and /56 selections are never taken); the divider set written
    to 0x35 lies between 27 and 56, and from 40000 kHz on it is
    7 * serial_clk_div * pre_div / 2, which is 28 or 56. *)
Theorem tx_pll_config_dividers (s s' : ctx) (ret : Z) :
  20000 <= pclk_khz (video_timing s) < 2 ^ 20 ->
  lt9211c_lvds_tx_pll_config s = Done ret s' ->
  let pclk := pclk_khz (video_timing s) in
  let phy := lvds_tx_phy_clk_of pclk in
  let pre_div := snd (txpll_prediv pclk) in
  let serial := snd (txpll_sericlk_div phy) in
  exists data div_set,
    trace s'
    = [ EvWrite 0x35 div_set; EvWrite 0x34 0x01;
        EvWrite 0x33 (if pclk <? 150000 then 0x04 else 0x00);
        EvWrite 0xff 0x82; EvWrite 0x32 (fst (txpll_sericlk_div phy));
        EvWrite 0xff 0x82; EvWrite 0x31 (fst (txpll_prediv pclk));
        EvWrite 0xff 0x82; EvWrite 0x6f (Z.lor data 0x01);
        EvRead 0x6f 1; EvWrite 0xff 0x85 ] ++ trace s /\
    27 <= div_set <= 56 /\
    (40000 <= pclk ->
     div_set = 7 * (serial * pre_div) / 2 /\ (div_set = 28 \/ div_set = 56)).
Proof.
  intros Hr E pclk phy pre_div serial.
  pose proof (tx_pll_config_run s) as R. cbn zeta in R.
  fold pclk phy pre_div serial in R.
  assert (Ephy : 2 * phy <= 7 * pclk <= 2 * phy + 1).
  { subst phy. unfold lvds_tx_phy_clk_of. rewrite u32_small by lia.
    pose proof (Z.div_mod (pclk * 7) 2 ltac:(lia)).
    pose proof (Z.mod_pos_bound (pclk * 7) 2 ltac:(lia)). lia. }
  pose proof (Z.div_mod pclk pre_div) as Dp.
  pose proof (Z.mod_pos_bound pclk pre_div) as Bp.
  set (a := pclk / pre_div) in *.
  assert (Q : a <> 0 /\
              27 <= u32 (phy * serial) / a <= 56 /\
              (40000 <= pclk ->
               u32 (phy * serial) / a = 7 * (serial * pre_div) / 2 /\
               (u32 (phy * serial) / a = 28 \/ u32 (phy * serial) / a = 56)) /\
              (150000 <= pclk ->
               u32 (pclk * 7) <> 0 /\
               0 <= u32 (u32 (phy * serial) * 2) / u32 (pclk * 7) <= 2)).
  { subst pre_div serial.
    destruct (txpll_prediv_cases pclk)
      as [[Hb Ep] | [[Hb Ep] | [[Hb Ep] | [[Hb Ep] | [Hb Ep]]]]];
      rewrite Ep in *;
      destruct (txpll_sericlk_div_cases phy)
        as [[Hs Es] | [[Hs Es] | [[Hs Es] | [[Hs Es] | [Hs Es]]]]];
      rewrite Es in *;
      specialize (Dp ltac:(lia)); specialize (Bp ltac:(lia));
      match type of Ep with
      | _ = ?P =>
          match type of Es with
          | _ = ?C =>
              let D := eval cbv in (7 * (C * P) / 2) in
              change (7 * (C * P) / 2) with D;
              rewrite (u32_small (phy * C)) by lia;
              rewrite (u32_small (phy * C * 2)) by lia;
              rewrite (u32_small (pclk * 7)) by lia;
              assert (27 <= phy * C / a)
                by (apply Z.div_le_lower_bound; lia);
              assert (phy * C / a < 57)
                by (apply Z.div_lt_upper_bound; lia);
              split; [lia | ]; split; [lia | ]; split;
              [ intros H4;
                assert (D <= phy * C / a)
                  by (apply Z.div_le_lower_bound; lia);
                assert (phy * C / a < D + 1)
                  by (apply Z.div_lt_upper_bound; lia);
                lia
              | intros H15; split; [lia | ];
                split; [apply Z.div_pos; lia | ];
                assert (phy * C * 2 / (pclk * 7) < 3)
                  by (apply Z.div_lt_upper_bound; lia);
                lia ]
          end
      end. }
  destruct Q as (Ha & Hd & H40 & H150).
  rewrite (udiv_some _ _ Ha) in R.
  destruct (Z.ltb_spec pclk 150000) as [L | L].
  - destruct R as (ret' & s'' & data & E' & _ & Et & _).
    rewrite E in E'. inversion E'; subst s'' ret'.
    rewrite (u8_small (u32 (phy * serial) / a)) in Et by lia.
    exists data, (u32 (phy * serial) / a).
    split; [exact Et | ]. split; [exact Hd | exact H40].
  - destruct (H150 L) as [Hnz Hq].
    rewrite (udiv_some _ _ Hnz) in R.
    destruct R as (ret' & s'' & data & E' & _ & Et & _).
    rewrite E in E'. inversion E'; subst s'' ret'.
    rewrite (u8_small (u32 (phy * serial) / a)) in Et by lia.
    rewrite (u8_small (u32 (u32 (phy * serial) * 2) / u32 (pclk * 7))) in Et
      by lia.
    exists data, (u32 (phy * serial) / a).
    split; [ | split; [exact Hd | exact H40]].
    rewrite Et. unfold txpll_pixdiv_sel.
    destruct (Z.leb_spec (u32 (u32 (phy * serial) * 2) / u32 (pclk * 7)) (1 * 2));
      [reflexivity | lia].
Qed.

End TxPllConfig.

Lemma tx_pll_config_faults_only_at_zero_witness :
  lt9211c_lvds_tx_pll_config (sim_ctx regs_1080p60) = DivideError.
Proof.
  apply (proj1 (tx_pll_config_faults_only_at_zero (sim_ctx regs_1080p60)
                  ltac:(cbn; lia))).
  reflexivity.
Defined.

(** A context whose resolved timing is the 1920x1080 at 60 Hz row. *)
Lemma tx_pll_config_dividers_witness :
  exists ret s' data,
    lt9211c_lvds_tx_pll_config
      (upd_video_timing (resolved_timing (support_row 13) 60)
                        (sim_ctx regs_1080p60)) = Done ret s' /\
    trace s'
    = [ EvWrite 0x35 28; EvWrite 0x34 0x01; EvWrite 0x33 0x04;
        EvWrite 0xff 0x82; EvWrite 0x32 0x02;
        EvWrite 0xff 0x82; EvWrite 0x31 0x2a;
        EvWrite 0xff 0x82; EvWrite 0x6f (Z.lor data 0x01);
        EvRead 0x6f 1; EvWrite 0xff 0x85 ].
Proof.
  eassert (E : lt9211c_lvds_tx_pll_config
                 (upd_video_timing (resolved_timing (support_row 13) 60)
                                   (sim_ctx regs_1080p60)) = Done _ _)
    by (vm_compute; reflexivity).
  assert (Hr : 20000
               <= pclk_khz (video_timing
                    (upd_video_timing (resolved_timing (support_row 13) 60)
                                      (sim_ctx regs_1080p60)))
               < 2 ^ 20) by (change (20000 <= 148500 < 2 ^ 20); lia).
  destruct (tx_pll_config_dividers _ _ _ Hr E)
    as (data & div_set & Et & _ & H40).
  assert (H4 : 40000
               <= pclk_khz (video_timing
                    (upd_video_timing (resolved_timing (support_row 13) 60)
                                      (sim_ctx regs_1080p60))))
    by (change (40000 <= 148500); lia).
  destruct (H40 H4) as [Ed _].
  do 2 eexists. exists data. split; [exact E | ].
  rewrite Et, Ed. reflexivity.
Defined.

(** ** Output PLL calibration *)

Section TxPllCalibration.
Context {dev : Type} {RI : RegisterInterface dev}.

Local Abbreviation ctx := (lt9211c dev).

(** One calibration round: trigger, 20 ms, read of the status. *)
Lemma txpll_round_run {B : Type} (k : Z * Z -> M dev B) (s : ctx) :
  exists ret data s1,
    (regmap_multi_reg_write [(0xff, 0x87); (0x0f, 0x00); (0x0f, 0x01)] ;;;
     usleep_range (20 * 1000) ;;;
     x <- read_u8 0x39 ;; k x) s = k (ret, data) s1 /\
    txpll_rounds (trace s1) = S (txpll_rounds (trace s)) /\
    forall P, transfer_invariant P -> P (regmap s) ->
      P (regmap s1) /\
      (never_calibrated P -> Z.land data 0x01 <> 0x01).
Proof.
  destruct (multi_reg_write_spec
              [(0xff, 0x87); (0x0f, 0x00); (0x0f, 0x01)]
              (is_sleep (20 * 1000)) (fun _ => True)
              (fun _ _ => eq_refl)
              (conj (fun _ _ _ _ => I) (fun _ _ _ _ => I)) s)
    as (r0 & s0 & E0 & Ec & _ & _).
  unfold bind at 1. rewrite E0.
  unfold bind, usleep_range, emit. rewrite read_u8_eq.
  cbn [regmap with_regmap].
  eexists _, _, _. split; [reflexivity | ]. split.
  - unfold txpll_rounds in *.
    cbn [trace with_regmap count_events is_sleep].
    rewrite Z.eqb_refl, Ec. reflexivity.
  - intros P HP Hs.
    destruct (multi_reg_write_spec
                [(0xff, 0x87); (0x0f, 0x00); (0x0f, 0x01)]
                (is_sleep (20 * 1000)) P (fun _ _ => eq_refl) HP s)
      as (r0' & s0' & E0' & _ & _ & EP).
    rewrite E0 in E0'. inversion E0'; subst s0' r0'. split.
    + apply (proj2 HP), EP, Hs.
    + intros Hn. apply Hn, EP, Hs.
Qed.

Lemma txpll_cal_loop_bound (fuel : nat) :
  forall (count : Z) (s : ctx),
    0 <= count <= 4 -> 4 - count <= Z.of_nat fuel ->
    exists s',
      txpll_cal_loop fuel count s = Done tt s' /\
      Z.of_nat (txpll_rounds (trace s'))
      <= Z.of_nat (txpll_rounds (trace s)) + (4 - count) /\
      (count <= 3 ->
       Z.of_nat (txpll_rounds (trace s)) + 1
       <= Z.of_nat (txpll_rounds (trace s'))) /\
      forall P, transfer_invariant P -> P (regmap s) ->
        P (regmap s') /\
        (never_calibrated P ->
         Z.of_nat (txpll_rounds (trace s'))
         = Z.of_nat (txpll_rounds (trace s)) + (4 - count)).
Proof.
  induction fuel as [| fuel IH]; intros count s Hc Hf; cbn [txpll_cal_loop].
  - destruct (Z.leb_spec count 3); [lia | ].
    exists s. split; [reflexivity | ]. split; [lia | ]. split; [lia | ].
    intros P _ Hs. split; [exact Hs | ]. intros _. lia.
  - destruct (Z.leb_spec count 3) as [L | L].
    + destruct (txpll_round_run
                  (fun x => let '(_, data) := x in
                            if Z.land data 1 =? 1 then Ret tt
                            else txpll_cal_loop fuel (s32 (count + 1))) s)
        as (ret & data & s1 & E & Er & Hinv).
      rewrite E. cbn beta iota.
      destruct (Z.eqb_spec (Z.land data 1) 1) as [D | D].
      * exists s1. split; [reflexivity | ]. split; [lia | ]. split; [lia | ].
        intros P HP Hs. destruct (Hinv P HP Hs) as [Hs1 Hn].
        split; [exact Hs1 | ]. intros Hnever. exfalso. exact (Hn Hnever D).
      * rewrite s32_small by lia.
        destruct (IH (count + 1) s1) as (s' & E' & B & _ & Hinv');
          [lia | lia | ].
        exists s'. split; [exact E' | ]. split; [lia | ].
        split.
        -- intros _.
           assert (Z.of_nat (txpll_rounds (trace s1))
                   <= Z.of_nat (txpll_rounds (trace s'))); [ | lia].
           destruct (Z.leb_spec (count + 1) 3) as [L' | L'].
           ++ destruct (IH (count + 1) s1) as (s'' & E'' & _ & Lo & _);
                [lia | lia | ].
              rewrite E' in E''. inversion E''; subst s''. lia.
           ++ destruct fuel; cbn [txpll_cal_loop] in E';
                (destruct (Z.leb_spec (count + 1) 3); [lia | ]);
                apply Ret_inv in E'; destruct E' as [_ ->]; lia.
        -- intros P HP Hs. destruct (Hinv P HP Hs) as [Hs1 _].
           destruct (Hinv' P HP Hs1) as [Hs' Hex].
           split; [exact Hs' | ]. intros Hnever. specialize (Hex Hnever). lia.
    + exists s. split; [reflexivity | ]. split; [lia | ]. split; [lia | ].
      intros P _ Hs. split; [exact Hs | ]. intros _. lia.
Qed.

Lemma tx_pll_calibration_returns (s : ctx) :
  exists ret s',
    lt9211c_lvds_tx_pll_calibration s = Done ret s' /\
    (ret = 0 \/ ret = - ENOPARAM) /\
    same_resolved s s'.
Proof.
  assert (R : exists ret s',
             lt9211c_lvds_tx_pll_calibration s = Done ret s' /\
             (ret = 0 \/ ret = - ENOPARAM)).
  { unfold lt9211c_lvds_tx_pll_calibration.
    do 2 run_step. unfold bind at 1, usleep_range, emit.
    cbn [regmap with_regmap]. run_step.
    match goal with
    | |- context [bind (txpll_cal_loop _ _) _ ?s0] =>
        destruct (txpll_cal_loop_bound loop_budget 0 s0) as (s1 & E1 & _);
          [lia | cbn; lia | ]
    end.
    unfold bind at 1. rewrite E1. run_step.
    match goal with |- context [negb ?b] => destruct (negb b) end;
      eexists _, _; (split; [reflexivity | ]);
      first [left; reflexivity | right; reflexivity]. }
  destruct R as (ret & s' & E & Hr).
  exists ret, s'. split; [exact E | ]. split; [exact Hr | ].
  apply (respects_lt9211c_lvds_tx_pll_calibration (@same_resolved dev))
    with (a := ret);
    first [exact E | unfold same_resolved; intros; cbn; intuition congruence].
Qed.

(** X11.  The output PLL calibration always returns, with 0 or
    [-ENOPARAM], after at least one and at most four calibration rounds of
    20 ms; when the done flag (bit 0 of register 0x39) never shows it makes
    exactly four. *)
Theorem tx_pll_calibration_bounded (s : ctx) :
  exists ret s',
    lt9211c_lvds_tx_pll_calibration s = Done ret s' /\
    (ret = 0 \/ ret = - ENOPARAM) /\
    (txpll_rounds (trace s) + 1 <= txpll_rounds (trace s')
     <= txpll_rounds (trace s) + 4)%nat /\
    forall P : dev -> Prop,
      transfer_invariant P -> never_calibrated P -> P (regmap s) ->
      txpll_rounds (trace s') = (txpll_rounds (trace s) + 4)%nat.
Proof.
  unfold lt9211c_lvds_tx_pll_calibration.
  unfold bind at 1. rewrite regmap_write_eq.
  unfold bind at 1. rewrite regmap_write_eq. cbn [regmap with_regmap].
  unfold bind at 1, usleep_range, emit. cbn [regmap with_regmap].
  unfold bind at 1. rewrite regmap_write_eq. cbn [regmap with_regmap].
  match goal with
  | |- context [bind (txpll_cal_loop _ _) _ ?s0] => set (s0' := s0)
  end.
  assert (E0 : txpll_rounds (trace s0') = txpll_rounds (trace s))
    by reflexivity.
  destruct (txpll_cal_loop_bound loop_budget 0 s0')
    as (s1 & E1 & Hi & Lo & Hinv); [lia | cbn; lia | ].
  unfold bind at 1. rewrite E1.
  unfold bind. rewrite read_u8_eq.
  assert (E2 : forall d,
             txpll_rounds (trace (with_regmap d (EvRead 0x39 1) s1))
             = txpll_rounds (trace s1)) by reflexivity.
  assert (Hall : forall P : dev -> Prop,
             transfer_invariant P -> never_calibrated P -> P (regmap s) ->
             txpll_rounds (trace s1) = (txpll_rounds (trace s) + 4)%nat).
  { intros P HP Hn Hs.
    assert (Hs0 : P (regmap s0')).
    { subst s0'. cbn [regmap with_regmap]. destruct HP as [Hw _].
      apply Hw, Hw, Hw, Hs. }
    destruct (Hinv P HP Hs0) as [_ Hex]. specialize (Hex Hn). lia. }
  match goal with |- context [negb ?b] => destruct (negb b) end;
    eexists _, _; (split; [reflexivity | ]); rewrite E2;
    (split; [first [left; reflexivity | right; reflexivity] | ]);
    (split; [lia | exact Hall]).
Qed.

End TxPllCalibration.

(** ** The output stage *)

Section TxStage.
Context {dev : Type} {RI : RegisterInterface dev}.

Local Abbreviation ctx := (lt9211c dev).

Lemma fm_clk_get_returns (clk_src : Z) :
  returns (lt9211c_system_fm_clk_get clk_src).
Proof.
  unfold lt9211c_system_fm_clk_get, usleep_range. returns_walk fail.
Qed.

Lemma fm_clk_get_same_resolved (clk_src : Z) :
  respects (@same_resolved dev) (lt9211c_system_fm_clk_get clk_src).
Proof. apply respects_lt9211c_system_fm_clk_get; frame_resolved. Qed.

Lemma ref_pixel_clk_set_returns :
  returns lt9211c_lvds_tx_pll_ref_pixel_clk_set.
Proof.
  unfold lt9211c_lvds_tx_pll_ref_pixel_clk_set, defer_on_error.
  returns_walk fail.
Qed.

Lemma ref_pixel_clk_set_same_resolved :
  respects (@same_resolved dev) lt9211c_lvds_tx_pll_ref_pixel_clk_set.
Proof. apply respects_lt9211c_lvds_tx_pll_ref_pixel_clk_set; frame_resolved. Qed.

(** The timing [vt] with its pixel clock replaced by [clk]. *)
Local Abbreviation with_pclk vt clk :=
  (mk_timing (hfront_porch vt) (hsync_len vt) (hback_porch vt) (hactive vt)
             (htotal vt) (vfront_porch vt) (vsync_len vt) (vback_porch vt)
             (vactive vt) (vtotal vt) (framerate vt) clk).

(** X12.  The output stage runs on the pixel clock the frequency meter
    reads, not on the one the mode table gave: the 20-bit reading replaces
    [pclk_khz] and nothing else of the stored timing.  When the meter
    reads 0 the stage faults on the division of the PLL configuration;
    for every other reading it returns what the PLL calibration returns,
    0 or [-ENOPARAM], and leaves state, counter and schedule alone. *)
Theorem tx_config_video_uses_measured_clock (s : ctx) :
  exists clk s1,
    lt9211c_system_fm_clk_get LT9211C_AD_DESSCPLL_PIX_CLK s = Done clk s1 /\
    0 <= clk < 2 ^ 20 /\
    (clk = 0 -> lt9211c_lvds_tx_config_video s = DivideError) /\
    (clk <> 0 ->
     exists ret s',
       lt9211c_lvds_tx_config_video s = Done ret s' /\
       (ret = 0 \/ ret = - ENOPARAM) /\
       video_timing s' = with_pclk (video_timing s) clk /\
       scheduled (trace s') = scheduled (trace s) /\
       state s' = state s /\ counter s' = counter s).
Proof.
  destruct (fm_clk_get_returns LT9211C_AD_DESSCPLL_PIX_CLK s)
    as (clk & s1 & E1).
  exists clk, s1. split; [exact E1 | ].
  pose proof (fm_clk_get_range _ _ _ _ E1) as Hclk. split; [exact Hclk | ].
  destruct (fm_clk_get_same_resolved _ _ _ _ E1) as (V1 & S1 & T1 & C1).
  set (s1' := upd_video_timing (with_pclk (video_timing s1) clk) s1).
  assert (Eget : lt9211c_lvds_tx_pll_ref_pixel_clk_get s = Done 0 s1').
  { unfold lt9211c_lvds_tx_pll_ref_pixel_clk_get.
    rewrite (bind_Done _ _ _ _ _ E1). reflexivity. }
  destruct (ref_pixel_clk_set_returns s1') as (r2 & s2 & E2).
  destruct (ref_pixel_clk_set_same_resolved _ _ _ E2) as (V2 & S2 & T2 & C2).
  assert (Epll : lt9211c_lvds_tx_config_video s
                 = (lt9211c_lvds_tx_pll_config ;;;
                    lt9211c_lvds_tx_pll_calibration) s2).
  { unfold lt9211c_lvds_tx_config_video.
    rewrite (bind_Done _ _ _ _ _ Eget), (bind_Done _ _ _ _ _ E2).
    reflexivity. }
  assert (Ep : pclk_khz (video_timing s2) = clk) by (rewrite V2; reflexivity).
  split.
  - intros ->. rewrite Epll. unfold bind.
    rewrite (tx_pll_config_faults_at_zero s2 Ep). reflexivity.
  - intros Hnz.
    destruct (tx_pll_config_returns_on_clock s2)
      as (r3 & s3 & E3 & V3 & S3 & T3 & C3 & _); [rewrite Ep; lia | ].
    destruct (tx_pll_calibration_returns s3)
      as (ret & s' & E4 & Hret & V4 & S4 & T4 & C4).
    exists ret, s'. split.
    + rewrite Epll, (bind_Done _ _ _ _ _ E3). exact E4.
    + split; [exact Hret | ].
      subst s1'. cbn in V2, S2, T2, C2.
      rewrite V4, V3, V2, V1, S4, S3, S2, S1, T4, T3, T2, T1, C4, C3, C2, C1.
      repeat split.
Qed.

End TxStage.

(** ** The video stability wait *)

Section StabilityWait.
Context {dev : Type} {RI : RegisterInterface dev}.

Local Abbreviation ctx := (lt9211c dev).

(** One check: the flag is bit 0 of register 0x40 on page 0x86. *)
Lemma video_check_stable_run (s : ctx) :
  exists ret s1,
    lt9211c_mipi_rx_video_check_stable s = Done ret s1 /\
    (ret = 0 \/ ret = - ENOPARAM) /\
    same_resolved s s1 /\
    forall P, transfer_invariant P -> P (regmap s) ->
      P (regmap s1) /\ (never_video_stable P -> ret = - ENOPARAM).
Proof.
  unfold lt9211c_mipi_rx_video_check_stable.
  do 2 run_step.
  match goal with
  | |- context [Z.land ?d 1 =? 1] => destruct (Z.eqb_spec (Z.land d 1) 1) as [D | D]
  end;
    eexists _, _; (split; [reflexivity | ]);
    (split; [first [left; reflexivity | right; reflexivity] | ]);
    (split; [frame_resolved | ]);
    intros P [Hw Hr] Hs; cbn [regmap with_regmap];
    (split; [apply Hr, Hw, Hs | ]); intros Hn.
  - exfalso. exact (Hn _ (Hw _ _ _ Hs) D).
  - reflexivity.
Qed.

Lemma video_stable_wait_bound (fuel : nat) :
  forall s : ctx,
    0 <= counter s <= 50 -> 51 - counter s <= Z.of_nat fuel ->
    exists s',
      video_stable_wait fuel s = Done tt s' /\
      counter s <= counter s' <= 51 /\
      video_timing s' = video_timing s /\
      scheduled (trace s') = scheduled (trace s) /\
      state s' = state s /\
      forall P, transfer_invariant P -> P (regmap s) ->
        P (regmap s') /\ (never_video_stable P -> counter s' = 51).
Proof.
  induction fuel as [| fuel IH]; intros s Hc Hf; [lia | ].
  cbn [video_stable_wait].
  destruct (video_check_stable_run s)
    as (ret & s1 & E & Hret & (V1 & S1 & T1 & C1) & Hinv).
  rewrite (bind_Done _ _ _ _ _ E).
  destruct Hret as [-> | ->].
  - cbn [Z.ltb Z.compare].
    exists s1. split; [reflexivity | ]. split; [lia | ].
    split; [exact V1 | ]. split; [exact S1 | ]. split; [exact T1 | ].
    intros P HP Hs. destruct (Hinv P HP Hs) as [Hs1 Hn].
    split; [exact Hs1 | ]. intros Hnever. specialize (Hn Hnever).
    discriminate Hn.
  - change (- ENOPARAM <? 0) with true. cbn beta iota.
    rewrite bind_get. cbn [bind set_counter]. rewrite C1.
    rewrite s32_small by lia.
    destruct (Z.gtb_spec (counter s + 1) 50) as [G | G].
    + eexists. split; [reflexivity | ]. cbn [counter upd_counter].
      split; [lia | ]. split; [exact V1 | ]. split; [exact S1 | ].
      split; [exact T1 | ].
      intros P HP Hs. destruct (Hinv P HP Hs) as [Hs1 _].
      split; [exact Hs1 | ]. intros _. lia.
    + destruct (IH (upd_counter (counter s + 1) s1))
        as (s' & E' & Hc' & V' & S' & T' & Hinv');
        [cbn [counter upd_counter]; lia | cbn [counter upd_counter]; lia | ].
      cbn [counter upd_counter] in Hc'.
      exists s'. split; [exact E' | ]. split; [lia | ].
      split; [rewrite V'; exact V1 | ]. split; [rewrite S'; exact S1 | ].
      split; [rewrite T'; exact T1 | ].
      intros P HP Hs. destruct (Hinv P HP Hs) as [Hs1 _].
      apply (Hinv' P HP Hs1).
Qed.

Lemma tx_source_config_returns : returns lt9211c_lvds_tx_source_config.
Proof.
  unfold lt9211c_lvds_tx_source_config, lt9211c_system_tx_sram_sel,
    lt9211c_lvds_tx_phy_poweron, defer_on_error, usleep_range.
  returns_walk fail.
Qed.

Lemma tx_source_config_same_resolved :
  respects (@same_resolved dev) lt9211c_lvds_tx_source_config.
Proof. apply respects_lt9211c_lvds_tx_source_config; frame_resolved. Qed.

(** X13.  After the clock recovery the stage waits for stable video, but
    only so long: it always returns, after at most 51 failed checks, and
    goes on to the output configuration either way.  The counter it leaves
    is the number of failed checks, 51 when the stability flag (bit 0 of
    register 0x40) never shows; the resolved timing and the schedule are
    not touched. *)
Theorem stability_wait_gives_up (s : ctx) :
  exists s',
    pll_config_tail s = Done tt s' /\
    state s' = LT9211C_STATE_CHIPTX_CONFIG_VIDEO /\
    0 <= counter s' <= 51 /\
    video_timing s' = video_timing s /\
    scheduled (trace s') = scheduled (trace s) /\
    forall P : dev -> Prop,
      transfer_invariant P -> never_video_stable P -> P (regmap s) ->
      counter s' = 51.
Proof.
  unfold pll_config_tail. cbn [bind set_counter].
  destruct (video_stable_wait_bound loop_budget (upd_counter 0 s))
    as (s1 & E1 & Hc1 & V1 & S1 & T1 & Hinv);
    [cbn; lia | cbn; lia | ].
  cbn [counter upd_counter] in Hc1. cbn in V1, S1.
  unfold bind at 1. rewrite E1.
  destruct (tx_source_config_returns s1) as (r2 & s2 & E2).
  destruct (tx_source_config_same_resolved _ _ _ E2) as (V2 & S2 & T2 & C2).
  unfold bind. rewrite E2. cbn [set_state].
  eexists. split; [reflexivity | ]. cbn.
  split; [reflexivity | ]. split; [lia | ].
  split; [congruence | ]. split; [congruence | ].
  intros P HP Hn Hs. rewrite C2.
  destruct (Hinv P HP Hs) as [_ H51]. exact (H51 Hn).
Qed.

End StabilityWait.

(** ** Outcomes of one run of the state machine *)

Section Outcomes.
Context {dev : Type} {RI : RegisterInterface dev}.

Local Abbreviation ctx := (lt9211c dev).

Lemma config_video_out_returns : returns lt9211c_lvds_tx_config_video_out.
Proof.
  unfold lt9211c_lvds_tx_config_video_out, lt9211c_video_check_get,
    read_u16_field, lt9211c_lvds_tx_dig_set, lt9211c_lvds_tx_port_set,
    lt9211c_lvds_tx_video_format_set, lt9211c_lvds_tx_lane_num_set,
    lt9211c_lvds_tx_port_swap, lt9211c_lvds_tx_sw_reset, defer_on_error,
    usleep_range.
  returns_walk fail.
Qed.

Lemma config_video_out_same_resolved :
  respects (@same_resolved dev) lt9211c_lvds_tx_config_video_out.
Proof. apply respects_lt9211c_lvds_tx_config_video_out; frame_resolved. Qed.

(** The two ways a case can end: in the last state with nothing handed to
    the work queue, or with a negative result and one more run queued. *)
Local Abbreviation finished s s' :=
  (state s' = LT9211C_STATE_CHIPTX_VIDEO_OUT /\
   scheduled (trace s') = scheduled (trace s)).

Local Abbreviation requeued s ret s' :=
  (ret < 0 /\ scheduled (trace s') = 0 :: scheduled (trace s)).

Lemma case_video_out_post (s0 s' : ctx) (ret : Z) :
  case_CHIPTX_VIDEO_OUT s0 = Done ret s' ->
  same_resolved s0 s'.
Proof. apply config_video_out_same_resolved. Qed.

Lemma case_config_video_post (s0 s' : ctx) (ret : Z) :
  case_CHIPTX_CONFIG_VIDEO s0 = Done ret s' ->
  finished s0 s' \/
  (requeued s0 ret s' /\ state s' = state s0 /\ counter s' = counter s0).
Proof.
  unfold case_CHIPTX_CONFIG_VIDEO. intros H.
  apply bind_inv in H. destruct H as (r1 & s1 & H1 & H).
  destruct (config_video_same_control _ _ _ H1) as (S1 & T1 & C1).
  destruct (Z.ltb_spec r1 0) as [Hneg | Hpos].
  - cbn [bind schedule_delayed_work emit] in H.
    apply Ret_inv in H. destruct H as [-> ->]. right.
    cbn. rewrite S1. repeat split; assumption.
  - cbn [bind set_state] in H.
    destruct (case_video_out_post _ _ _ H) as (_ & S2 & T2 & _).
    left. rewrite T2, S2. cbn. split; [reflexivity | exact S1].
Qed.

Lemma case_pll_config_post (s0 s' : ctx) (ret : Z) :
  case_CHIPRX_PLL_CONFIG s0 = Done ret s' ->
  finished s0 s' \/
  (requeued s0 ret s' /\
   ((state s' = LT9211C_STATE_CHIPRX_VIDTIMING_CONFIG /\
     counter s' = counter s0) \/
    state s' = LT9211C_STATE_CHIPTX_CONFIG_VIDEO)).
Proof.
  unfold case_CHIPRX_PLL_CONFIG. intros H.
  apply bind_inv in H. destruct H as (r1 & s1 & H1 & H).
  destruct (pll_config_same_control _ _ _ H1) as (S1 & T1 & C1).
  destruct (Z.ltb_spec r1 0) as [Hneg | Hpos].
  - cbn [bind set_state schedule_delayed_work emit] in H.
    apply Ret_inv in H. destruct H as [-> ->]. right.
    cbn. rewrite S1. split; [split; [exact Hneg | reflexivity] | ].
    left. split; [reflexivity | exact C1].
  - apply bind_inv in H. destruct H as ([] & s2 & H2 & H).
    pose proof (pll_config_tail_same_schedule _ _ _ H2) as S2.
    unfold same_schedule in S2.
    assert (T2 : state s2 = LT9211C_STATE_CHIPTX_CONFIG_VIDEO).
    { unfold pll_config_tail in H2.
      apply bind_inv in H2. destruct H2 as (? & ? & _ & H2).
      apply bind_inv in H2. destruct H2 as (? & ? & _ & H2).
      apply bind_inv in H2. destruct H2 as (? & ? & _ & H2).
      inversion H2. reflexivity. }
    destruct (case_config_video_post _ _ _ H)
      as [[T3 S3] | [[Hneg S3] [T3 _]]].
    + left. split; [exact T3 | congruence].
    + right. split; [split; [exact Hneg | congruence] | ].
      right. congruence.
Qed.

Lemma case_vidtiming_post (s0 s' : ctx) (ret : Z) :
  case_CHIPRX_VIDTIMING_CONFIG s0 = Done ret s' ->
  finished s0 s' \/
  (requeued s0 ret s' /\
   (state s' = LT9211C_STATE_PREPARE \/ state s' = state s0 \/
    state s' = LT9211C_STATE_CHIPRX_VIDTIMING_CONFIG \/
    state s' = LT9211C_STATE_CHIPTX_CONFIG_VIDEO)).
Proof.
  intros H.
  destruct (lt9211c_mipi_rx_video_timing_config s0) as [r1 s1 | | ] eqn:H1;
    [ | unfold case_CHIPRX_VIDTIMING_CONFIG, bind in H; rewrite H1 in H;
        discriminate H .. ].
  destruct (video_timing_config_same_control _ _ _ H1) as (S1 & T1 & C1).
  destruct (Z.ltb_spec r1 0) as [Hneg | Hpos].
  - rewrite (case_vidtiming_failure _ _ _ H1 Hneg) in H.
    apply Ret_inv in H. destruct H as [-> ->]. right.
    cbn. rewrite S1. split; [split; [exact Hneg | reflexivity] | ].
    destruct (_ >? 30); [left; reflexivity | right; left; exact T1].
  - unfold case_CHIPRX_VIDTIMING_CONFIG in H.
    rewrite (bind_Done _ _ _ _ _ H1), (geb_0_true r1 Hpos) in H.
    cbn [bind set_state] in H.
    destruct (case_pll_config_post _ _ _ H)
      as [[T3 S3] | [[Hneg S3] [[T3 _] | T3]]]; cbn in S3.
    + left. split; [exact T3 | congruence].
    + right. split; [split; [exact Hneg | congruence] | ]. tauto.
    + right. split; [split; [exact Hneg | congruence] | ]. tauto.
Qed.

Lemma module_config_post (s s' : ctx) (ret : Z) :
  lt9211c_module_config s = Done ret s' ->
  (state s' = LT9211C_STATE_CHIPTX_VIDEO_OUT /\
   scheduled (trace s') = scheduled (trace s)) \/
  (ret < 0 /\ scheduled (trace s') = 0 :: scheduled (trace s) /\
   (state s' = LT9211C_STATE_PREPARE \/
    state s' = LT9211C_STATE_CHIPRX_VIDTIMING_CONFIG \/
    state s' = LT9211C_STATE_CHIPTX_CONFIG_VIDEO)).
Proof.
  intros E.
  rewrite module_config_dispatch in E.
  set (s0 := upd_rx_timing rx_timing_zero s) in E.
  assert (S0 : scheduled (trace s0) = scheduled (trace s)) by reflexivity.
  assert (T0 : state s0 = state s) by reflexivity.
  destruct (state s) eqn:Est.
  - unfold case_PREPARE in E.
    apply bind_inv in E. destruct E as ([] & s1 & H1 & E).
    destruct (prepare_body_post _ _ H1) as (_ & T1 & S1).
    destruct (case_vidtiming_post _ _ _ E)
      as [[T S] | [[Hneg S] [T | [T | [T | T]]]]].
    + left. split; [exact T | congruence].
    + right. split; [exact Hneg | ]. split; [congruence | tauto].
    + right. split; [exact Hneg | ]. split; [congruence | ].
      right. left. congruence.
    + right. split; [exact Hneg | ]. split; [congruence | tauto].
    + right. split; [exact Hneg | ]. split; [congruence | tauto].
  - destruct (case_vidtiming_post _ _ _ E)
      as [[T S] | [[Hneg S] [T | [T | [T | T]]]]].
    + left. split; [exact T | congruence].
    + right. split; [exact Hneg | ]. split; [congruence | tauto].
    + right. split; [exact Hneg | ]. split; [congruence | ].
      right. left. congruence.
    + right. split; [exact Hneg | ]. split; [congruence | tauto].
    + right. split; [exact Hneg | ]. split; [congruence | tauto].
  - destruct (case_pll_config_post _ _ _ E)
      as [[T S] | [[Hneg S] [[T _] | T]]].
    + left. split; [exact T | congruence].
    + right. split; [exact Hneg | ]. split; [congruence | tauto].
    + right. split; [exact Hneg | ]. split; [congruence | tauto].
  - destruct (case_config_video_post _ _ _ E)
      as [[T S] | [[Hneg S] [T _]]].
    + left. split; [exact T | congruence].
    + right. split; [exact Hneg | ]. split; [congruence | ].
      right. right. congruence.
  - destruct (case_video_out_post _ _ _ E) as (_ & S & T & _).
    left. split; congruence.
Qed.

(** X14.  One run of the state machine either faults on a division or
    returns, and then in one of two ways: it ends in the state
    OutputVideoOut with nothing handed to [schedule_delayed_work], or it
    returns a negative result, has queued exactly one more run with delay
    0 and ends in Prepare, InputTimingConfig or OutputConfigVideo.  It
    never ends in InputPllConfig, whatever state it started from. *)
Theorem module_config_outcomes (s : ctx) :
  lt9211c_module_config s = DivideError \/
  exists ret s',
    lt9211c_module_config s = Done ret s' /\
    ((state s' = LT9211C_STATE_CHIPTX_VIDEO_OUT /\
      scheduled (trace s') = scheduled (trace s)) \/
     (ret < 0 /\ scheduled (trace s') = 0 :: scheduled (trace s) /\
      (state s' = LT9211C_STATE_PREPARE \/
       state s' = LT9211C_STATE_CHIPRX_VIDTIMING_CONFIG \/
       state s' = LT9211C_STATE_CHIPTX_CONFIG_VIDEO))).
Proof.
  pose proof (module_config_in_budget s) as B.
  destruct (lt9211c_module_config s) as [ret s' | | ] eqn:E;
    [right | left; reflexivity | exfalso; apply B; reflexivity].
  exists ret, s'. split; [reflexivity | ].
  apply (module_config_post _ _ _ E).
Qed.

Lemma state_handler_video_out (s : ctx) :
  state s = LT9211C_STATE_CHIPTX_VIDEO_OUT ->
  exists s',
    lt9211c_state_handler s = Done tt s' /\ same_resolved s s'.
Proof.
  intros Est. unfold lt9211c_state_handler.
  unfold bind. rewrite module_config_dispatch, Est.
  destruct (config_video_out_returns (upd_rx_timing rx_timing_zero s))
    as (ret & s' & E).
  unfold case_CHIPTX_VIDEO_OUT. rewrite E.
  exists s'. split; [reflexivity | ].
  apply (config_video_out_same_resolved _ _ _ E).
Qed.

(** X15.  OutputVideoOut is final: from there any number of runs of the
    handler return, stay in that state and never queue another run; each
    only repeats the output formatting, and the resolved timing and the
    counter stay as they are. *)
Theorem video_out_is_final (s : ctx) (n : nat) :
  state s = LT9211C_STATE_CHIPTX_VIDEO_OUT ->
  exists s',
    run_work n s = Done tt s' /\
    state s' = LT9211C_STATE_CHIPTX_VIDEO_OUT /\
    scheduled (trace s') = scheduled (trace s) /\
    video_timing s' = video_timing s /\
    counter s' = counter s.
Proof.
  revert s. induction n as [| n IH]; intros s Est; cbn [run_work].
  - exists s. repeat split. exact Est.
  - destruct (state_handler_video_out s Est) as (s1 & E1 & V1 & S1 & T1 & C1).
    rewrite (bind_Done _ _ _ _ _ E1).
    destruct (IH s1) as (s' & E & T & S & V & C); [congruence | ].
    exists s'. split; [exact E | ]. repeat split; congruence.
Qed.

End Outcomes.

Lemma video_out_is_final_witness :
  exists s',
    run_work 3 (upd_state LT9211C_STATE_CHIPTX_VIDEO_OUT
                          (sim_ctx regs_1080p60)) = Done tt s' /\
    state s' = LT9211C_STATE_CHIPTX_VIDEO_OUT /\
    scheduled (trace s') = [] /\
    video_timing s' = video_timing_zero /\
    counter s' = 0.
Proof.
  exact (video_out_is_final
           (upd_state LT9211C_STATE_CHIPTX_VIDEO_OUT (sim_ctx regs_1080p60))
           3 eq_refl).
Defined.

(** ** Frames of the cases of the state machine *)

Section CaseFrames.
Context {dev : Type} {RI : RegisterInterface dev}.

Local Abbreviation ctx := (lt9211c dev).

Variable R : ctx -> ctx -> Prop.
Hypothesis R_refl : forall s, R s s.
Hypothesis R_trans : forall s1 s2 s3, R s1 s2 -> R s2 s3 -> R s1 s3.
Hypothesis R_write :
  forall s reg val,
    R s (with_regmap (fst (reg_write (regmap s) reg val)) (EvWrite reg val) s).
Hypothesis R_read :
  forall s reg count,
    R s (with_regmap (fst (fst (reg_read (regmap s) reg count)))
                     (EvRead reg count) s).
Hypothesis R_sleep :
  forall s usec,
    (usec =? 500 * 1000) = false ->
    R s (with_regmap (regmap s) (EvSleep usec) s).
Hypothesis R_poll :
  forall s, R s (with_regmap (regmap s) (EvSleep (500 * 1000)) s).
Hypothesis R_schedule :
  forall s msec, R s (with_regmap (regmap s) (EvSchedule msec) s).
Hypothesis R_rx : forall s t, R s (upd_rx_timing t s).
Hypothesis R_vt : forall s t, R s (upd_video_timing t s).
Hypothesis R_counter : forall s c, R s (upd_counter c s).
Hypothesis R_state : forall s st, R s (upd_state st s).







End CaseFrames.

(** ** The reset line *)

Section ResetLine.
Context {dev : Type} {RI : RegisterInterface dev}.

Local Abbreviation ctx := (lt9211c dev).

Local Abbreviation same_gpio :=
  (fun a b : ctx => gpio_events (trace b) = gpio_events (trace a)).

Ltac frame_gpio := intros; unfold gpio_events in *; cbn; congruence.

Lemma prepare_body_gpio (s s1 : ctx) :
  prepare_body s = Done tt s1 ->
  gpio_events (trace s1) = (2 + gpio_events (trace s))%nat.
Proof.
  unfold prepare_body. intros E.
  apply bind_inv in E. destruct E as ([] & sa & Ha & E).
  apply bind_inv in E. destruct E as (rb & sb & Hb & E).
  apply bind_inv in E. destruct E as (rc & sc & Hc & E).
  apply bind_inv in E. destruct E as (rd & sd & Hd & E).
  apply bind_inv in E. destruct E as (re & se & He & E).
  inversion Ha; subst sa. inversion E; subst s1. clear Ha E.
  assert (Gb : gpio_events (trace sb) = (2 + gpio_events (trace s))%nat).
  { unfold lt9211c_module_reset in Hb. cbn in Hb.
    apply Ret_inv in Hb. destruct Hb as [_ Hb]. subst sb. reflexivity. }
  assert (Gc : gpio_events (trace sc) = gpio_events (trace sb))
    by (apply (respects_lt9211c_read_chipid same_gpio) with (a := rc);
        first [exact Hc | frame_gpio]).
  assert (Gd : gpio_events (trace sd) = gpio_events (trace sc))
    by (apply (respects_lt9211c_mipi_rx_source_config same_gpio)
          with (a := rd); first [exact Hd | frame_gpio]).
  assert (Ge : gpio_events (trace se) = gpio_events (trace sd))
    by (apply (respects_lt9211c_lvds_tx_phy_poweroff same_gpio)
          with (a := re); first [exact He | frame_gpio]).
  cbn [trace upd_state]. congruence.
Qed.




End ResetLine.

(** ** An output PLL that never locks *)

Section TxRetry.
Context {dev : Type} {RI : RegisterInterface dev}.
Variable P : dev -> Prop.
Hypothesis HP : transfer_invariant P.

Local Abbreviation ctx := (lt9211c dev).

Ltac frame_within :=
  unfold stays_within; intros; cbn; destruct HP as [Hw Hr]; auto.

Lemma fm_clk_get_alive (clk_src : Z) (s : ctx) :
  meter_runs P -> P (regmap s) ->
  exists clk s1,
    lt9211c_system_fm_clk_get clk_src s = Done clk s1 /\
    clk <> 0 /\ P (regmap s1).
Proof.
  intros Hm Hs. destruct HP as [Hw Hr].
  unfold lt9211c_system_fm_clk_get.
  do 2 run_step. unfold bind at 1, usleep_range, emit.
  cbn [regmap with_regmap].
  do 6 run_step. cbv zeta.
  eexists _, _. split; [reflexivity | ].
  cbn [regmap with_regmap].
  split; [ | repeat first [apply Hw | apply Hr]; exact Hs].
  match goal with
  | |- u32 (Z.shiftl (u32 (Z.shiftl (Z.land ?d2 15) 8 + ?d1)) 8 + ?d0) <> 0 =>
      pose proof (u8_range (nth 0 (snd (reg_read
        (fst (reg_write (fst (reg_write (fst (reg_write (regmap s) 255 134))
                                        144 clk_src))
                        144 (Z.lor clk_src 128))) 152 1)) 0)) as B2;
      assert (B1 : 0 <= d1 < 256) by apply u8_range;
      assert (B0 : 0 <= d0 < 256) by apply u8_range;
      assert (N0 : d0 <> 0)
  end.
  { apply Hm. repeat first [apply Hw | apply Hr]. exact Hs. }
  match goal with
  | |- u32 (Z.shiftl (u32 (Z.shiftl (Z.land ?d2 15) 8 + ?d1)) 8 + ?d0) <> 0 =>
      assert (L : 0 <= Z.land d2 15 < 16)
        by (apply land_0x0f_range; apply u8_range);
      set (x2 := Z.land d2 15) in *; set (x1 := d1) in *;
      set (x0 := d0) in *
  end.
  rewrite !Z.shiftl_mul_pow2 by lia.
  rewrite (u32_small (x2 * 2 ^ 8 + x1)) by lia.
  rewrite u32_small by lia. lia.
Qed.

Lemma tx_pll_calibration_unlocked (s : ctx) :
  never_locked P -> P (regmap s) ->
  exists s',
    lt9211c_lvds_tx_pll_calibration s = Done (- ENOPARAM) s' /\
    P (regmap s').
Proof.
  intros Hn Hs.
  unfold lt9211c_lvds_tx_pll_calibration.
  do 2 run_step. unfold bind at 1, usleep_range, emit.
  cbn [regmap with_regmap]. run_step.
  match goal with
  | |- context [bind (txpll_cal_loop _ _) _ ?s0] =>
      destruct (txpll_cal_loop_bound loop_budget 0 s0)
        as (s1 & E1 & _ & _ & Hinv); [lia | cbn; lia | ];
      destruct (Hinv P HP) as [Hs1 _];
        [cbn [regmap with_regmap]; destruct HP as [Hw _];
         apply Hw, Hw, Hw, Hs | ]
  end.
  unfold bind at 1. rewrite E1. run_step.
  rewrite (Hn _ Hs1). cbn [Z.eqb negb].
  eexists. split; [reflexivity | ].
  cbn [regmap with_regmap]. apply (proj2 HP), Hs1.
Qed.

Lemma tx_config_video_unlocked (s : ctx) :
  never_locked P -> meter_runs P -> P (regmap s) ->
  exists s',
    lt9211c_lvds_tx_config_video s = Done (- ENOPARAM) s' /\
    P (regmap s') /\ same_control s s'.
Proof.
  intros Hn Hm Hs.
  destruct (fm_clk_get_alive LT9211C_AD_DESSCPLL_PIX_CLK s Hm Hs)
    as (clk & s1 & E1 & Hnz & Hs1).
  pose proof (fm_clk_get_range _ _ _ _ E1) as Hclk.
  unfold lt9211c_lvds_tx_config_video, lt9211c_lvds_tx_pll_ref_pixel_clk_get.
  assert (R : exists s',
             (lt9211c_lvds_tx_pll_ref_pixel_clk_get ;;;
              lt9211c_lvds_tx_pll_ref_pixel_clk_set ;;;
              lt9211c_lvds_tx_pll_config ;;;
              lt9211c_lvds_tx_pll_calibration) s = Done (- ENOPARAM) s' /\
             P (regmap s')).
  { unfold lt9211c_lvds_tx_pll_ref_pixel_clk_get.
    unfold bind at 1. unfold bind at 1. rewrite E1.
    cbn [get bind set_video_timing Ret].
    match goal with
    | |- context [bind lt9211c_lvds_tx_pll_ref_pixel_clk_set _ ?s0] =>
        destruct (ref_pixel_clk_set_returns s0) as (r2 & s2 & E2);
        pose proof (ref_pixel_clk_set_same_resolved _ _ _ E2) as (V2 & _);
        assert (Hs2 : P (regmap s2))
          by (apply (respects_lt9211c_lvds_tx_pll_ref_pixel_clk_set
                       (stays_within P)) with (a := r2) (s := s0);
              first [exact E2 | exact Hs1 | frame_within])
    end.
    unfold bind at 1. rewrite E2.
    cbn in V2.
    destruct (tx_pll_config_returns_on_clock s2) as (r3 & s3 & E3 & _);
      [rewrite V2; cbn [pclk_khz]; lia | ].
    assert (Hs3 : P (regmap s3))
      by (apply (respects_lt9211c_lvds_tx_pll_config (stays_within P))
            with (a := r3) (s := s2);
          first [exact E3 | exact Hs2 | frame_within]).
    unfold bind at 1. rewrite E3.
    apply (tx_pll_calibration_unlocked s3 Hn Hs3). }
  destruct R as (s' & E & Hs').
  exists s'. split; [exact E | ]. split; [exact Hs' | ].
  apply (config_video_same_control _ _ _ E).
Qed.

(** X17.  The output stage has no retry limit.  On a chip whose frequency
    meter runs but whose output PLL never reports lock (bit 2 of register
    0x39), every run of the handler from OutputConfigVideo returns, stays
    in that state with the counter untouched, and queues the next run with
    delay 0: after n runs there are n more entries in the schedule.  The
    input stage is never entered again and the chip is not reset. *)
Theorem output_stage_retries_forever (s : ctx) (n : nat) :
  never_locked P -> meter_runs P -> P (regmap s) ->
  state s = LT9211C_STATE_CHIPTX_CONFIG_VIDEO ->
  exists s',
    run_work n s = Done tt s' /\
    state s' = LT9211C_STATE_CHIPTX_CONFIG_VIDEO /\
    counter s' = counter s /\
    scheduled (trace s') = repeat 0 n ++ scheduled (trace s) /\
    P (regmap s').
Proof.
  intros Hn Hm. revert s.
  induction n as [| n IH]; intros s Hs Est; cbn [run_work].
  - exists s. repeat split; assumption.
  - destruct (tx_config_video_unlocked (upd_rx_timing rx_timing_zero s) Hn Hm Hs)
      as (s1 & E1 & Hs1 & S1 & T1 & C1).
    cbn in S1, T1, C1.
    assert (E : lt9211c_state_handler s
                = Done tt (with_regmap (regmap s1) (EvSchedule 0) s1)).
    { unfold lt9211c_state_handler, bind.
      rewrite module_config_dispatch, Est.
      unfold case_CHIPTX_CONFIG_VIDEO, bind. rewrite E1. reflexivity. }
    rewrite (bind_Done _ _ _ _ _ E).
    destruct (IH (with_regmap (regmap s1) (EvSchedule 0) s1))
      as (s' & E' & T' & C' & S' & Hs'); [exact Hs1 | cbn; congruence | ].
    exists s'. split; [exact E' | ]. split; [exact T' | ].
    cbn in C', S'. split; [congruence | ]. split; [ | exact Hs'].
    rewrite S', S1. change (0 :: ?l) with ([0] ++ l).
    rewrite app_assoc. f_equal.
    change ([0] ++ repeat 0 n) with (repeat 0 (S n)).
    symmetry. apply repeat_cons.
Qed.

End TxRetry.

(** ** No picture on the input *)

Lemma run_work_app {dev : Type} {RI : RegisterInterface dev} (a b : nat)
    (s : lt9211c dev) :
  run_work (a + b) s = (run_work a ;;; run_work b) s.
Proof.
  revert s. induction a as [| a IH]; intros s; cbn [run_work Nat.add].
  - reflexivity.
  - unfold bind.
    destruct (lt9211c_state_handler s) as [[] s1 | | ]; try reflexivity.
    rewrite IH. reflexivity.
Qed.

Section NoPicture.
Context {dev : Type} {RI : RegisterInterface dev}.
Variable P : dev -> Prop.
Hypothesis HP : transfer_invariant P.
Hypothesis Hnp : no_picture P.

Local Abbreviation ctx := (lt9211c dev).

Ltac frame_quiet :=
  unfold quiet, stays_within, gpio_events, same_control; intros; cbn;
  destruct HP as [Hw Hr]; intuition (first [congruence | auto]).

Lemma sot_get_returns : returns lt9211c_mipi_rx_sot_get.
Proof. unfold lt9211c_mipi_rx_sot_get. returns_walk fail. Qed.

Lemma hs_settle_set_returns : returns lt9211c_mipi_rx_hs_settle_set.
Proof.
  unfold lt9211c_mipi_rx_hs_settle_set, defer_on_error. returns_walk fail.
Qed.

Lemma hact_get_no_picture (s : ctx) :
  P (regmap s) ->
  exists ret s1,
    lt9211c_mipi_rx_hact_get s = Done ret s1 /\
    vact (mipi_rx_video_timing s1) < 400 /\
    fmt (mipi_rx_video_timing s1) <> 0x0a.
Proof.
  intros Hs. unfold lt9211c_mipi_rx_hact_get.
  run_step. unfold bind at 1. rewrite regmap_bulk_read_eq.
  cbn beta iota. cbv zeta. cbn [regmap with_regmap].
  do 2 run_step. cbn [bind set_rx_timing Ret].
  eexists _, _. split; [reflexivity | ].
  cbn [mipi_rx_video_timing upd_rx_timing with_regmap vact fmt].
  apply Hnp. apply (proj1 HP), Hs.
Qed.

Lemma timing_config_no_picture (s : ctx) :
  P (regmap s) ->
  exists s1,
    lt9211c_mipi_rx_video_timing_config s = Done (- EPROBE_DEFER) s1 /\
    fmt (mipi_rx_video_timing s1) <> 0x0a /\
    quiet P s s1.
Proof.
  intros Hs.
  assert (R : exists s1,
             lt9211c_mipi_rx_video_timing_get s = Done (- EPROBE_DEFER) s1 /\
             fmt (mipi_rx_video_timing s1) <> 0x0a).
  { unfold lt9211c_mipi_rx_video_timing_get.
    destruct (sot_get_returns s) as (r1 & s1 & E1).
    assert (Hs1 : P (regmap s1))
      by (apply (respects_lt9211c_mipi_rx_sot_get (stays_within P))
            with (a := r1) (s := s);
          first [exact E1 | exact Hs | frame_quiet]).
    rewrite (bind_Done _ _ _ _ _ E1).
    destruct (hs_settle_set_returns s1) as (r2 & s2 & E2).
    assert (Hs2 : P (regmap s2))
      by (apply (respects_lt9211c_mipi_rx_hs_settle_set (stays_within P))
            with (a := r2) (s := s1);
          first [exact E2 | exact Hs1 | frame_quiet]).
    rewrite (bind_Done _ _ _ _ _ E2).
    destruct (hact_get_no_picture s2 Hs2) as (r3 & s3 & E3 & Hv & Hf).
    rewrite (bind_Done _ _ _ _ _ E3). rewrite bind_get.
    destruct (Z.ltb_spec (vact (mipi_rx_video_timing s3)) 400); [ | lia].
    rewrite orb_true_r. exists s3. split; [reflexivity | exact Hf]. }
  destruct R as (s1 & E1 & Hf).
  assert (E : lt9211c_mipi_rx_video_timing_config s
              = Done (- EPROBE_DEFER) s1).
  { unfold lt9211c_mipi_rx_video_timing_config.
    rewrite (bind_Done _ _ _ _ _ E1). reflexivity. }
  exists s1. split; [exact E | ]. split; [exact Hf | ].
  apply (respects_lt9211c_mipi_rx_video_timing_config (quiet P))
    with (a := - EPROBE_DEFER);
    first [exact E | frame_quiet].
Qed.

(** A failing run from InputTimingConfig. *)
Lemma attempt_no_picture (s : ctx) :
  P (regmap s) ->
  state s = LT9211C_STATE_CHIPRX_VIDTIMING_CONFIG ->
  0 <= counter s <= 30 ->
  exists s',
    case_CHIPRX_VIDTIMING_CONFIG s
    = Done (- EPROBE_DEFER) s' /\
    P (regmap s') /\
    counter s' = counter s + 1 /\
    state s' = (if counter s + 1 >? 30 then LT9211C_STATE_PREPARE
                else LT9211C_STATE_CHIPRX_VIDTIMING_CONFIG) /\
    scheduled (trace s') = 0 :: scheduled (trace s) /\
    gpio_events (trace s') = gpio_events (trace s).
Proof.
  intros Hs Est Hc.
  destruct (timing_config_no_picture s Hs)
    as (s1 & E1 & Hf & Hin & G1 & S1 & T1 & C1).
  assert (Hneg : - EPROBE_DEFER < 0) by (cbn; lia).
  pose proof (case_vidtiming_failure _ _ _ E1 Hneg) as E. cbn zeta in E.
  apply Z.eqb_neq in Hf. rewrite Hf in E. rewrite C1 in E.
  rewrite s32_small in E by lia.
  eexists. split; [exact E | ]. cbn.
  split; [exact (Hin Hs) | ]. split; [reflexivity | ].
  split; [rewrite T1, Est; reflexivity | ].
  split; [rewrite S1; reflexivity | exact G1].
Qed.

Lemma handler_attempt_no_picture (s : ctx) :
  P (regmap s) ->
  state s = LT9211C_STATE_CHIPRX_VIDTIMING_CONFIG ->
  0 <= counter s <= 30 ->
  exists s',
    lt9211c_state_handler s = Done tt s' /\
    P (regmap s') /\
    counter s' = counter s + 1 /\
    state s' = (if counter s + 1 >? 30 then LT9211C_STATE_PREPARE
                else LT9211C_STATE_CHIPRX_VIDTIMING_CONFIG) /\
    scheduled (trace s') = 0 :: scheduled (trace s) /\
    gpio_events (trace s') = gpio_events (trace s).
Proof.
  intros Hs Est Hc.
  destruct (attempt_no_picture (upd_rx_timing rx_timing_zero s) Hs Est Hc)
    as (s' & E & H).
  exists s'. split; [ | exact H].
  unfold lt9211c_state_handler, bind.
  rewrite module_config_dispatch, Est, E. reflexivity.
Qed.

Lemma attempts_no_picture (n : nat) :
  forall s : ctx,
    P (regmap s) ->
    state s = LT9211C_STATE_CHIPRX_VIDTIMING_CONFIG ->
    0 <= counter s -> counter s + Z.of_nat n <= 30 ->
    exists s',
      run_work n s = Done tt s' /\
      P (regmap s') /\
      counter s' = counter s + Z.of_nat n /\
      state s' = LT9211C_STATE_CHIPRX_VIDTIMING_CONFIG /\
      scheduled (trace s') = repeat 0 n ++ scheduled (trace s) /\
      gpio_events (trace s') = gpio_events (trace s).
Proof.
  induction n as [| n IH]; intros s Hs Est H0 Hn; cbn [run_work].
  - exists s. repeat split; try assumption. lia.
  - destruct (handler_attempt_no_picture s Hs Est)
      as (s1 & E1 & Hs1 & C1 & T1 & S1 & G1); [lia | ].
    destruct (Z.gtb_spec (counter s + 1) 30) as [G | G]; [lia | ].
    rewrite (bind_Done _ _ _ _ _ E1).
    destruct (IH s1 Hs1 T1) as (s' & E' & Hs' & C' & T' & S' & G');
      [lia | lia | ].
    exists s'. split; [exact E' | ]. split; [exact Hs' | ].
    split; [lia | ]. split; [exact T' | ].
    split; [ | congruence].
    rewrite S', S1. change (0 :: ?l) with ([0] ++ l).
    rewrite app_assoc. f_equal. symmetry. apply repeat_cons.
Qed.

Lemma prepare_body_returns : returns (@prepare_body dev RI).
Proof.
  unfold prepare_body, lt9211c_module_reset, lt9211c_read_chipid,
    lt9211c_mipi_rx_source_config, lt9211c_mipi_rx_phy_poweron,
    lt9211c_mipi_rx_clk_sel, lt9211c_system_video_chk_clk_src_sel,
    lt9211c_system_video_chk_src_sel, lt9211c_system_act_rx_sel,
    lt9211c_mipi_rx_dig_set, lt9211c_mipi_rx_input_sel,
    lt9211c_mipi_rx_lane_set, lt9211c_lvds_tx_phy_poweroff, defer_on_error,
    set_counter, set_state, usleep_range, gpiod_set_value_cansleep.
  returns_walk fail.
Qed.

Lemma prepare_body_run (s : ctx) :
  P (regmap s) ->
  exists s1,
    prepare_body s = Done tt s1 /\
    P (regmap s1) /\
    counter s1 = 0 /\
    state s1 = LT9211C_STATE_CHIPRX_VIDTIMING_CONFIG /\
    scheduled (trace s1) = scheduled (trace s) /\
    gpio_events (trace s1) = (2 + gpio_events (trace s))%nat.
Proof.
  intros Hs.
  destruct (prepare_body_returns s) as ([] & s1 & E).
  exists s1. split; [exact E | ].
  destruct (prepare_body_post _ _ E) as (C & T & S).
  split.
  { apply (respects_prepare_body (stays_within P)) with (a := tt) (s := s);
      first [exact E | exact Hs | frame_quiet]. }
  split; [exact C | ]. split; [exact T | ]. split; [exact S | ].
  apply (prepare_body_gpio _ _ E).
Qed.

(** The 31 runs from one reset to the next. *)
Lemma cycle_no_picture (s : ctx) :
  P (regmap s) ->
  state s = LT9211C_STATE_PREPARE ->
  exists s',
    run_work 31 s = Done tt s' /\
    P (regmap s') /\
    state s' = LT9211C_STATE_PREPARE /\
    counter s' = 31 /\
    scheduled (trace s') = repeat 0 31 ++ scheduled (trace s) /\
    gpio_events (trace s') = (2 + gpio_events (trace s))%nat.
Proof.
  intros Hs Est.
  (* the first run: reset, then a failed attempt *)
  destruct (prepare_body_run (upd_rx_timing rx_timing_zero s) Hs)
    as (s0 & E0 & Hs0 & C0 & T0 & S0 & G0).
  destruct (attempt_no_picture s0 Hs0 T0) as (s1 & E1 & Hs1 & C1 & T1 & S1 & G1);
    [lia | ].
  rewrite C0 in C1, T1. cbn in C1, T1, S0, G0.
  assert (H1 : lt9211c_state_handler s = Done tt s1).
  { unfold lt9211c_state_handler, bind.
    rewrite module_config_dispatch, Est.
    unfold case_PREPARE, bind. rewrite E0, E1. reflexivity. }
  (* 29 more failed attempts *)
  destruct (attempts_no_picture 29 s1 Hs1 T1)
    as (s2 & E2 & Hs2 & C2 & T2 & S2 & G2); [lia | lia | ].
  (* the 31st run gives up *)
  destruct (handler_attempt_no_picture s2 Hs2 T2)
    as (s3 & E3 & Hs3 & C3 & T3 & S3 & G3); [lia | ].
  rewrite C2, C1 in C3, T3. cbn in C3, T3.
  exists s3. split.
  - change 31%nat with (1 + (29 + 1))%nat.
    rewrite run_work_app. cbn [run_work].
    unfold bind at 1. unfold bind at 1. rewrite H1. cbn [bind Ret].
    rewrite run_work_app. unfold bind at 1. rewrite E2.
    cbn [run_work]. unfold bind at 1. rewrite E3. reflexivity.
  - split; [exact Hs3 | ]. split; [exact T3 | ]. split; [exact C3 | ].
    split; [rewrite S3, S2, S1, S0; reflexivity | ].
    rewrite G3, G2, G1, G0. reflexivity.
Qed.

(** X18.  With no picture on the input (an active height below 400 and a
    format code other than 0x0a) the handler never stops: every run fails
    in the timing configuration and queues the next one with delay 0, and
    every 31st failure sends the machine back to Prepare, so the chip is
    reset once per 31 runs.  After 31 k runs from Prepare the machine is
    in Prepare again, with 31 k more entries in the schedule and k more
    pulses on the reset line. *)
Theorem no_picture_resets_every_31_runs (s : ctx) (k : nat) :
  P (regmap s) ->
  state s = LT9211C_STATE_PREPARE ->
  exists s',
    run_work (31 * k) s = Done tt s' /\
    state s' = LT9211C_STATE_PREPARE /\
    P (regmap s') /\
    scheduled (trace s') = repeat 0 (31 * k) ++ scheduled (trace s) /\
    gpio_events (trace s') = (2 * k + gpio_events (trace s))%nat.
Proof.
  revert s. induction k as [| k IH]; intros s Hs Est.
  - rewrite Nat.mul_0_r. exists s. repeat split; assumption.
  - destruct (cycle_no_picture s Hs Est) as (s1 & E1 & Hs1 & T1 & _ & S1 & G1).
    destruct (IH s1 Hs1 T1) as (s' & E' & T' & Hs' & S' & G').
    exists s'.
    replace (31 * S k)%nat with (31 + 31 * k)%nat by lia.
    split.
    + rewrite run_work_app. unfold bind. rewrite E1. exact E'.
    + split; [exact T' | ]. split; [exact Hs' | ]. split.
      * rewrite S', S1, app_assoc, <- repeat_app.
        rewrite (Nat.add_comm (31 * k) 31). reflexivity.
      * rewrite G', G1. lia.
Qed.

End NoPicture.

(** ** The uninitialised local of the source selections *)

Lemma land_above_byte (h x : Z) :
  0 <= x < 256 -> Z.land (h * 256) x = 0.
Proof.
  intros Hx. apply Z.bits_inj'. intros n Hn.
  rewrite Z.land_spec, Z.bits_0.
  destruct (Z.lt_ge_cases n 8) as [L | G].
  - change 256 with (2 ^ 8). rewrite Z.mul_pow2_bits_low by lia. reflexivity.
  - destruct (Z.eq_dec x 0) as [-> | Hnz].
    + rewrite Z.bits_0. apply andb_false_r.
    + rewrite (Z.bits_above_log2 x n); [apply andb_false_r | lia | ].
      apply Z.log2_lt_pow2; [lia | ].
      apply Z.lt_le_trans with (2 ^ 8); [exact (proj2 Hx) | ].
      apply Z.pow_le_mono_r; lia.
Qed.

Lemma add_above_byte (h x : Z) :
  0 <= x < 256 -> h * 256 + x = Z.lor (h * 256) x.
Proof.
  intros Hx. pose proof (land_above_byte h x Hx) as L.
  rewrite Z.add_nocarry_lxor by exact L. apply Z.lxor_lor, L.
Qed.

Lemma lor_low_byte (h x c : Z) :
  0 <= x < 256 -> 0 <= c < 256 ->
  Z.lor (h * 256 + x) c = h * 256 + Z.lor x c.
Proof.
  intros Hx Hc.
  assert (Hl : 0 <= Z.lor x c < 256).
  { split; [apply Z.lor_nonneg; lia | ].
    destruct (Z.eq_dec (Z.lor x c) 0) as [-> | Hnz]; [lia | ].
    assert (0 <= Z.lor x c) by (apply Z.lor_nonneg; lia).
    change 256 with (2 ^ 8). apply Z.log2_lt_pow2; [lia | ].
    rewrite Z.log2_lor by lia.
    apply Z.max_lub_lt.
    - destruct (Z.eq_dec x 0) as [-> | ?]; [cbn; lia | ].
      apply Z.log2_lt_pow2; lia.
    - destruct (Z.eq_dec c 0) as [-> | ?]; [cbn; lia | ].
      apply Z.log2_lt_pow2; lia. }
  rewrite (add_above_byte h x Hx), <- Z.lor_assoc.
  symmetry. apply add_above_byte, Hl.
Qed.

Lemma land_0xfc_low_byte (h x : Z) :
  0 <= x < 256 -> Z.land 0xfc (h * 256 + x) = Z.land 0xfc x.
Proof.
  intros Hx.
  change 0xfc with (Z.land 0xfc (Z.ones 8)) at 1.
  rewrite <- Z.land_assoc, (Z.land_comm (Z.ones 8)), Z.land_ones by lia.
  change (2 ^ 8) with 256.
  rewrite Z.add_comm, Z.mod_add by lia.
  rewrite Z.mod_small by exact Hx. reflexivity.
Qed.

Section SourceSelect.
Context {dev : Type} {RI : RegisterInterface dev}.

Local Abbreviation ctx := (lt9211c dev).

(** X19.  The clock source selection of the video check reads one byte
    into a [u32] local that was never initialised.  The mask 0xfc hides
    the three bytes above it in the first write to register 0x80; the
    second write does not: the value handed to [regmap_write] is what the
    stack held above the low byte, with the byte read back or-ed with the
    clock source below it. *)
Theorem chk_clk_src_sel_passes_stack_bytes (clk_src : Z) (s s' : ctx)
    (ret : Z) :
  0 <= clk_src < 256 ->
  lt9211c_system_video_chk_clk_src_sel clk_src s = Done ret s' ->
  let garbage := u32 (stack_garbage (fst (reg_write (regmap s) 0xff 0x81))) in
  exists b,
    0 <= b < 256 /\
    ((ret = - EPROBE_DEFER /\
      trace s'
      = [EvWrite 0x80 (Z.land 0xfc b); EvRead 0x80 1; EvWrite 0xff 0x81]
        ++ trace s) \/
     (exists b',
        0 <= b' < 256 /\
        trace s'
        = [EvWrite 0x80 (garbage / 256 * 256 + Z.lor b' clk_src);
           EvRead 0x80 1;
           EvWrite 0x80 (Z.land 0xfc b); EvRead 0x80 1; EvWrite 0xff 0x81]
          ++ trace s)).
Proof.
  intros Hc H garbage.
  unfold lt9211c_system_video_chk_clk_src_sel in H.
  rewrite bind_write in H. cbn beta in H. cbn [regmap with_regmap] in H.
  unfold bind at 1 in H. unfold uninit_u32 at 1 in H.
  cbn beta iota in H. cbn [regmap with_regmap] in H. fold garbage in H.
  unfold bind at 1 in H. rewrite read_low_byte_eq in H.
  cbn beta iota in H. cbn [regmap with_regmap] in H.
  match type of H with
  | context [garbage / 256 * 256 + u8 ?x] =>
      set (b := u8 x) in *; assert (Hb : 0 <= b < 256) by apply u8_range
  end.
  rewrite land_0xfc_low_byte in H by exact Hb.
  exists b. split; [exact Hb | ].
  cbn [regmap_multi_reg_write] in H.
  unfold bind at 1 in H. unfold bind at 1 in H.
  rewrite regmap_write_eq in H. cbn [regmap with_regmap] in H.
  match type of H with
  | context [snd ?w =? 0] => destruct (snd w =? 0) eqn:E0
  end.
  - cbn [Ret Z.ltb Z.compare] in H.
    unfold bind at 1 in H. rewrite read_low_byte_eq in H.
    cbn beta iota in H. cbn [regmap with_regmap] in H.
    rewrite regmap_write_eq in H. cbn [regmap with_regmap] in H.
    match type of H with
    | context [(garbage / 256 * 256 + b) / 256 * 256 + u8 ?x] =>
        set (b' := u8 x) in *; assert (Hb' : 0 <= b' < 256) by apply u8_range
    end.
    assert (Eg : (garbage / 256 * 256 + b) / 256 = garbage / 256).
    { rewrite Z.add_comm, Z.div_add by lia.
      rewrite (Z.div_small b) by lia. reflexivity. }
    rewrite Eg, lor_low_byte in H by assumption.
    right. exists b'. split; [exact Hb' | ].
    apply Ret_inv in H. destruct H as [_ H]. subst s'. reflexivity.
  - cbn [Ret] in H.
    match type of H with
    | context [?r <? 0] => destruct (r <? 0) eqn:Eneg
    end.
    + left. apply Ret_inv in H. destruct H as [Hr H]. subst ret s'.
      split; reflexivity.
    + unfold bind at 1 in H. rewrite read_low_byte_eq in H.
      cbn beta iota in H. cbn [regmap with_regmap] in H.
      rewrite regmap_write_eq in H. cbn [regmap with_regmap] in H.
      match type of H with
      | context [(garbage / 256 * 256 + b) / 256 * 256 + u8 ?x] =>
          set (b' := u8 x) in *;
          assert (Hb' : 0 <= b' < 256) by apply u8_range
      end.
      assert (Eg : (garbage / 256 * 256 + b) / 256 = garbage / 256).
      { rewrite Z.add_comm, Z.div_add by lia.
        rewrite (Z.div_small b) by lia. reflexivity. }
      rewrite Eg, lor_low_byte in H by assumption.
      right. exists b'. split; [exact Hb' | ].
      apply Ret_inv in H. destruct H as [_ H]. subst s'. reflexivity.
Qed.

End SourceSelect.

(** ** Further runs on the simulated chip *)

Lemma silent_chip_never_calibrated : never_calibrated silent_chip.
Proof.
  intros d H. unfold silent_chip in H. cbn. rewrite H. cbn. discriminate.
Qed.

Lemma silent_chip_never_video_stable : never_video_stable silent_chip.
Proof.
  intros d H. unfold silent_chip in H. cbn. rewrite H. cbn. discriminate.
Qed.

Lemma silent_chip_no_picture : no_picture silent_chip.
Proof.
  intros d H. unfold silent_chip in H. cbn. rewrite H. cbn.
  split; [lia | discriminate].
Qed.

Lemma meter_only_chip_invariant : transfer_invariant meter_only_chip.
Proof.
  split.
  - intros d reg val H. unfold meter_only_chip in *. cbn.
    destruct (reg =? 255); [exact H | exact H].
  - intros d reg count H. exact H.
Qed.

Lemma meter_only_chip_never_locked : never_locked meter_only_chip.
Proof.
  intros d H. unfold meter_only_chip in H. cbn. rewrite H. reflexivity.
Qed.

Lemma meter_only_chip_meter_runs : meter_runs meter_only_chip.
Proof.
  intros d H. unfold meter_only_chip in H. cbn. rewrite H. cbn. discriminate.
Qed.

Lemma no_signal_skips_matcher_witness :
  exists s1,
    lt9211c_mipi_rx_video_timing_config (sim_ctx regs_silent)
    = Done (- EPROBE_DEFER) s1 /\
    video_timing s1 = video_timing_zero.
Proof.
  destruct (no_signal_skips_matcher (sim_ctx regs_silent))
    as (ret & s1 & E & Hneg & _).
  eassert (E0 : lt9211c_mipi_rx_video_timing_get (sim_ctx regs_silent)
                = Done (- EPROBE_DEFER) _) by (vm_compute; reflexivity).
  rewrite E0 in E. injection E as <- <-.
  eexists. apply Hneg. lia.
Defined.

Lemma tx_pll_calibration_bounded_witness :
  exists ret s',
    lt9211c_lvds_tx_pll_calibration (sim_ctx regs_silent) = Done ret s' /\
    txpll_rounds (trace s') = 4%nat.
Proof.
  destruct (tx_pll_calibration_bounded (sim_ctx regs_silent))
    as (ret & s' & E & _ & _ & H).
  exists ret, s'. split; [exact E | ].
  exact (H silent_chip silent_chip_invariant silent_chip_never_calibrated
           eq_refl).
Defined.

Lemma tx_config_video_uses_measured_clock_witness :
  exists ret s',
    lt9211c_lvds_tx_config_video (sim_ctx regs_1080p60) = Done ret s' /\
    pclk_khz (video_timing s') = 148500.
Proof.
  destruct (tx_config_video_uses_measured_clock (sim_ctx regs_1080p60))
    as (clk & s1 & E & _ & _ & H).
  eassert (E0 : lt9211c_system_fm_clk_get LT9211C_AD_DESSCPLL_PIX_CLK
                  (sim_ctx regs_1080p60) = Done 148500 _)
    by (vm_compute; reflexivity).
  rewrite E0 in E. injection E as <- <-.
  destruct H as (ret & s' & E' & _ & V & _); [discriminate | ].
  exists ret, s'. split; [exact E' | ]. rewrite V. reflexivity.
Defined.

Lemma stability_wait_gives_up_witness :
  exists s',
    pll_config_tail (sim_ctx regs_silent) = Done tt s' /\
    state s' = LT9211C_STATE_CHIPTX_CONFIG_VIDEO /\
    counter s' = 51.
Proof.
  destruct (stability_wait_gives_up (sim_ctx regs_silent))
    as (s' & E & T & _ & _ & _ & H).
  exists s'. split; [exact E | ]. split; [exact T | ].
  exact (H silent_chip silent_chip_invariant silent_chip_never_video_stable
           eq_refl).
Defined.


Lemma output_stage_retries_forever_witness :
  exists s',
    run_work 3 (upd_state LT9211C_STATE_CHIPTX_CONFIG_VIDEO
                          (sim_ctx regs_meter_only)) = Done tt s' /\
    state s' = LT9211C_STATE_CHIPTX_CONFIG_VIDEO /\
    counter s' = 0 /\
    scheduled (trace s') = [0; 0; 0] /\
    meter_only_chip (regmap s').
Proof.
  exact (output_stage_retries_forever
           meter_only_chip meter_only_chip_invariant
           (upd_state LT9211C_STATE_CHIPTX_CONFIG_VIDEO
                      (sim_ctx regs_meter_only)) 3
           meter_only_chip_never_locked meter_only_chip_meter_runs
           eq_refl eq_refl).
Defined.

Lemma no_picture_resets_every_31_runs_witness :
  exists s',
    run_work 62 (sim_ctx regs_silent) = Done tt s' /\
    state s' = LT9211C_STATE_PREPARE /\
    silent_chip (regmap s') /\
    scheduled (trace s') = repeat 0 62 /\
    gpio_events (trace s') = 4%nat.
Proof.
  destruct (no_picture_resets_every_31_runs
              silent_chip silent_chip_invariant silent_chip_no_picture
              (sim_ctx regs_silent) 2 eq_refl eq_refl)
    as (s' & E & T & Hs & S & G).
  exists s'. split; [exact E | ]. split; [exact T | ]. split; [exact Hs | ].
  split; [rewrite S; apply app_nil_r | exact G].
Defined.

Lemma chk_clk_src_sel_passes_stack_bytes_witness :
  exists ret s',
    lt9211c_system_video_chk_clk_src_sel LT9211C_MLRX_BYTE_CLK
      (mk_ctx (mk_simdev 0 regs_silent 0xdeadbeef) 4 227
              LT9211C_STATE_PREPARE rx_timing_zero video_timing_zero 0 []) = Done ret s' /\
    exists b,
      0 <= b < 256 /\
      ((ret = - EPROBE_DEFER /\
        trace s'
        = [EvWrite 0x80 (Z.land 0xfc b); EvRead 0x80 1; EvWrite 0xff 0x81]) \/
       (exists b',
          0 <= b' < 256 /\
          trace s'
          = [EvWrite 0x80 (0xdeadbe00 + Z.lor b' 3); EvRead 0x80 1;
             EvWrite 0x80 (Z.land 0xfc b); EvRead 0x80 1; EvWrite 0xff 0x81])).
Proof.
  eassert (E : lt9211c_system_video_chk_clk_src_sel LT9211C_MLRX_BYTE_CLK
                 (mk_ctx (mk_simdev 0 regs_silent 0xdeadbeef) 4 227
                         LT9211C_STATE_PREPARE rx_timing_zero
                         video_timing_zero 0 []) = Done _ _)
    by (vm_compute; reflexivity).
  assert (Hc : 0 <= LT9211C_MLRX_BYTE_CLK < 256)
    by (change (0 <= 3 < 256); lia).
  eexists _, _. split; [exact E | ].
  exact (chk_clk_src_sel_passes_stack_bytes _ _ _ _ Hc E).
Defined.
